(** * compilebench: a shallow embedding of the measurement and parsing pipeline

    The development follows [src/main.go] (the current generation of the
    tool) and, where it differs, the older generation of the same file
    ([src/unnamed/part_000]).  Go strings are byte sequences: they are
    modelled as [string] (a list of 8-bit [ascii]).  [int64] values are [Z]
    with the wrap-around written out.  The filesystem is a finite map from
    paths to contents. *)

From Stdlib Require Import ZArith Ascii String List Bool Lia.
From Stdlib Require Import Numbers.DecimalString.
From stdpp Require Import base option list strings gmap.

Local Open Scope string_scope.
Local Open Scope Z_scope.

(** ** Part 1: the Go library functions the program calls *)

Module GoLib.

(** A byte of a Go string as a number. *)
Definition byteZ (c : ascii) : Z := Z.of_N (N_of_ascii c).

(** *** unicode/utf8: DecodeRuneInString *)

Definition RuneError : Z := 0xFFFD.

(** The [first] table of package utf8: what a leading byte announces.
    [LMulti size lo hi] is a sequence of [size] bytes whose second byte
    must lie in [lo, hi] (the accept range of the table entry). *)
Inductive lead : Type :=
  | LAscii
  | LInvalid
  | LMulti (size : nat) (lo hi : Z).

Definition first (b0 : Z) : lead :=
  if b0 <? 0x80 then LAscii
  else if b0 <? 0xC2 then LInvalid
  else if b0 <? 0xE0 then LMulti 2 0x80 0xBF
  else if b0 =? 0xE0 then LMulti 3 0xA0 0xBF
  else if b0 <? 0xED then LMulti 3 0x80 0xBF
  else if b0 =? 0xED then LMulti 3 0x80 0x9F
  else if b0 <? 0xF0 then LMulti 3 0x80 0xBF
  else if b0 =? 0xF0 then LMulti 4 0x90 0xBF
  else if b0 <? 0xF4 then LMulti 4 0x80 0xBF
  else if b0 =? 0xF4 then LMulti 4 0x80 0x8F
  else LInvalid.

Definition is_cont (b : Z) : bool := (0x80 <=? b) && (b <=? 0xBF).

(** The rune at the start of [s] and its width in bytes; malformed input
    decodes to [(RuneError, 1)], the empty string to [(RuneError, 0)]. *)
Definition DecodeRuneInString (s : string) : Z * nat :=
  match s with
  | EmptyString => (RuneError, 0%nat)
  | String c0 s1 =>
    let b0 := byteZ c0 in
    match first b0 with
    | LAscii => (b0, 1%nat)
    | LInvalid => (RuneError, 1%nat)
    | LMulti sz lo hi =>
      match s1 with
      | EmptyString => (RuneError, 1%nat)
      | String c1 s2 =>
        let b1 := byteZ c1 in
        if (Nat.ltb (String.length s) sz) || (b1 <? lo) || (hi <? b1)
        then (RuneError, 1%nat)
        else if Nat.leb sz 2 then
          (Z.lor (Z.shiftl (Z.land b0 0x1F) 6) (Z.land b1 0x3F), 2%nat)
        else
          match s2 with
          | EmptyString => (RuneError, 1%nat)
          | String c2 s3 =>
            let b2 := byteZ c2 in
            if negb (is_cont b2) then (RuneError, 1%nat)
            else if Nat.leb sz 3 then
              (Z.lor (Z.lor (Z.shiftl (Z.land b0 0x0F) 12)
                            (Z.shiftl (Z.land b1 0x3F) 6))
                     (Z.land b2 0x3F), 3%nat)
            else
              match s3 with
              | EmptyString => (RuneError, 1%nat)
              | String c3 _ =>
                let b3 := byteZ c3 in
                if negb (is_cont b3) then (RuneError, 1%nat)
                else
                  (Z.lor (Z.lor (Z.lor (Z.shiftl (Z.land b0 0x07) 18)
                                       (Z.shiftl (Z.land b1 0x3F) 12))
                                (Z.shiftl (Z.land b2 0x3F) 6))
                         (Z.land b3 0x3F), 4%nat)
              end
          end
      end
    end
  end.

(** *** unicode: IsSpace (Latin-1 switch, then the White_Space table) *)
Definition IsSpace (r : Z) : bool :=
  if (0 <=? r) && (r <=? 0xFF) then
    (r =? 0x09) || (r =? 0x0A) || (r =? 0x0B) || (r =? 0x0C) || (r =? 0x0D)
    || (r =? 0x20) || (r =? 0x85) || (r =? 0xA0)
  else
    (r =? 0x1680) || ((0x2000 <=? r) && (r <=? 0x200A))
    || (r =? 0x2028) || (r =? 0x2029) || (r =? 0x202F) || (r =? 0x205F)
    || (r =? 0x3000).

(** *** strings: FieldsFunc, Fields, Split, HasPrefix, Contains *)

Definition flush (cur : option string) : list string :=
  match cur with Some w => [w] | None => [] end.

Definition push (cur : option string) (c : ascii) : string :=
  match cur with Some w => w +:+ String c "" | None => String c "" end.

(** The loop [for end, rune := range s] of strings.FieldsFunc.  [skip]
    counts the bytes still belonging to the rune decoded last; [cur] is the
    field being collected, if the scan is inside one. *)
Fixpoint FieldsFunc_from (f : Z -> bool) (s : string) (skip : nat)
    (cur : option string) : list string :=
  match s with
  | EmptyString => flush cur
  | String c s' =>
    match skip with
    | S k =>
      FieldsFunc_from f s' k
        (match cur with Some _ => Some (push cur c) | None => None end)
    | O =>
      let '(r, size) := DecodeRuneInString s in
      if f r then flush cur ++ FieldsFunc_from f s' (Nat.pred size) None
      else FieldsFunc_from f s' (Nat.pred size) (Some (push cur c))
    end
  end.

Definition FieldsFunc (s : string) (f : Z -> bool) : list string :=
  FieldsFunc_from f s 0 None.

(** strings.Fields: the maximal runs of runes that are not white space (its
    fast path for pure ASCII input computes the same list). *)
Definition Fields (s : string) : list string := FieldsFunc s IsSpace.

(** strings.Split for a separator of one byte, the only way the program
    calls it ([sep] is the newline).  The result is never empty. *)
Fixpoint Split (s : string) (sep : ascii) : list string :=
  match s with
  | EmptyString => [""]
  | String c s' =>
    if Ascii.eqb c sep then "" :: Split s' sep
    else
      match Split s' sep with
      | h :: t => String c h :: t
      | [] => [String c ""]
      end
  end.

Definition newline : ascii := ascii_of_nat 10.

Definition HasPrefix (s pre : string) : bool := String.prefix pre s.

Fixpoint Contains (s substr : string) : bool :=
  String.prefix substr s
  || match s with
     | EmptyString => false
     | String _ s' => Contains s' substr
     end.

(** *** strconv: ParseUint and ParseInt with base 0 and bitSize 64

    As in the current strconv: with base 0 the prefixes [0b], [0o] and [0x]
    select the base, a bare leading [0] means octal, and underscores may
    separate digits.  The program only asks whether the call failed. *)

Inductive NumResult : Type :=
  | NumOk (n : Z)
  | ErrSyntax
  | ErrRange.

Definition lower (c : Z) : Z := Z.lor c 0x20.

Definition maxUint64 : Z := 2 ^ 64 - 1.

(** What [int64(x)] and [uint64(x)] keep of an integer. *)
Definition uint64 (z : Z) : Z := z mod 2 ^ 64.
Definition int64 (z : Z) : Z := (z + 2 ^ 63) mod 2 ^ 64 - 2 ^ 63.

(** Value of one digit byte, if it is a digit or a letter. *)
Definition digit_val (c : Z) : option Z :=
  if (0x30 <=? c) && (c <=? 0x39) then Some (c - 0x30)
  else if (0x61 <=? lower c) && (lower c <=? 0x7A) then Some (lower c - 0x61 + 10)
  else None.

(** The digit loop of ParseUint.  [base0] says that the caller passed base 0
    (underscores are then read over); the result carries whether an
    underscore was seen. *)
Fixpoint ParseUint_loop (base : Z) (base0 : bool) (s : string) (n : Z)
    (underscores : bool) : NumResult * bool :=
  match s with
  | EmptyString => (NumOk n, underscores)
  | String ch s' =>
    let c := byteZ ch in
    if (c =? 0x5F) && base0 then ParseUint_loop base base0 s' n true
    else
      match digit_val c with
      | None => (ErrSyntax, underscores)
      | Some d =>
        if base <=? d then (ErrSyntax, underscores)
        else if maxUint64 / base + 1 <=? n then (ErrRange, underscores)
        else
          let n0 := uint64 (n * base) in
          let n1 := uint64 (n0 + d) in
          if (n1 <? n0) || (maxUint64 <? n1) then (ErrRange, underscores)
          else ParseUint_loop base base0 s' n1 underscores
      end
  end.

(** strconv.underscoreOK: underscores only between digits or after the base
    prefix.  [saw] is the last character class seen. *)
Inductive saw_t : Type := SawStart | SawDigit | SawUnderscore | SawOther.

Fixpoint underscoreOK_loop (hex : bool) (s : string) (saw : saw_t) : bool :=
  match s with
  | EmptyString => match saw with SawUnderscore => false | _ => true end
  | String ch s' =>
    let c := byteZ ch in
    if ((0x30 <=? c) && (c <=? 0x39))
       || (hex && (0x61 <=? lower c) && (lower c <=? 0x66))
    then underscoreOK_loop hex s' SawDigit
    else if c =? 0x5F then
      match saw with
      | SawDigit => underscoreOK_loop hex s' SawUnderscore
      | _ => false
      end
    else
      match saw with
      | SawUnderscore => false
      | _ => underscoreOK_loop hex s' SawOther
      end
  end.

Definition is_sign (c : ascii) : bool := (byteZ c =? 0x2B) || (byteZ c =? 0x2D).

Definition underscoreOK (s : string) : bool :=
  let s :=
    match s with
    | String c s' => if is_sign c then s' else s
    | EmptyString => s
    end in
  match s with
  | String c0 (String c1 s') =>
    let l := lower (byteZ c1) in
    if (byteZ c0 =? 0x30) && ((l =? 0x62) || (l =? 0x6F) || (l =? 0x78))
    then underscoreOK_loop (l =? 0x78) s' SawDigit
    else underscoreOK_loop false s SawStart
  | _ => underscoreOK_loop false s SawStart
  end.

(** ParseUint(s, 0, 64): the base is read off the prefix. *)
Definition ParseUint0 (s0 : string) : NumResult :=
  match s0 with
  | EmptyString => ErrSyntax
  | String c0 rest =>
    let '(base, s) :=
      if byteZ c0 =? 0x30 then
        match rest with
        | String c1 (String c2 r2) =>
          let l := lower (byteZ c1) in
          if l =? 0x62 then (2, String c2 r2)
          else if l =? 0x6F then (8, String c2 r2)
          else if l =? 0x78 then (16, String c2 r2)
          else (8, rest)
        | _ => (8, rest)
        end
      else (10, s0) in
    match ParseUint_loop base true s 0 false with
    | (NumOk n, underscores) =>
      if underscores && negb (underscoreOK s0) then ErrSyntax else NumOk n
    | (e, _) => e
    end
  end.

(** ParseInt(s, 0, 64). *)
Definition ParseInt0 (s0 : string) : NumResult :=
  match s0 with
  | EmptyString => ErrSyntax
  | String c0 rest =>
    let neg := byteZ c0 =? 0x2D in
    let s := if is_sign c0 then rest else s0 in
    match ParseUint0 s with
    | ErrSyntax => ErrSyntax
    | r =>
      let un := match r with NumOk n => n | _ => maxUint64 end in
      let cutoff := 2 ^ 63 in
      if negb neg && (cutoff <=? un) then ErrRange
      else if neg && (cutoff <? un) then ErrRange
      else
        let n := int64 un in
        NumOk (if neg then int64 (- n) else n)
    end
  end.

(** *** fmt: the verbs the program uses *)

Inductive arg : Type :=
  | AStr (s : string)
  | AInt (z : Z).

(** [%d] of an integer: decimal digits, a minus sign when negative. *)
Definition itoa (z : Z) : string := NilZero.string_of_int (Z.to_int z).

Definition percent : ascii := ascii_of_nat 37.

(** Sprintf for formats made of literal text and the verbs [%s], [%d] and
    [%v], applied to strings (or values printed through their text: byte
    slices, errors) and integers.  [None] outside that fragment, where Go
    prints an error marker; no call of the program falls there. *)
Fixpoint Sprintf (fmt : string) (args : list arg) : option string :=
  match fmt with
  | EmptyString => match args with [] => Some "" | _ => None end
  | String c fmt' =>
    if Ascii.eqb c percent then
      match fmt' with
      | String v fmt'' =>
        match args with
        | a :: args' =>
          let text :=
            match a with
            | AStr s =>
              if Ascii.eqb v "s" || Ascii.eqb v "v" then Some s else None
            | AInt z =>
              if Ascii.eqb v "d" || Ascii.eqb v "v" then Some (itoa z) else None
            end in
          match text, Sprintf fmt'' args' with
          | Some t, Some r => Some (t +:+ r)
          | _, _ => None
          end
        | [] => None
        end
      | EmptyString => None
      end
    else
      match Sprintf fmt' args with
      | Some r => Some (String c r)
      | None => None
      end
  end.

(** The Go string ["\n"]. *)
Definition LF : string := String newline "".

(** [f[i]] on a slice of strings.  Go panics out of range; every use in the
    program stands behind a test of [len(f)]. *)
Definition index (f : list string) (i : nat) : string := nth i f "".

Definition len {A : Type} (l : list A) : Z := Z.of_nat (length l).

(** [s != ""] *)
Definition nonempty (s : string) : bool := negb (String.eqb s "").

End GoLib.

(** ** Part 2: the world the program runs in *)

Module Sys.
Import GoLib.

(** An external command as built by exec.Command, with its working
    directory ([""] when cmd.Dir is left unset). *)
Record Cmd : Type := mkCmd {
  cmd_path : string;
  cmd_args : list string;
  cmd_dir : string
}.

(** What one run of an external command did: its error ([None] for exit
    status 0), what it wrote to its standard output and standard error, the
    filesystem it left, its wall-clock duration and its user CPU time, both
    in nanoseconds. *)
Record ExecResult : Type := mkExecResult {
  exec_err : option string;
  exec_out : string;
  exec_fs : gmap string string;
  exec_wall : Z;
  exec_user : Z
}.

(** One write to the standard error stream: a line of package log, or the
    output of a child process whose streams were wired to os.Stderr. *)
Inductive Diag : Type :=
  | LogLine (text : string)
  | ChildOutput (text : string).

Record Flags : Type := mkFlags {
  flagAlloc : bool;
  flagToolexec : string;
  flagCompilerFlags : string;
  flagCount : Z;
  flagCpuprofile : string;
  flagMemprofile : string;
  flagMemprofilerate : Z;
  flagShort : bool
}.

Record World : Type := mkWorld {
  flags : Flags;
  fs : gmap string string;
  stdout : list string;
  stderr : list Diag;
  now : Z;
  execs : list Cmd
}.

(** How a function leaves: by returning, or through os.Exit (log.Fatal). *)
Inductive Outcome : Type :=
  | Done (w : World)
  | Exited (code : Z) (w : World).

Definition world_of (o : Outcome) : World :=
  match o with Done w => w | Exited _ w => w end.

Definition set_flags (fl : Flags) (w : World) : World :=
  mkWorld fl (fs w) (stdout w) (stderr w) (now w) (execs w).

Definition set_fs (m : gmap string string) (w : World) : World :=
  mkWorld (flags w) m (stdout w) (stderr w) (now w) (execs w).

(** fmt.Printf: one write to the standard output. *)
Definition Printf (fmt : string) (args : list arg) (w : World) : World :=
  match Sprintf fmt args with
  | Some text =>
    mkWorld (flags w) (fs w) (stdout w ++ [text]) (stderr w) (now w) (execs w)
  | None => w
  end.

Definition to_stderr (d : Diag) (w : World) : World :=
  mkWorld (flags w) (fs w) (stdout w) (stderr w ++ [d]) (now w) (execs w).

Fixpoint ends_with_newline (s : string) : bool :=
  match s with
  | EmptyString => false
  | String c EmptyString => Ascii.eqb c newline
  | String _ s' => ends_with_newline s'
  end.

Definition log_prefix : string := "compilebench: ".

(** What package log writes for a message after log.SetFlags(0) and
    log.SetPrefix: the prefix, the message, and a newline unless the message
    ends in one. *)
Definition log_line (msg : string) : string :=
  log_prefix +:+ msg +:+ (if ends_with_newline msg then "" else LF).

Definition log_Print (msg : string) (w : World) : World :=
  to_stderr (LogLine (log_line msg)) w.

Definition log_Printf (fmt : string) (args : list arg) (w : World) : World :=
  match Sprintf fmt args with
  | Some msg => log_Print msg w
  | None => w
  end.

Definition log_Fatal (msg : string) (w : World) : Outcome :=
  Exited 1 (log_Print msg w).

Definition err_not_exist (op path : string) : string :=
  op +:+ " " +:+ path +:+ ": no such file or directory".

Definition err_permission (path : string) : string :=
  "open " +:+ path +:+ ": permission denied".

(** ioutil.ReadFile: the contents, or no data and an error for a path that
    is not in the filesystem. *)
Definition ReadFile (path : string) (w : World) : string * option string :=
  match fs w !! path with
  | Some data => (data, None)
  | None => ("", Some (err_not_exist "open" path))
  end.

(** os.Stat, of which the program reads the size only. *)
Definition Stat (path : string) (w : World) : Z + string :=
  match fs w !! path with
  | Some data => inl (Z.of_nat (String.length data))
  | None => inr (err_not_exist "stat" path)
  end.

(** os.Remove, whose error the program drops. *)
Definition Remove (path : string) (w : World) : World :=
  set_fs (delete path (fs w)) w.

(** The environment: what an external command does, given the commands run
    before it and the filesystem it starts in; which paths can be written;
    how go/build resolves an import path to the directory and the Go files
    of a package; filepath.Join; and runtime.GOROOT(). *)
Record Env : Type := mkEnv {
  exec : Cmd -> list Cmd -> gmap string string -> ExecResult;
  writable : string -> bool;
  build_Import : string -> (string * list string) + string;
  filepath_Join : list string -> string;
  GOROOT : string
}.

(** ioutil.WriteFile. *)
Definition WriteFile (E : Env) (path data : string) (w : World)
    : World * option string :=
  if writable E path then (set_fs (<[path := data]> (fs w)) w, None)
  else (w, Some (err_permission path)).

(** Running a command to completion.  With [capture] the output is handed
    back (CombinedOutput); without, the child writes straight to the
    standard error stream (cmd.Stdout = cmd.Stderr = os.Stderr, cmd.Run). *)
Definition run (E : Env) (capture : bool) (c : Cmd) (w : World)
    : World * ExecResult :=
  let r := exec E c (execs w) (fs w) in
  let err' :=
    if capture then stderr w
    else (stderr w ++ [ChildOutput (exec_out r)])%list in
  (mkWorld (flags w) (exec_fs r) (stdout w) err' (now w + exec_wall r)
           (execs w ++ [c]), r).

Definition CombinedOutput (E : Env) := run E true.
Definition Run (E : Env) := run E false.

End Sys.

(** ** Part 3: src/main.go *)

Module Main.
Import GoLib Sys.

(** The table [tests]. *)
Record Test : Type := mkTest {
  name : string;
  dir : string;
  long : bool
}.

Definition tests : list Test :=
  [ mkTest "BenchmarkTemplate" "html/template" false;
    mkTest "BenchmarkUnicode" "unicode" false;
    mkTest "BenchmarkGoTypes" "go/types" false;
    mkTest "BenchmarkCompiler" "cmd/compile/internal/gc" false;
    mkTest "BenchmarkStdCmd" "" true;
    mkTest "BenchmarkHelloSize" "" false;
    mkTest "BenchmarkCmdGoSize" "" true ].

(** The package variables that [main] sets before the benchmarks run: the
    compiler path, whether it is the old 6g, and the compiled -run
    expression ([None] for a nil [runRE]; the regexp engine is outside the
    program, so a compiled expression is its MatchString). *)
Record Globals : Type := mkGlobals {
  compiler : string;
  is6g : bool;
  runRE : option (string -> bool)
}.

(** The two counters read off a memory profile. *)
Record Counters : Type := mkCounters {
  allocs : Z;
  bytes : Z
}.

(** One round of the loop over the lines of the profile
    (main.go 346-361, the same text as part_000 168-183). *)
Definition scan_line (acc : Counters) (line : string) : Counters :=
  let f := Fields line in
  if (len f <? 4) || negb (String.eqb (index f 0) "#")
     || negb (String.eqb (index f 2) "=")
  then acc
  else
    match ParseInt0 (index f 3) with
    | NumOk val =>
      if String.eqb (index f 1) "TotalAlloc" then mkCounters (allocs acc) val
      else if String.eqb (index f 1) "Mallocs" then mkCounters val (bytes acc)
      else acc
    | _ => acc
    end.

(** The whole loop, from [var allocs, bytes int64]. *)
Definition scanProfile (out : string) : Counters :=
  fold_left scan_line (Split out newline) (mkCounters 0 0).

Definition memprof (pkgdir : string) : string :=
  pkgdir +:+ "/_compilebench_.memprof".
Definition cpuprof (pkgdir : string) : string :=
  pkgdir +:+ "/_compilebench_.cpuprof".
Definition objfile (pkgdir : string) : string :=
  pkgdir +:+ "/_compilebench_.o".
Definition compilebenchout : string := "_compilebenchout_".

Section Program.

Variable E : Env.
Variable G : Globals.

Definition runCmd (name : string) (cmd : Cmd) (w : World) : World :=
  let start := now w in
  let '(w1, r) := CombinedOutput E cmd w in
  match exec_err r with
  | Some err =>
    log_Printf ("%v: %v" +:+ LF +:+ "%s")
      [AStr name; AStr err; AStr (exec_out r)] w1
  | None =>
    Printf ("%s 1 %d ns/op" +:+ LF) [AStr name; AInt (now w1 - start)] w1
  end.

Definition toolexec_args (w : World) : list string :=
  if nonempty (flagToolexec (flags w))
  then ["-toolexec"; flagToolexec (flags w)]
  else [].

Definition runStdCmd (w : World) : World :=
  let args := (["build"; "-a"] ++ toolexec_args w ++ ["std"; "cmd"])%list in
  runCmd "BenchmarkStdCmd"
    (mkCmd "go" args (filepath_Join E [GOROOT E; "src"])) w.

(** The tail of runSize, from the split of the size output on
    (main.go 266-276). *)
Definition size_report (name out : string) (size : Z) (w : World) : World :=
  let lines := Split out newline in
  if len lines <? 2 then
    log_Printf "not enough output from size: %s" [AStr out] w
  else
    let f := Fields (index lines 1) in
    if HasPrefix (index lines 0) "__TEXT" && (2 <=? len f) then
      Printf ("%s 1 %s text-bytes %s data-bytes %v exe-bytes" +:+ LF)
        [AStr name; AStr (index f 0); AStr (index f 1); AInt size] w
    else if Contains (index lines 0) "bss" && (3 <=? len f) then
      Printf
        ("%s 1 %s text-bytes %s data-bytes %s bss-bytes %v exe-bytes" +:+ LF)
        [AStr name; AStr (index f 0); AStr (index f 1); AStr (index f 2);
         AInt size] w
    else w.

Definition runSize (name path : string) (w : World) : World :=
  let args :=
    (["build"; "-o"; compilebenchout] ++ toolexec_args w ++ [path])%list in
  let '(w1, r) := Run E (mkCmd "go" args "") w in
  match exec_err r with
  | Some err => log_Print err w1
  | None =>
    (* defer os.Remove("_compilebenchout_"): runs at each return below *)
    Remove compilebenchout
      match Stat compilebenchout w1 with
      | inr err => log_Print err w1
      | inl size =>
        let '(w2, r2) :=
          CombinedOutput E (mkCmd "size" [compilebenchout] "") w1 in
        match exec_err r2 with
        | Some err =>
          log_Printf ("size: %v" +:+ LF +:+ "%s")
            [AStr err; AStr (exec_out r2)] w2
        | None => size_report name (exec_out r2) size w2
        end
      end
  end.

(** [if is6g { ... }]: the four flags the old compiler does not know. *)
Definition reset_6g (fl : Flags) : Flags :=
  mkFlags false (flagToolexec fl) (flagCompilerFlags fl) (flagCount fl)
          "" "" (-1) (flagShort fl).

Definition want_memprof (w : World) : bool :=
  flagAlloc (flags w) || nonempty (flagMemprofile (flags w)).

Definition compile_args (files : list string) (w : World) : list string :=
  (["-o"; "_compilebench_.o"]
   ++ (if 0 <=? flagMemprofilerate (flags w)
       then ["-memprofilerate"; itoa (flagMemprofilerate (flags w))]
       else [])
   ++ Fields (flagCompilerFlags (flags w))
   ++ (if want_memprof w then ["-memprofile"; "_compilebench_.memprof"] else [])
   ++ (if nonempty (flagCpuprofile (flags w))
       then ["-cpuprofile"; "_compilebench_.cpuprof"]
       else [])
   ++ files)%list.

(** main.go 340-369: read, scan, copy and remove the memory profile. *)
Definition memprofile_step (pkgdir : string) (w : World) : World * Counters :=
  if want_memprof w then
    let '(out, err) := ReadFile (memprof pkgdir) w in
    let w1 :=
      match err with
      | Some _ => log_Print "cannot find memory profile after compilation" w
      | None => w
      end in
    let c := scanProfile out in
    let w2 :=
      if nonempty (flagMemprofile (flags w1)) then
        match WriteFile E (flagMemprofile (flags w1)) out w1 with
        | (w', Some e) => log_Print e w'
        | (w', None) => w'
        end
      else w1 in
    (Remove (memprof pkgdir) w2, c)
  else (w, mkCounters 0 0).

(** main.go 371-380: copy and remove the CPU profile. *)
Definition cpuprofile_step (pkgdir : string) (w : World) : World :=
  if nonempty (flagCpuprofile (flags w)) then
    let '(out, err) := ReadFile (cpuprof pkgdir) w in
    let w1 := match err with Some e => log_Print e w | None => w end in
    let w2 :=
      match WriteFile E (flagCpuprofile (flags w1)) out w1 with
      | (w', Some e) => log_Print e w'
      | (w', None) => w'
      end in
    Remove (cpuprof pkgdir) w2
  else w.

(** main.go 385-389: the record of a compilation. *)
Definition print_result (name : string) (wallns userns : Z) (c : Counters)
    (w : World) : World :=
  if flagAlloc (flags w) then
    Printf ("%s 1 %d ns/op %d user-ns/op %d B/op %d allocs/op" +:+ LF)
      [AStr name; AInt wallns; AInt userns; AInt (bytes c); AInt (allocs c)] w
  else
    Printf ("%s 1 %d ns/op %d user-ns/op" +:+ LF)
      [AStr name; AInt wallns; AInt userns] w.

(** main.go 309-391: the compilation of [files] in [pkgdir]. *)
Definition compile (name : string) (files : list string) (pkgdir : string)
    (w : World) : World :=
  let w0 := if is6g G then set_flags (reset_6g (flags w)) w else w in
  let cmd := mkCmd (compiler G) (compile_args files w0) pkgdir in
  let start := now w0 in
  let '(w1, r) := Run E cmd w0 in
  match exec_err r with
  | Some err => log_Printf "%v: %v" [AStr name; AStr err] w1
  | None =>
    let end_ := now w1 in
    let '(w2, c) := memprofile_step pkgdir w1 in
    let w3 := cpuprofile_step pkgdir w2 in
    let wallns := end_ - start in
    let userns := exec_user r in
    let w4 := print_result name wallns userns c w3 in
    Remove (objfile pkgdir) w4
  end.

Definition runBuild (name dir file : string) (w : World) : Outcome :=
  if String.eqb name "BenchmarkStdCmd" then Done (runStdCmd w)
  else if String.eqb name "BenchmarkCmdGoSize" then
    Done (runSize "BenchmarkCmdGoSize" "cmd/go" w)
  else if String.eqb name "BenchmarkHelloSize" then
    Done (runSize "BenchmarkHelloSize"
            (filepath_Join E [GOROOT E; "test/helloworld.go"]) w)
  else if nonempty file then Done (compile name [file] dir w)
  else if nonempty dir then
    match build_Import E dir with
    | inr err => Done (log_Print err w)
    | inl (pkgdir, gofiles) => Done (compile name gofiles pkgdir w)
    end
  else log_Fatal "internal error: dir or file must be set" w.

(** The body of the inner loop of [main] (main.go 168-173). *)
Definition run_test (t : Test) (w : World) : Outcome :=
  if long t && flagShort (flags w) then Done w
  else if match runRE G with None => true | Some re => re (name t) end
  then runBuild (name t) (dir t) "" w
  else Done w.

(** [for _, tt := range tests] ([t] here), left early when the process exits. *)
Fixpoint run_tests (l : list Test) (w : World) : Outcome :=
  match l with
  | [] => Done w
  | t :: l' =>
    match run_test t w with
    | Done w' => run_tests l' w'
    | Exited code w' => Exited code w'
    end
  end.

(** [for i := 0; i < *flagCount; i++], with [n] rounds left. *)
Fixpoint rounds (n : nat) (w : World) : Outcome :=
  match n with
  | O => Done w
  | S n' =>
    match run_tests tests w with
    | Done w' => rounds n' w'
    | Exited code w' => Exited code w'
    end
  end.

(** main.go 166-175.  What comes before (finding the compiler, compiling
    the -run expression) is in [G]; the torture tests that follow are not
    modelled. *)
Definition main_loop (w : World) : Outcome :=
  rounds (Z.to_nat (flagCount (flags w))) w.

End Program.

End Main.

(** ** Part 4: the older generation of the tool (src/unnamed/part_000)

    It compiles every package twice, once for the timing and once more with
    -memprofile for the allocation counters, and every failure ends the
    process through log.Fatal.  Of [Flags] it knows flagCompilerFlags,
    flagCount, flagCpuprofile and flagMemprofile. *)

Module Old.
Import GoLib Sys.

Definition tests : list (string * string) :=
  [ ("BenchmarkTemplate", "html/template");
    ("BenchmarkGoTypes", "go/types");
    ("BenchmarkCompiler", "cmd/compile/internal/gc") ].

Section Program.

Variable E : Env.
Variable G : Main.Globals.

(** part_000 187-205: the copies of the profiles and the removals. *)
Definition finish (pkgdir out : string) (w : World) : Outcome :=
  let after_memprofile :=
    if nonempty (flagMemprofile (flags w)) then
      match WriteFile E (flagMemprofile (flags w)) out w with
      | (w', Some e) => log_Fatal e w'
      | (w', None) => Done w'
      end
    else Done w in
  match after_memprofile with
  | Exited code w' => Exited code w'
  | Done w1 =>
    let after_cpuprofile :=
      if nonempty (flagCpuprofile (flags w1)) then
        match ReadFile (Main.cpuprof pkgdir) w1 with
        | (_, Some e) => log_Fatal e w1
        | (out', None) =>
          match WriteFile E (flagCpuprofile (flags w1)) out' w1 with
          | (w', Some e) => log_Fatal e w'
          | (w', None) => Done (Remove (Main.cpuprof pkgdir) w')
          end
        end
      else Done w1 in
    match after_cpuprofile with
    | Exited code w' => Exited code w'
    | Done w2 =>
      Done (Remove (Main.memprof pkgdir) (Remove (Main.objfile pkgdir) w2))
    end
  end.

(** part_000 185: the record of a compilation. *)
Definition print_result (name : string) (wallns : Z) (c : Main.Counters)
    (w : World) : World :=
  Printf ("Benchmark%s 1 %d ns/op %d B/op %d allocs/op" +:+ LF)
    [AStr name; AInt wallns; AInt (Main.bytes c); AInt (Main.allocs c)] w.

Definition runBuild (name dir : string) (w : World) : Outcome :=
  match build_Import E dir with
  | inr err => log_Fatal err w
  | inl (pkgdir, gofiles) =>
    let args :=
      (["-o"; "_compilebench_.o"] ++ Fields (flagCompilerFlags (flags w))
       ++ gofiles)%list in
    let start := now w in
    let '(w1, r) := CombinedOutput E (mkCmd (Main.compiler G) args pkgdir) w in
    match exec_err r with
    | Some err =>
      match Sprintf ("%v: %v" +:+ LF +:+ "%s")
              [AStr name; AStr err; AStr (exec_out r)] with
      | Some msg => log_Fatal msg w1
      | None => Exited 1 w1
      end
    | None =>
      let end_ := now w1 in
      let args2 :=
        (["-o"; "_compilebench_.o"] ++ Fields (flagCompilerFlags (flags w1))
         ++ ["-memprofile"; "_compilebench_.memprof"; "-memprofilerate";
             itoa (64 * 1024)]
         ++ (if nonempty (flagCpuprofile (flags w1))
             then ["-cpuprofile"; "_compilebench_.cpuprof"]
             else [])
         ++ gofiles)%list in
      let '(w2, r2) :=
        CombinedOutput E (mkCmd (Main.compiler G) args2 pkgdir) w1 in
      match exec_err r2 with
      | Some err =>
        match Sprintf ("%v: %v" +:+ LF +:+ "%s")
                [AStr name; AStr err; AStr (exec_out r2)] with
        | Some msg => log_Fatal msg w2
        | None => Exited 1 w2
        end
      | None =>
        match ReadFile (Main.memprof pkgdir) w2 with
        | (_, Some _) =>
          log_Fatal "cannot find memory profile after compilation" w2
        | (out, None) =>
          let c := Main.scanProfile out in
          let w3 := print_result name (end_ - start) c w2 in
          finish pkgdir out w3
        end
      end
    end
  end.

Definition run_test (t : string * string) (w : World) : Outcome :=
  if match Main.runRE G with None => true | Some re => re (fst t) end
  then runBuild (fst t) (snd t) w
  else Done w.

Fixpoint run_tests (l : list (string * string)) (w : World) : Outcome :=
  match l with
  | [] => Done w
  | t :: l' =>
    match run_test t w with
    | Done w' => run_tests l' w'
    | Exited code w' => Exited code w'
    end
  end.

Fixpoint rounds (n : nat) (w : World) : Outcome :=
  match n with
  | O => Done w
  | S n' =>
    match run_tests tests w with
    | Done w' => rounds n' w'
    | Exited code w' => Exited code w'
    end
  end.

Definition main_loop (w : World) : Outcome :=
  rounds (Z.to_nat (flagCount (flags w))) w.

End Program.

End Old.

(** ** Part 5: notions used to state the properties *)

Module Props.
Import GoLib Sys Main.

(** The counter a profile line sets, if the loop takes it: the line has at
    least four fields, the first is the comment marker, the third the
    equality sign, and the fourth is read by ParseInt without error. *)
Definition counter_of (line : string) : option (string * Z) :=
  match Fields line with
  | f0 :: f1 :: f2 :: f3 :: _ =>
    if String.eqb f0 "#" && String.eqb f2 "=" then
      match ParseInt0 f3 with
      | NumOk val => Some (f1, val)
      | _ => None
      end
    else None
  | _ => None
  end.

(** [line] is taken by the loop and carries the counter called [key]. *)
Definition sets (key line : string) : bool :=
  match counter_of line with
  | Some (k, _) => String.eqb k key
  | None => false
  end.

(** Numerals: the value of a run of digits in [base], read from the left
    onto [n]. *)
Fixpoint value_from (base : Z) (s : string) (n : Z) : Z :=
  match s with
  | EmptyString => n
  | String c s' =>
    value_from base s' (n * base + default 0 (digit_val (byteZ c)))
  end.

(** Every byte of [s] is a digit of [base] (letters in either case count
    from ten). *)
Fixpoint digits_in (base : Z) (s : string) : bool :=
  match s with
  | EmptyString => true
  | String c s' =>
    match digit_val (byteZ c) with
    | Some d => (d <? base) && digits_in base s'
    | None => false
    end
  end.

(** The line format of a benchmark record, in the words of the
    specification: the name, the iteration marker 1, then each value with
    its unit, all separated by single spaces.  The program has no function
    of this kind; its Printf calls are compared with it. *)
Fixpoint pairs_text (pairs : list (string * string)) : string :=
  match pairs with
  | [] => ""
  | (value, unit) :: rest => " " +:+ value +:+ " " +:+ unit +:+ pairs_text rest
  end.

Definition record_line (name : string) (pairs : list (string * string))
    : string :=
  name +:+ " 1" +:+ pairs_text pairs.

(** The world after one more write of [text] to the standard output. *)
Definition printed (text : string) (w : World) : World :=
  mkWorld (flags w) (fs w) (stdout w ++ [text]) (stderr w) (now w) (execs w).

(** Whether a write to the standard error stream is a line of the log. *)
Definition is_log (d : Diag) : bool :=
  match d with LogLine _ => true | ChildOutput _ => false end.

(** The skip rule in the words of the specification: a name filter is
    configured and does not match, or the benchmark is long-running and
    short mode is on. *)
Definition skipped (G : Globals) (t : Test) (w : World) : bool :=
  match runRE G with
  | Some re => negb (re (name t))
  | None => false
  end
  || (long t && flagShort (flags w)).

(** The world in which runBuild starts its compiler: under 6g the profiling
    flags are switched off first. *)
Definition compile_start (G : Globals) (w : World) : World :=
  if is6g G then set_flags (reset_6g (flags w)) w else w.

(** The build command of a benchmark, as runBuild, runStdCmd and runSize
    put it together, with the world it is started in; [None] when runBuild
    stops before any build (the package is not found, or neither [dir] nor
    [file] is given). *)
Definition build_invocation (E : Env) (G : Globals) (name dir file : string)
    (w : World) : option (Cmd * World) :=
  if String.eqb name "BenchmarkStdCmd" then
    Some (mkCmd "go" (["build"; "-a"] ++ toolexec_args w ++ ["std"; "cmd"])
                (filepath_Join E [GOROOT E; "src"]), w)
  else if String.eqb name "BenchmarkCmdGoSize" then
    Some (mkCmd "go" (["build"; "-o"; compilebenchout] ++ toolexec_args w
                      ++ ["cmd/go"]) "", w)
  else if String.eqb name "BenchmarkHelloSize" then
    Some (mkCmd "go" (["build"; "-o"; compilebenchout] ++ toolexec_args w
                      ++ [filepath_Join E [GOROOT E; "test/helloworld.go"]])
                "", w)
  else if nonempty file then
    Some (mkCmd (compiler G) (compile_args [file] (compile_start G w)) dir,
          compile_start G w)
  else if nonempty dir then
    match build_Import E dir with
    | inl (pkgdir, gofiles) =>
      Some (mkCmd (compiler G) (compile_args gofiles (compile_start G w))
                  pkgdir, compile_start G w)
    | inr _ => None
    end
  else None.

(** What reaches the log when that build fails with error [err], having
    written [out]: runCmd hands on the captured output, runSize logs the
    error alone, runBuild the name and the error. *)
Definition failure_message (name err out : string) : string :=
  if String.eqb name "BenchmarkStdCmd" then
    name +:+ ": " +:+ err +:+ LF +:+ out
  else if String.eqb name "BenchmarkCmdGoSize"
          || String.eqb name "BenchmarkHelloSize" then err
  else name +:+ ": " +:+ err.

(** Whether the output of that build is captured by the program (runCmd)
    or goes to the standard error stream directly. *)
Definition captures_output (name : string) : bool :=
  String.eqb name "BenchmarkStdCmd".

End Props.

(** ** Part 6: concrete runs *)

Module Scenario.
Import GoLib Sys Main.

Definition two_totals : string :=
  "# TotalAlloc = 1" +:+ LF +:+ "# TotalAlloc = 2" +:+ LF +:+ "# Mallocs = 3".

Definition heap_profile : string :=
  "heap profile: 1: 2 [3: 4] @ heap/1024" +:+ LF
  +:+ "# runtime.MemStats" +:+ LF
  +:+ "# Alloc = 999" +:+ LF
  +:+ "# TotalAlloc = 0x1000" +:+ LF
  +:+ "# Sys = junk" +:+ LF
  +:+ "# Mallocs = 77" +:+ LF
  +:+ "# Frees = 12" +:+ LF.

Definition size_darwin : string :=
  "__TEXT	__DATA	__OBJC	others	dec	hex" +:+ LF
  +:+ "1261568	94208	0	4296704	5652480	564000" +:+ LF.

Definition size_linux : string :=
  "   text	   data	    bss	    dec	    hex	filename" +:+ LF
  +:+ " 708604	  17416	 118752	 844772	  ce3e4	_compilebenchout_" +:+ LF.

Definition size_words : string :=
  "text data bss" +:+ LF +:+ "abc n/a 0x1z" +:+ LF.

Definition size_unknown : string := "foo bar" +:+ LF +:+ "1 2 3" +:+ LF.

(** An environment in which [go build] writes the executable, [size]
    prints [size_out], and the compiler writes the object file and, if there
    is one, the memory profile; with [fail] every build fails instead,
    having written "boom". *)
Definition demo_exec (fail : bool) (size_out : string)
    (profile : option string)
    (c : Cmd) (_ : list Cmd) (m : gmap string string) : ExecResult :=
  if String.eqb (cmd_path c) "size" then mkExecResult None size_out m 5 3
  else if fail then mkExecResult (Some "exit status 2") "boom" m 7 0
  else if String.eqb (cmd_path c) "go" then
    mkExecResult None "" (<[compilebenchout := "ELF..."]> m) 7 4
  else
    mkExecResult None ""
      (<[objfile (cmd_dir c) := "obj"]>
         match profile with
         | Some p => <[memprof (cmd_dir c) := p]> m
         | None => m
         end)
      1000 900.

Definition demo_import (d : string) : (string * list string) + string :=
  inl ("/go/src/" +:+ d, ["a.go"; "b.go"]).

Definition demo_join (l : list string) : string :=
  match l with
  | [a; b] => a +:+ "/" +:+ b
  | _ => ""
  end.

Definition demo_env (fail : bool) (size_out : string)
    (profile : option string) (can_write : bool) : Env :=
  mkEnv (demo_exec fail size_out profile) (fun _ => can_write) demo_import
        demo_join "/go".

Definition demo_globals (re : option (string -> bool)) : Globals :=
  mkGlobals "/go/pkg/tool/compile" false re.

(** Flags: -alloc and -memprofile as given, -count 1, the rest at their
    defaults. *)
Definition demo_flags (alloc : bool) (memprofile : string) : Flags :=
  mkFlags alloc "" "" 1 "" memprofile (-1) false.

Definition demo_world (alloc : bool) (memprofile : string) : World :=
  mkWorld (demo_flags alloc memprofile) ∅ [] [] 0 [].

(** BenchmarkHelloSize when the size tool prints two lines in neither
    shape. *)
Definition unknown_size_run : Outcome :=
  runBuild (demo_env false size_unknown None true) (demo_globals None)
    "BenchmarkHelloSize" "" "" (demo_world false "").

(** The size tool prints a single line without a newline. *)
Definition short_size_run : Outcome :=
  runBuild (demo_env false "oops" None true) (demo_globals None)
    "BenchmarkHelloSize" "" "" (demo_world false "").

(** A compilation that fails, in main.go and in the older generation. *)
Definition failed_build_run : Outcome :=
  runBuild (demo_env true "" None true) (demo_globals None)
    "BenchmarkTemplate" "html/template" "" (demo_world false "").

Definition failed_batch_old : Outcome :=
  Old.main_loop (demo_env true "" None true) (demo_globals None)
    (demo_world false "").

Definition failed_batch_main : Outcome :=
  main_loop (demo_env true "" None true) (demo_globals None)
    (demo_world false "").

(** A compilation under -alloc that leaves no memory profile. *)
Definition no_profile_run : Outcome :=
  runBuild (demo_env false "" None true) (demo_globals None)
    "BenchmarkTemplate" "html/template" "" (demo_world true "").

(** A compilation with -memprofile /ro/mem.prof where nothing can be
    written, in main.go and in the older generation. *)
Definition failed_copy_main : Outcome :=
  runBuild (demo_env false "" (Some heap_profile) false) (demo_globals None)
    "BenchmarkTemplate" "html/template" "" (demo_world false "/ro/mem.prof").

Definition failed_copy_old : Outcome :=
  Old.runBuild (demo_env false "" (Some heap_profile) false)
    (demo_globals None) "BenchmarkTemplate" "html/template"
    (demo_world false "/ro/mem.prof").

(** The older generation when the second build leaves no memory profile. *)
Definition no_profile_old : Outcome :=
  Old.runBuild (demo_env false "" None true) (demo_globals None)
    "BenchmarkTemplate" "html/template" (demo_world false "").

(** A -run expression that matches no name. *)
Definition no_match : option (string -> bool) := Some (fun _ => false).

Definition long_test : Test := mkTest "BenchmarkStdCmd" "" true.

End Scenario.

(** ** Part 6b: further notions and runs *)

Module More.
Import GoLib Sys Main Props.

(** The value of the last of [lines] that the profile loop takes for the
    counter called [key], if there is one. *)
Fixpoint last_value (key : string) (lines : list string) : option Z :=
  match lines with
  | [] => None
  | l :: rest =>
    match last_value key rest with
    | Some v => Some v
    | None =>
      match counter_of l with
      | Some (k, v) => if String.eqb k key then Some v else None
      | None => None
      end
    end
  end.

(** [s] holds no newline byte. *)
Fixpoint no_newline (s : string) : bool :=
  match s with
  | EmptyString => true
  | String c s' => negb (Ascii.eqb c newline) && no_newline s'
  end.

(** Every byte of [s] is ASCII and not white space. *)
Fixpoint plain_token (s : string) : bool :=
  match s with
  | EmptyString => true
  | String c s' =>
    (byteZ c <? 0x80) && negb (IsSpace (byteZ c)) && plain_token s'
  end.

(** The build command of a size benchmark. *)
Definition size_build (path : string) (w : World) : Cmd :=
  mkCmd "go" (["build"; "-o"; compilebenchout] ++ toolexec_args w ++ [path]) "".

Definition size_tool : Cmd := mkCmd "size" [compilebenchout] "".

(** The compiler command of a compilation. *)
Definition compile_cmd (G : Globals) (files : list string) (pkgdir : string)
    (w : World) : Cmd :=
  mkCmd (compiler G) (compile_args files (compile_start G w)) pkgdir.

(** Whether [name] is one of the three names runBuild treats specially. *)
Definition special_name (name : string) : bool :=
  String.eqb name "BenchmarkStdCmd" || String.eqb name "BenchmarkCmdGoSize"
  || String.eqb name "BenchmarkHelloSize".

(** A text is a benchmark record for [name]. *)
Definition is_record (name text : string) : Prop :=
  exists pairs, text = record_line name pairs +:+ LF.

(** What a function did to the standard output: nothing, or one record for
    [name]. *)
Definition at_most_one_record (name : string) (w w' : World) : Prop :=
  stdout w' = stdout w
  \/ exists text, is_record name text /\ stdout w' = (stdout w ++ [text])%list.

(** The older generation on the first benchmark of its table, both builds
    succeeding. *)
Definition old_template_run : Outcome :=
  Old.runBuild (Scenario.demo_env false "" (Some Scenario.heap_profile) true)
    (Scenario.demo_globals None) "BenchmarkTemplate" "html/template"
    (Scenario.demo_world false "").

(** Environments for the runs below: a build that leaves no executable; a
    size tool that fails; a package that cannot be resolved. *)
Definition no_executable_env : Env :=
  mkEnv (fun _ _ m => mkExecResult None "" m 1 1) (fun _ => true)
        Scenario.demo_import Scenario.demo_join "/go".

Definition size_fails_env : Env :=
  mkEnv (fun c _ m =>
           if String.eqb (cmd_path c) "size"
           then mkExecResult (Some "exit status 1") "bad file" m 1 1
           else mkExecResult None "" (<[compilebenchout := "ELF"]> m) 1 1)
        (fun _ => true) Scenario.demo_import Scenario.demo_join "/go".

Definition no_package_env : Env :=
  mkEnv (Scenario.demo_exec false "" None) (fun _ => true)
        (fun _ => inr "cannot find package") Scenario.demo_join "/go".

(** A world with -count 0. *)
Definition zero_count_world : World :=
  mkWorld (mkFlags true "" "" 0 "" "" (-1) false) ∅ [] [] 0 [].

(** A world with -cpuprofile /tmp/cpu.prof. *)
Definition cpuprofile_world : World :=
  mkWorld (mkFlags false "" "" 1 "/tmp/cpu.prof" "" (-1) false) ∅ [] [] 0 [].

End More.

(** ** Part 6c: the start of main (main.go 135-164) *)

Module Setup.
Import GoLib Sys Main.

Section Setup.

Variable E : Env.

(** strings.TrimSpace and regexp.Compile, library functions taken as
    given: the compiled expression is its MatchString. *)
Variable TrimSpace : string -> string.
Variable regexp_Compile : string -> (string -> bool) + string.

(** [exec.Command(exe, append(baseargs, tail...)...)]: with -toolexec the
    tool is run directly, without it [go tool] is. *)
Definition lookup (w : World) (tail : list string) : Cmd :=
  if nonempty (flagToolexec (flags w))
  then mkCmd (flagToolexec (flags w)) tail ""
  else mkCmd "go" ("tool" :: tail) "".

(** [%v] of an error that may be nil. *)
Definition error_text (err : option string) : string :=
  match err with Some e => e | None => "<nil>" end.

(** main.go 143-156: the compiler and whether it is 6g, or the exit. *)
Definition find_compiler (w : World) : (string * bool * World) + Outcome :=
  let '(w1, r1) := CombinedOutput E (lookup w ["-n"; "compile"]) w in
  match exec_err r1 with
  | None => inl (TrimSpace (exec_out r1), false, w1)
  | Some _ =>
    let '(w2, r2) := CombinedOutput E (lookup w1 ["-n"; "6g"]) w1 in
    match exec_err r2 with
    | None => inl (TrimSpace (exec_out r2), true, w2)
    | Some _ =>
      let '(w3, r3) :=
        CombinedOutput E (lookup w2 ["tool"; "-n"; "compile"]) w2 in
      let msg :=
        if nonempty (flagToolexec (flags w3)) then
          Sprintf ("%s -n compiler: %v" +:+ LF +:+ "%s")
            [AStr (flagToolexec (flags w3)); AStr (error_text (exec_err r3));
             AStr (exec_out r3)]
        else
          Sprintf ("go tool -n compiler: %v" +:+ LF +:+ "%s")
            [AStr (error_text (exec_err r3)); AStr (exec_out r3)] in
      inr (match msg with
           | Some m => log_Fatal m w3
           | None => Exited 1 w3
           end)
    end
  end.

(** main.go 158-164: the -run expression. *)
Definition compile_run (flagRun : string) (w : World)
    : option (string -> bool) + Outcome :=
  if nonempty flagRun then
    match regexp_Compile flagRun with
    | inr err =>
      inr (match Sprintf "invalid -run argument: %v" [AStr err] with
           | Some m => log_Fatal m w
           | None => Exited 1 w
           end)
    | inl r => inl (Some r)
    end
  else inl None.

(** main.go 135-175, for a command line without arguments left over; the
    value of -run is [flagRun]. *)
Definition main_to_loop (flagRun : string) (w : World) : Outcome :=
  match find_compiler w with
  | inr o => o
  | inl (comp, six, w1) =>
    match compile_run flagRun w1 with
    | inr o => o
    | inl re => main_loop E (mkGlobals comp six re) w1
    end
  end.

End Setup.

End Setup.

(** ** Part 7: properties *)

Import GoLib Sys Main Props.

(** *** The profile scan *)

Lemma scan_line_counter_of (acc : Counters) (line : string) :
  scan_line acc line =
  match counter_of line with
  | Some (k, val) =>
    if String.eqb k "TotalAlloc" then mkCounters (allocs acc) val
    else if String.eqb k "Mallocs" then mkCounters val (bytes acc)
    else acc
  | None => acc
  end.
Proof.
  unfold scan_line, counter_of, len, index.
  destruct (Fields line) as [|f0 [|f1 [|f2 [|f3 rest]]]]; try reflexivity.
  replace (Z.of_nat (length (f0 :: f1 :: f2 :: f3 :: rest)) <? 4) with false
    by (symmetry; apply Z.ltb_ge; cbn [length]; lia).
  cbn [nth orb].
  destruct (String.eqb f0 "#"), (String.eqb f2 "="); cbn; try reflexivity.
  all: destruct (ParseInt0 f3); reflexivity.
Qed.

Lemma scan_line_bytes (acc : Counters) (line : string) :
  bytes (scan_line acc line) =
  match counter_of line with
  | Some (k, val) => if String.eqb k "TotalAlloc" then val else bytes acc
  | None => bytes acc
  end.
Proof.
  rewrite scan_line_counter_of.
  destruct (counter_of line) as [[k val]|]; [|reflexivity].
  destruct (String.eqb k "TotalAlloc"); [reflexivity|].
  destruct (String.eqb k "Mallocs"); reflexivity.
Qed.

Lemma scan_line_allocs (acc : Counters) (line : string) :
  allocs (scan_line acc line) =
  match counter_of line with
  | Some (k, val) => if String.eqb k "Mallocs" then val else allocs acc
  | None => allocs acc
  end.
Proof.
  rewrite scan_line_counter_of.
  destruct (counter_of line) as [[k val]|]; [|reflexivity].
  destruct (String.eqb k "TotalAlloc") eqn:Hk.
  - apply String.eqb_eq in Hk. subst k. reflexivity.
  - destruct (String.eqb k "Mallocs"); reflexivity.
Qed.

(** Lines that do not carry a counter leave it as it was. *)
Lemma fold_scan_bytes_kept (post : list string) (acc : Counters) :
  Forall (fun l => sets "TotalAlloc" l = false) post ->
  bytes (fold_left scan_line post acc) = bytes acc.
Proof.
  intros H. revert acc.
  induction H as [|l post Hl _ IH]; intros acc; [reflexivity|].
  cbn [fold_left]. rewrite IH, scan_line_bytes.
  unfold sets in Hl.
  destruct (counter_of l) as [[k val]|]; [|reflexivity].
  rewrite Hl. reflexivity.
Qed.

Lemma fold_scan_allocs_kept (post : list string) (acc : Counters) :
  Forall (fun l => sets "Mallocs" l = false) post ->
  allocs (fold_left scan_line post acc) = allocs acc.
Proof.
  intros H. revert acc.
  induction H as [|l post Hl _ IH]; intros acc; [reflexivity|].
  cbn [fold_left]. rewrite IH, scan_line_allocs.
  unfold sets in Hl.
  destruct (counter_of l) as [[k val]|]; [|reflexivity].
  rewrite Hl. reflexivity.
Qed.

(** The last line that carries a counter decides it, whatever came before. *)
Lemma fold_scan_bytes_last (pre post : list string) (l : string) (n : Z)
    (acc : Counters) :
  counter_of l = Some ("TotalAlloc", n) ->
  Forall (fun l' => sets "TotalAlloc" l' = false) post ->
  bytes (fold_left scan_line (pre ++ l :: post) acc) = n.
Proof.
  intros Hl Hpost.
  rewrite fold_left_app. cbn [fold_left].
  rewrite fold_scan_bytes_kept by assumption.
  rewrite scan_line_bytes, Hl. reflexivity.
Qed.

Lemma fold_scan_allocs_last (pre post : list string) (l : string) (m : Z)
    (acc : Counters) :
  counter_of l = Some ("Mallocs", m) ->
  Forall (fun l' => sets "Mallocs" l' = false) post ->
  allocs (fold_left scan_line (pre ++ l :: post) acc) = m.
Proof.
  intros Hl Hpost.
  rewrite fold_left_app. cbn [fold_left].
  rewrite fold_scan_allocs_kept by assumption.
  rewrite scan_line_allocs, Hl. reflexivity.
Qed.

Lemma counter_of_fields (line f1 f3 : string) (rest : list string) (n : Z) :
  Fields line = "#" :: f1 :: "=" :: f3 :: rest ->
  ParseInt0 f3 = NumOk n ->
  counter_of line = Some (f1, n).
Proof.
  intros Hf Hp. unfold counter_of. rewrite Hf, Hp. reflexivity.
Qed.

Lemma Counters_eta (c : Counters) : c = mkCounters (allocs c) (bytes c).
Proof. destruct c. reflexivity. Qed.

(** The three kinds of line the loop passes over. *)
Lemma scan_line_skip_shape (acc : Counters) (line : string) :
  (len (Fields line) <? 4) || negb (String.eqb (index (Fields line) 0) "#")
  || negb (String.eqb (index (Fields line) 2) "=") = true ->
  scan_line acc line = acc.
Proof. intros H. unfold scan_line. rewrite H. reflexivity. Qed.

Lemma scan_line_skip_parse (acc : Counters) (line : string) :
  (forall n, ParseInt0 (index (Fields line) 3) <> NumOk n) ->
  scan_line acc line = acc.
Proof.
  intros H. unfold scan_line.
  destruct (_ || _); [reflexivity|].
  destruct (ParseInt0 _) as [n| |]; [destruct (H n)|..]; reflexivity.
Qed.

Lemma scan_line_skip_name (acc : Counters) (line : string) :
  index (Fields line) 1 <> "TotalAlloc" ->
  index (Fields line) 1 <> "Mallocs" ->
  scan_line acc line = acc.
Proof.
  intros H1 H2. unfold scan_line.
  destruct (_ || _); [reflexivity|].
  destruct (ParseInt0 _); try reflexivity.
  apply String.eqb_neq in H1, H2. rewrite H1, H2. reflexivity.
Qed.

(** *** Numerals as ParseInt reads them *)

Lemma byteZ_range (c : ascii) : 0 <= byteZ c < 256.
Proof.
  unfold byteZ. pose proof (N_ascii_bounded c). lia.
Qed.

Lemma digit_val_nonneg (c : ascii) (d : Z) :
  digit_val (byteZ c) = Some d -> 0 <= d.
Proof.
  unfold digit_val. intros H.
  destruct ((0x30 <=? byteZ c) && (byteZ c <=? 0x39)) eqn:H1.
  - inversion H. lia.
  - destruct ((0x61 <=? lower (byteZ c)) && (lower (byteZ c) <=? 0x7A)) eqn:H2;
      [|discriminate].
    inversion H. lia.
Qed.

Lemma digit_val_not_underscore (c : Z) (d : Z) :
  digit_val c = Some d -> (c =? 0x5F) = false.
Proof.
  intros H. destruct (c =? 0x5F) eqn:Hc; [|reflexivity].
  apply Z.eqb_eq in Hc. subst c. vm_compute in H. discriminate.
Qed.

Lemma value_from_ge (base : Z) (s : string) (n : Z) :
  1 <= base -> 0 <= n -> digits_in base s = true -> n <= value_from base s n.
Proof.
  intros Hb. revert n.
  induction s as [|c s IH]; intros n Hn Hd;
    cbn [value_from digits_in] in *; [lia|].
  destruct (digit_val (byteZ c)) as [d|] eqn:Hc; [|discriminate].
  apply andb_prop in Hd as [_ Hd].
  pose proof (digit_val_nonneg _ _ Hc) as Hd0.
  change (default 0 (Some d)) with d.
  assert (Hstep : 0 <= n * base + d) by nia.
  specialize (IH (n * base + d) Hstep Hd). nia.
Qed.

Lemma ParseUint_loop_digits (base : Z) (s : string) (n : Z) (u : bool) :
  2 <= base ->
  digits_in base s = true ->
  0 <= n ->
  value_from base s n <= maxUint64 ->
  ParseUint_loop base true s n u = (NumOk (value_from base s n), u).
Proof.
  intros Hb. revert n.
  induction s as [|c s IH]; intros n Hd Hn Hv;
    cbn [ParseUint_loop value_from] in *.
  - reflexivity.
  - cbn [digits_in] in Hd.
    destruct (digit_val (byteZ c)) as [d|] eqn:Hc; [|discriminate].
    apply andb_prop in Hd as [Hlt Hd]. apply Z.ltb_lt in Hlt.
    rewrite (digit_val_not_underscore _ _ Hc). cbn [andb].
    change (default 0 (Some d)) with d in *.
    pose proof (digit_val_nonneg _ _ Hc) as Hd0.
    assert (Hle : n * base + d <= maxUint64).
    { etransitivity; [|exact Hv]. apply value_from_ge; [lia|nia|exact Hd]. }
    replace (base <=? d) with false by (symmetry; apply Z.leb_gt; lia).
    assert (Hn' : n <= maxUint64 / base).
    { apply Z.div_le_lower_bound; nia. }
    replace (maxUint64 / base + 1 <=? n) with false
      by (symmetry; apply Z.leb_gt; lia).
    assert (Hmax : maxUint64 = 2 ^ 64 - 1) by reflexivity.
    unfold uint64.
    rewrite (Z.mod_small (n * base)) by nia.
    rewrite (Z.mod_small (n * base + d)) by nia.
    replace (n * base + d <? n * base) with false
      by (symmetry; apply Z.ltb_ge; lia).
    replace (maxUint64 <? n * base + d) with false
      by (symmetry; apply Z.ltb_ge; lia).
    cbn [orb]. apply IH; [exact Hd|nia|exact Hv].
Qed.

Lemma int64_small (z : Z) : - 2 ^ 63 <= z < 2 ^ 63 -> int64 z = z.
Proof.
  intros H. unfold int64. rewrite Z.mod_small; lia.
Qed.

(** A decimal numeral without sign and without a leading zero, below 2^63,
    is read as its value. *)
Lemma ParseInt0_decimal (c0 : ascii) (rest : string) :
  0x31 <= byteZ c0 <= 0x39 ->
  digits_in 10 rest = true ->
  value_from 10 (String c0 rest) 0 < 2 ^ 63 ->
  ParseInt0 (String c0 rest) = NumOk (value_from 10 (String c0 rest) 0).
Proof.
  intros Hc Hd Hv.
  assert (Hdig : digit_val (byteZ c0) = Some (byteZ c0 - 0x30)).
  { unfold digit_val.
    replace ((0x30 <=? byteZ c0) && (byteZ c0 <=? 0x39)) with true; [reflexivity|].
    symmetry. apply andb_true_intro. split; apply Z.leb_le; lia. }
  assert (Hall : digits_in 10 (String c0 rest) = true).
  { cbn [digits_in]. rewrite Hdig, Hd.
    replace (byteZ c0 - 0x30 <? 10) with true; [reflexivity|].
    symmetry. apply Z.ltb_lt. lia. }
  unfold ParseInt0, is_sign.
  replace (byteZ c0 =? 0x2D) with false by (symmetry; apply Z.eqb_neq; lia).
  replace (byteZ c0 =? 0x2B) with false by (symmetry; apply Z.eqb_neq; lia).
  cbn [orb]. unfold ParseUint0.
  replace (byteZ c0 =? 0x30) with false by (symmetry; apply Z.eqb_neq; lia).
  assert (Hmax : maxUint64 = 2 ^ 64 - 1) by reflexivity.
  rewrite ParseUint_loop_digits; [|lia|exact Hall|lia|lia].
  cbn [andb negb].
  pose proof (value_from_ge 10 (String c0 rest) 0 ltac:(lia) ltac:(lia) Hall).
  replace (2 ^ 63 <=? value_from 10 (String c0 rest) 0) with false
    by (symmetry; apply Z.leb_gt; lia).
  rewrite int64_small by lia. reflexivity.
Qed.

(** A numeral [0x...] or [0X...] with at least one hexadecimal digit, below
    2^63, is read as its value. *)
Lemma ParseInt0_hex (x c2 : ascii) (r2 : string) :
  lower (byteZ x) = 0x78 ->
  digits_in 16 (String c2 r2) = true ->
  value_from 16 (String c2 r2) 0 < 2 ^ 63 ->
  ParseInt0 (String "0" (String x (String c2 r2)))
  = NumOk (value_from 16 (String c2 r2) 0).
Proof.
  intros Hx Hd Hv.
  unfold ParseInt0, is_sign.
  change (byteZ "0") with 0x30.
  cbn [Z.eqb orb Pos.eqb]. unfold ParseUint0.
  change (byteZ "0") with 0x30. cbn [Z.eqb Pos.eqb].
  rewrite Hx. cbn [Z.eqb Pos.eqb].
  assert (Hmax : maxUint64 = 2 ^ 64 - 1) by reflexivity.
  rewrite ParseUint_loop_digits; [|lia|exact Hd|lia|lia].
  cbn [andb negb].
  pose proof (value_from_ge 16 (String c2 r2) 0 ltac:(lia) ltac:(lia) Hd).
  replace (2 ^ 63 <=? value_from 16 (String c2 r2) 0) with false
    by (symmetry; apply Z.leb_gt; lia).
  rewrite int64_small by lia. reflexivity.
Qed.

(** C1, as amended.  Let the lines of a profile dump hold a line whose
    fields begin with [#], [TotalAlloc], [=] and a token that ParseInt reads
    as [n], with no line after it that the loop takes as a TotalAlloc
    counter, and likewise a Mallocs line with value [m].  Then the scan ends
    with total-allocated-bytes [n] and total-allocation-count [m], whatever
    the other lines are.  (Lines of another shape, lines whose fourth field
    does not parse and counters of another name are passed over:
    [scan_line_skip_shape], [scan_line_skip_parse], [scan_line_skip_name];
    the numerals that parse: [ParseInt0_decimal], [ParseInt0_hex].) *)
Theorem scanProfile_last_counter_lines
    (out : string) (pre post pre' post' : list string)
    (ln lm tn tm : string) (rn rm : list string) (n m : Z) :
  Split out newline = (pre ++ ln :: post)%list ->
  Fields ln = "#" :: "TotalAlloc" :: "=" :: tn :: rn ->
  ParseInt0 tn = NumOk n ->
  Forall (fun l => sets "TotalAlloc" l = false) post ->
  Split out newline = (pre' ++ lm :: post')%list ->
  Fields lm = "#" :: "Mallocs" :: "=" :: tm :: rm ->
  ParseInt0 tm = NumOk m ->
  Forall (fun l => sets "Mallocs" l = false) post' ->
  scanProfile out = mkCounters m n.
Proof.
  intros Hs Hfn Hpn Hpost Hs' Hfm Hpm Hpost'.
  rewrite (Counters_eta (scanProfile out)). unfold scanProfile.
  f_equal.
  - rewrite Hs'. apply fold_scan_allocs_last; [|exact Hpost'].
    eapply counter_of_fields; eassumption.
  - rewrite Hs. apply fold_scan_bytes_last; [|exact Hpost].
    eapply counter_of_fields; eassumption.
Qed.

Lemma scanProfile_last_counter_lines_witness :
  scanProfile Scenario.heap_profile = mkCounters 77 0x1000.
Proof.
  apply (scanProfile_last_counter_lines Scenario.heap_profile
           ["heap profile: 1: 2 [3: 4] @ heap/1024"; "# runtime.MemStats";
            "# Alloc = 999"]
           ["# Sys = junk"; "# Mallocs = 77"; "# Frees = 12"; ""]
           ["heap profile: 1: 2 [3: 4] @ heap/1024"; "# runtime.MemStats";
            "# Alloc = 999"; "# TotalAlloc = 0x1000"; "# Sys = junk"]
           ["# Frees = 12"; ""]
           "# TotalAlloc = 0x1000" "# Mallocs = 77" "0x1000" "77" [] []).
  - vm_compute. reflexivity.
  - vm_compute. reflexivity.
  - vm_compute. reflexivity.
  - repeat constructor.
  - vm_compute. reflexivity.
  - vm_compute. reflexivity.
  - vm_compute. reflexivity.
  - repeat constructor.
Defined.

(** C1 as stated fails: a dump may hold the line [# TotalAlloc = 1] and
    still be scanned to another value, when a later TotalAlloc line
    follows. *)
Lemma scanProfile_earlier_line_overwritten :
  ~ (forall (out ln lm tn tm : string) (n m : Z),
       In ln (Split out newline) ->
       Fields ln = ["#"; "TotalAlloc"; "="; tn] ->
       ParseInt0 tn = NumOk n ->
       In lm (Split out newline) ->
       Fields lm = ["#"; "Mallocs"; "="; tm] ->
       ParseInt0 tm = NumOk m ->
       scanProfile out = mkCounters m n).
Proof.
  intros H.
  specialize (H Scenario.two_totals "# TotalAlloc = 1" "# Mallocs = 3"
                "1" "3" 1 3).
  assert (Hc : scanProfile Scenario.two_totals = mkCounters 3 2)
    by (vm_compute; reflexivity).
  rewrite Hc in H.
  assert (Hne : mkCounters 3 2 <> mkCounters 3 1) by discriminate.
  apply Hne, H; vm_compute; auto.
Qed.

(** C9.  When the dump has several lines for one recognised counter, the
    scan returns the value of the last of them: whatever lines come before,
    a line that the loop takes for [TotalAlloc] (or [Mallocs]) and that no
    such line follows decides the counter, because each such line
    overwrites what was stored. *)
Theorem scanProfile_last_line_wins
    (out : string) (pre post : list string) (l : string) (v : Z) :
  Split out newline = (pre ++ l :: post)%list ->
  (counter_of l = Some ("TotalAlloc", v) ->
   Forall (fun l' => sets "TotalAlloc" l' = false) post ->
   bytes (scanProfile out) = v
   /\ forall acc, bytes (scan_line acc l) = v)
  /\ (counter_of l = Some ("Mallocs", v) ->
      Forall (fun l' => sets "Mallocs" l' = false) post ->
      allocs (scanProfile out) = v
      /\ forall acc, allocs (scan_line acc l) = v).
Proof.
  intros Hs. unfold scanProfile. rewrite Hs. split; intros Hl Hpost; split.
  - apply fold_scan_bytes_last; assumption.
  - intros acc. rewrite scan_line_bytes, Hl. reflexivity.
  - apply fold_scan_allocs_last; assumption.
  - intros acc. rewrite scan_line_allocs, Hl. reflexivity.
Qed.

Lemma scanProfile_last_line_wins_witness :
  bytes (scanProfile Scenario.two_totals) = 2.
Proof.
  assert (Hs : Split Scenario.two_totals newline
               = (["# TotalAlloc = 1"] ++ "# TotalAlloc = 2"
                    :: ["# Mallocs = 3"])%list)
    by (vm_compute; reflexivity).
  apply (proj1 (scanProfile_last_line_wins Scenario.two_totals
                  ["# TotalAlloc = 1"] ["# Mallocs = 3"]
                  "# TotalAlloc = 2" 2 Hs)).
  - vm_compute. reflexivity.
  - repeat constructor.
Defined.

(** *** Records *)

Lemma append_cons (x : ascii) (a b : string) :
  String x a +:+ b = String x (a +:+ b).
Proof. reflexivity. Qed.

Lemma append_assoc (a b c : string) : (a +:+ b) +:+ c = a +:+ (b +:+ c).
Proof.
  induction a as [|x a IH]; [reflexivity|].
  rewrite !append_cons, IH. reflexivity.
Qed.

(** Brings both sides of an equation between texts to right-nested
    appends, where the format strings compute. *)
Ltac text_eq :=
  unfold record_line, pairs_text; rewrite ?append_assoc; reflexivity.

Lemma Sprintf_result_alloc (name : string) (wallns userns by_ al : Z) :
  Sprintf ("%s 1 %d ns/op %d user-ns/op %d B/op %d allocs/op" +:+ LF)
    [AStr name; AInt wallns; AInt userns; AInt by_; AInt al]
  = Some (record_line name
            [(itoa wallns, "ns/op"); (itoa userns, "user-ns/op");
             (itoa by_, "B/op"); (itoa al, "allocs/op")] +:+ LF).
Proof. text_eq. Qed.

Lemma Sprintf_result_plain (name : string) (wallns userns : Z) :
  Sprintf ("%s 1 %d ns/op %d user-ns/op" +:+ LF)
    [AStr name; AInt wallns; AInt userns]
  = Some (record_line name
            [(itoa wallns, "ns/op"); (itoa userns, "user-ns/op")] +:+ LF).
Proof. text_eq. Qed.

Lemma Sprintf_result_old (name : string) (wallns by_ al : Z) :
  Sprintf ("Benchmark%s 1 %d ns/op %d B/op %d allocs/op" +:+ LF)
    [AStr name; AInt wallns; AInt by_; AInt al]
  = Some (record_line ("Benchmark" +:+ name)
            [(itoa wallns, "ns/op"); (itoa by_, "B/op");
             (itoa al, "allocs/op")] +:+ LF).
Proof. text_eq. Qed.

Lemma Sprintf_result_cmd (name : string) (ns : Z) :
  Sprintf ("%s 1 %d ns/op" +:+ LF) [AStr name; AInt ns]
  = Some (record_line name [(itoa ns, "ns/op")] +:+ LF).
Proof. text_eq. Qed.

Lemma Sprintf_size_text (name f0 f1 : string) (size : Z) :
  Sprintf ("%s 1 %s text-bytes %s data-bytes %v exe-bytes" +:+ LF)
    [AStr name; AStr f0; AStr f1; AInt size]
  = Some (record_line name
            [(f0, "text-bytes"); (f1, "data-bytes"); (itoa size, "exe-bytes")]
          +:+ LF).
Proof. text_eq. Qed.

Lemma Sprintf_size_bss (name f0 f1 f2 : string) (size : Z) :
  Sprintf ("%s 1 %s text-bytes %s data-bytes %s bss-bytes %v exe-bytes" +:+ LF)
    [AStr name; AStr f0; AStr f1; AStr f2; AInt size]
  = Some (record_line name
            [(f0, "text-bytes"); (f1, "data-bytes"); (f2, "bss-bytes");
             (itoa size, "exe-bytes")]
          +:+ LF).
Proof. text_eq. Qed.

Lemma print_result_printed (name : string) (wallns userns : Z) (c : Counters)
    (w : World) :
  print_result name wallns userns c w
  = printed
      (record_line name
         (if flagAlloc (flags w)
          then [(itoa wallns, "ns/op"); (itoa userns, "user-ns/op");
                (itoa (bytes c), "B/op"); (itoa (allocs c), "allocs/op")]
          else [(itoa wallns, "ns/op"); (itoa userns, "user-ns/op")])
       +:+ LF) w.
Proof.
  unfold print_result, Printf.
  destruct (flagAlloc (flags w)).
  - rewrite Sprintf_result_alloc. reflexivity.
  - rewrite Sprintf_result_plain. reflexivity.
Qed.

(** C2, as amended.  The program has no emitter for arbitrary pairs: each
    Printf of a record has its units fixed.  In main.go the record of a
    compilation is the line [<name> 1 <wall> ns/op <user> user-ns/op],
    followed under -alloc by [<bytes> B/op <allocs> allocs/op], and the
    record of runCmd is [<name> 1 <wall> ns/op]; so for the name
    [BenchmarkX] with 1234 ns, 99 user ns, 56 bytes and 7 allocations under
    -alloc the line is
    [BenchmarkX 1 1234 ns/op 99 user-ns/op 56 B/op 7 allocs/op].  The older
    generation prints the text [Benchmark] before the name it is given, then
    wall time, bytes and allocations.  In both, the iteration marker 1
    follows the printed name. *)
Theorem records_follow_line_format :
  (forall (name : string) (wallns userns : Z) (c : Counters) (w : World),
     print_result name wallns userns c w
     = printed
         (record_line name
            (if flagAlloc (flags w)
             then [(itoa wallns, "ns/op"); (itoa userns, "user-ns/op");
                   (itoa (bytes c), "B/op"); (itoa (allocs c), "allocs/op")]
             else [(itoa wallns, "ns/op"); (itoa userns, "user-ns/op")])
          +:+ LF) w)
  /\ (forall (name : string) (wallns : Z) (c : Counters) (w : World),
        Old.print_result name wallns c w
        = printed
            (record_line ("Benchmark" +:+ name)
               [(itoa wallns, "ns/op"); (itoa (bytes c), "B/op");
                (itoa (allocs c), "allocs/op")]
             +:+ LF) w)
  /\ (forall (E : Env) (name : string) (cmd : Cmd) (w : World),
        exec_err (snd (CombinedOutput E cmd w)) = None ->
        runCmd E name cmd w
        = printed
            (record_line name
               [(itoa (now (fst (CombinedOutput E cmd w)) - now w), "ns/op")]
             +:+ LF) (fst (CombinedOutput E cmd w)))
  /\ print_result "BenchmarkX" 1234 99 (mkCounters 7 56)
       (Scenario.demo_world true "")
     = printed
         ("BenchmarkX 1 1234 ns/op 99 user-ns/op 56 B/op 7 allocs/op" +:+ LF)
         (Scenario.demo_world true "")
  /\ (forall (name : string) (wallns userns : Z) (c : Counters) (w : World),
        print_result name wallns userns c w
        = printed
            (name +:+ " 1 " +:+ itoa wallns +:+ " ns/op "
             +:+ itoa userns +:+ " user-ns/op"
             +:+ (if flagAlloc (flags w)
                  then " " +:+ itoa (bytes c) +:+ " B/op "
                       +:+ itoa (allocs c) +:+ " allocs/op" +:+ LF
                  else LF)) w)
  /\ (forall (name : string) (wallns : Z) (c : Counters) (w : World),
        Old.print_result name wallns c w
        = printed
            ("Benchmark" +:+ name +:+ " 1 " +:+ itoa wallns +:+ " ns/op "
             +:+ itoa (bytes c) +:+ " B/op " +:+ itoa (allocs c)
             +:+ " allocs/op" +:+ LF) w).
Proof.
  split; [apply print_result_printed|].
  split.
  { intros name wallns c w. unfold Old.print_result, Printf.
    rewrite Sprintf_result_old. reflexivity. }
  split.
  { intros E name cmd w Hok. unfold runCmd.
    destruct (CombinedOutput E cmd w) as [w1 r]. cbn [fst snd] in *.
    rewrite Hok. unfold Printf. rewrite Sprintf_result_cmd. reflexivity. }
  split; [reflexivity|].
  split.
  - intros name wallns userns c w. rewrite print_result_printed.
    f_equal. destruct (flagAlloc (flags w)); text_eq.
  - intros name wallns c w. unfold Old.print_result, Printf.
    rewrite Sprintf_result_old. f_equal. text_eq.
Qed.

Lemma records_follow_line_format_witness :
  stdout
    (runCmd (Scenario.demo_env false "" None true) "BenchmarkStdCmd"
       (mkCmd "go" ["build"; "-a"; "std"; "cmd"] "/go/src")
       (Scenario.demo_world false ""))
  = ["BenchmarkStdCmd 1 7 ns/op" +:+ LF].
Proof.
  rewrite (proj1 (proj2 (proj2 records_follow_line_format))
             (Scenario.demo_env false "" None true) "BenchmarkStdCmd"
             (mkCmd "go" ["build"; "-a"; "std"; "cmd"] "/go/src")
             (Scenario.demo_world false "") eq_refl).
  vm_compute. reflexivity.
Defined.

(** C2 as stated fails in the older generation: for the benchmark that its
    table calls [BenchmarkTemplate], the record is not a line
    [BenchmarkTemplate 1 ...]: it begins [BenchmarkBenchmarkTemplate 1]. *)
Lemma old_record_not_under_its_name :
  In ("BenchmarkTemplate", "html/template") Old.tests
  /\ exists w',
       More.old_template_run = Done w'
       /\ stdout w'
          = ["BenchmarkBenchmarkTemplate 1 1000 ns/op 4096 B/op 77 allocs/op"
             +:+ LF]
       /\ forall pairs,
            stdout w' <> [record_line "BenchmarkTemplate" pairs +:+ LF].
Proof.
  split; [left; reflexivity|].
  eexists. split; [vm_compute; reflexivity|].
  split; [vm_compute; reflexivity|].
  intros pairs H. vm_compute in H. discriminate H.
Qed.

(** *** The size report *)

Lemma len_cons2 {A : Type} (a b : A) (l : list A) : (len (a :: b :: l) <? 2) = false.
Proof. apply Z.ltb_ge. unfold len. cbn [length]. lia. Qed.

Lemma len_ge2 {A : Type} (a b : A) (l : list A) : (2 <=? len (a :: b :: l)) = true.
Proof. apply Z.leb_le. unfold len. cbn [length]. lia. Qed.

Lemma len_ge3 {A : Type} (a b c : A) (l : list A) :
  (3 <=? len (a :: b :: c :: l)) = true.
Proof. apply Z.leb_le. unfold len. cbn [length]. lia. Qed.

(** The segment shape: two fields and the executable size. *)
Lemma size_report_text (name out : string) (size : Z) (w : World)
    (l0 l1 : string) (rest : list string) (f0 f1 : string) (more : list string) :
  Split out newline = l0 :: l1 :: rest ->
  HasPrefix l0 "__TEXT" = true ->
  Fields l1 = f0 :: f1 :: more ->
  size_report name out size w
  = printed
      (record_line name
         [(f0, "text-bytes"); (f1, "data-bytes"); (itoa size, "exe-bytes")]
       +:+ LF) w.
Proof.
  intros Hs Hp Hf. unfold size_report. rewrite Hs, len_cons2.
  unfold index. cbn [nth]. rewrite Hf, Hp, len_ge2. cbn [andb nth].
  unfold Printf. rewrite Sprintf_size_text. reflexivity.
Qed.

(** The section shape: three fields and the executable size. *)
Lemma size_report_bss (name out : string) (size : Z) (w : World)
    (l0 l1 : string) (rest : list string) (f0 f1 f2 : string)
    (more : list string) :
  Split out newline = l0 :: l1 :: rest ->
  HasPrefix l0 "__TEXT" = false ->
  Contains l0 "bss" = true ->
  Fields l1 = f0 :: f1 :: f2 :: more ->
  size_report name out size w
  = printed
      (record_line name
         [(f0, "text-bytes"); (f1, "data-bytes"); (f2, "bss-bytes");
          (itoa size, "exe-bytes")]
       +:+ LF) w.
Proof.
  intros Hs Hp Hc Hf. unfold size_report. rewrite Hs, len_cons2.
  unfold index. cbn [nth]. rewrite Hf, Hp, Hc, len_ge3. cbn [andb nth].
  unfold Printf. rewrite Sprintf_size_bss. reflexivity.
Qed.

Lemma append_nil_r (a : string) : a +:+ "" = a.
Proof.
  induction a as [|x a IH]; [reflexivity|].
  rewrite append_cons, IH. reflexivity.
Qed.

(** Fewer than two lines: a line in the log, no record. *)
Lemma size_report_short (name out : string) (size : Z) (w : World) :
  (len (Split out newline) <? 2) = true ->
  size_report name out size w
  = log_Print ("not enough output from size: " +:+ out) w.
Proof.
  intros H. unfold size_report. rewrite H. unfold log_Printf.
  replace (Sprintf "not enough output from size: %s" [AStr out])
    with (Some ("not enough output from size: " +:+ out)); [reflexivity|].
  rewrite <- (append_nil_r out) at 1. reflexivity.
Qed.

(** Two lines or more in neither shape: nothing is written at all. *)
Lemma size_report_unrecognized (name out : string) (size : Z) (w : World)
    (l0 l1 : string) (rest : list string) :
  Split out newline = l0 :: l1 :: rest ->
  HasPrefix l0 "__TEXT" && (2 <=? len (Fields l1)) = false ->
  Contains l0 "bss" && (3 <=? len (Fields l1)) = false ->
  size_report name out size w = w.
Proof.
  intros Hs Ha Hb. unfold size_report. rewrite Hs, len_cons2.
  unfold index. cbn [nth]. rewrite Ha, Hb. reflexivity.
Qed.

(** C3.  For a size output of at least two lines: when the first line
    starts with [__TEXT] and the second has at least two fields, the record
    gives the first field as text-bytes, the second as data-bytes and the
    executable size as it was handed in, and has no bss field; when instead
    the first line contains [bss] and the second has at least three fields,
    the record gives the three fields as text-bytes, data-bytes and
    bss-bytes, and the executable size. *)
Theorem size_report_two_shapes (name out : string) (size : Z) (w : World)
    (l0 l1 : string) (rest : list string) :
  Split out newline = l0 :: l1 :: rest ->
  (forall (f0 f1 : string) (more : list string),
     HasPrefix l0 "__TEXT" = true ->
     Fields l1 = f0 :: f1 :: more ->
     size_report name out size w
     = printed
         (record_line name
            [(f0, "text-bytes"); (f1, "data-bytes"); (itoa size, "exe-bytes")]
          +:+ LF) w)
  /\ (forall (f0 f1 f2 : string) (more : list string),
        HasPrefix l0 "__TEXT" = false ->
        Contains l0 "bss" = true ->
        Fields l1 = f0 :: f1 :: f2 :: more ->
        size_report name out size w
        = printed
            (record_line name
               [(f0, "text-bytes"); (f1, "data-bytes"); (f2, "bss-bytes");
                (itoa size, "exe-bytes")]
             +:+ LF) w).
Proof.
  intros Hs. split.
  - intros f0 f1 more Hp Hf. eapply size_report_text; eassumption.
  - intros f0 f1 f2 more Hp Hc Hf. eapply size_report_bss; eassumption.
Qed.

Lemma size_report_two_shapes_witness :
  stdout (size_report "BenchmarkHelloSize" Scenario.size_darwin 1130496
            (Scenario.demo_world false ""))
  = ["BenchmarkHelloSize 1 1261568 text-bytes 94208 data-bytes 1130496 exe-bytes"
     +:+ LF]
  /\ stdout (size_report "BenchmarkHelloSize" Scenario.size_linux 1130496
               (Scenario.demo_world false ""))
     = ["BenchmarkHelloSize 1 708604 text-bytes 17416 data-bytes 118752 bss-bytes 1130496 exe-bytes"
        +:+ LF].
Proof.
  split.
  - rewrite (proj1 (size_report_two_shapes "BenchmarkHelloSize"
                      Scenario.size_darwin 1130496
                      (Scenario.demo_world false "")
                      "__TEXT	__DATA	__OBJC	others	dec	hex"
                      "1261568	94208	0	4296704	5652480	564000" [""]
                      eq_refl)
               "1261568" "94208" ["0"; "4296704"; "5652480"; "564000"]
               eq_refl eq_refl).
    vm_compute. reflexivity.
  - rewrite (proj2 (size_report_two_shapes "BenchmarkHelloSize"
                      Scenario.size_linux 1130496
                      (Scenario.demo_world false "")
                      "   text	   data	    bss	    dec	    hex	filename"
                      " 708604	  17416	 118752	 844772	  ce3e4	_compilebenchout_"
                      [""] eq_refl)
               "708604" "17416" "118752"
               ["844772"; "ce3e4"; "_compilebenchout_"]
               eq_refl eq_refl eq_refl).
    vm_compute. reflexivity.
Defined.

(** C10.  The fields of the second line are not checked to be numbers: once
    the header has one of the two shapes and the fields are enough, they go
    into the record as they stand, whatever ParseInt would make of them. *)
Theorem size_fields_copied_verbatim (name out : string) (size : Z) (w : World)
    (l0 l1 : string) (rest : list string) :
  Split out newline = l0 :: l1 :: rest ->
  (HasPrefix l0 "__TEXT" && (2 <=? len (Fields l1)) = true ->
   stdout (size_report name out size w)
   = (stdout w ++
      [name +:+ " 1 " +:+ index (Fields l1) 0 +:+ " text-bytes "
       +:+ index (Fields l1) 1 +:+ " data-bytes "
       +:+ itoa size +:+ " exe-bytes" +:+ LF])%list)
  /\ (HasPrefix l0 "__TEXT" && (2 <=? len (Fields l1)) = false ->
      Contains l0 "bss" && (3 <=? len (Fields l1)) = true ->
      stdout (size_report name out size w)
      = (stdout w ++
         [name +:+ " 1 " +:+ index (Fields l1) 0 +:+ " text-bytes "
          +:+ index (Fields l1) 1 +:+ " data-bytes "
          +:+ index (Fields l1) 2 +:+ " bss-bytes "
          +:+ itoa size +:+ " exe-bytes" +:+ LF])%list).
Proof.
  intros Hs. unfold size_report. rewrite Hs, len_cons2.
  change (index (l0 :: l1 :: rest) 0) with l0.
  change (index (l0 :: l1 :: rest) 1) with l1.
  split.
  - intros Ha. rewrite Ha. unfold Printf. rewrite Sprintf_size_text.
    cbn [stdout]. do 2 f_equal. text_eq.
  - intros Ha Hb. rewrite Ha, Hb. unfold Printf. rewrite Sprintf_size_bss.
    cbn [stdout]. do 2 f_equal. text_eq.
Qed.

Lemma size_fields_copied_verbatim_witness :
  ParseInt0 "abc" = ErrSyntax
  /\ stdout (size_report "BenchmarkCmdGoSize" Scenario.size_words 7
               (Scenario.demo_world false ""))
     = ["BenchmarkCmdGoSize 1 abc text-bytes n/a data-bytes 0x1z bss-bytes 7 exe-bytes"
        +:+ LF].
Proof.
  split; [vm_compute; reflexivity|].
  rewrite (proj2 (size_fields_copied_verbatim "BenchmarkCmdGoSize"
                    Scenario.size_words 7 (Scenario.demo_world false "")
                    "text data bss" "abc n/a 0x1z" [""] eq_refl)
             eq_refl eq_refl).
  vm_compute. reflexivity.
Defined.

(** C4, at the failing input: BenchmarkHelloSize when the size tool prints
    the two lines [foo bar] and [1 2 3].  No record is printed, as the claim
    says, but nothing reaches the log either: the standard error stream
    holds the output of the build alone.  With a single line of size output
    the log does get its line. *)
Theorem unrecognized_size_output_not_logged :
  stdout (world_of Scenario.unknown_size_run) = []
  /\ existsb is_log (stderr (world_of Scenario.unknown_size_run)) = false
  /\ stderr (world_of Scenario.short_size_run)
     = [ChildOutput "";
        LogLine ("compilebench: not enough output from size: oops" +:+ LF)].
Proof. repeat split. Qed.

(** *** The loop of main *)

Lemma run_test_skipped (E : Env) (G : Globals) (t : Test) (w : World) :
  run_test E G t w
  = if skipped G t w then Done w else runBuild E G (name t) (dir t) "" w.
Proof.
  unfold run_test, skipped.
  destruct (long t && flagShort (flags w)).
  - rewrite orb_true_r. reflexivity.
  - rewrite orb_false_r. destruct (runRE G) as [re|]; [|reflexivity].
    destruct (re (name t)); reflexivity.
Qed.

Lemma run_tests_all_skipped (E : Env) (G : Globals) (l : list Test) (w : World) :
  Forall (fun t => skipped G t w = true) l ->
  run_tests E G l w = Done w.
Proof.
  intros Hall.
  induction Hall as [|t l Ht _ IH]; [reflexivity|].
  cbn [run_tests]. rewrite run_test_skipped, Ht. exact IH.
Qed.

Lemma rounds_all_skipped (E : Env) (G : Globals) (n : nat) (w : World) :
  Forall (fun t => skipped G t w = true) tests ->
  rounds E G n w = Done w.
Proof.
  intros Hall. induction n as [|n IH]; [reflexivity|].
  cbn [rounds].
  rewrite (run_tests_all_skipped E G tests w Hall).
  exact IH.
Qed.

(** C7.  A benchmark is skipped, the world left as it is (no command run,
    no record printed), exactly when a name filter is set and does not match
    its name, or it is long-running and short mode is on; otherwise runBuild
    is called for it.  With a filter that matches none of the defined
    benchmarks the loop of main returns normally with the world unchanged,
    however many rounds were asked for; and a long-running benchmark that
    the filter lets through is run whenever short mode is off. *)
Theorem benchmark_skipped_iff (E : Env) (G : Globals) :
  (forall (t : Test) (w : World),
     run_test E G t w
     = if skipped G t w then Done w else runBuild E G (name t) (dir t) "" w)
  /\ (forall (re : string -> bool) (w : World),
        runRE G = Some re ->
        (forall t, In t tests -> re (name t) = false) ->
        main_loop E G w = Done w)
  /\ (forall (t : Test) (w : World),
        long t = true ->
        flagShort (flags w) = false ->
        match runRE G with Some re => re (name t) | None => true end = true ->
        run_test E G t w = runBuild E G (name t) (dir t) "" w).
Proof.
  split; [apply run_test_skipped|]. split.
  - intros re w Hre Hnone. unfold main_loop. apply rounds_all_skipped.
    apply List.Forall_forall. intros t Ht. unfold skipped.
    rewrite Hre, (Hnone t Ht). reflexivity.
  - intros t w Hlong Hshort Hre. rewrite run_test_skipped. unfold skipped.
    rewrite Hshort, andb_false_r, orb_false_r.
    destruct (runRE G) as [re|]; [rewrite Hre|]; reflexivity.
Qed.

Lemma benchmark_skipped_iff_witness :
  main_loop (Scenario.demo_env false "" None true)
    (Scenario.demo_globals Scenario.no_match) (Scenario.demo_world false "")
  = Done (Scenario.demo_world false "")
  /\ run_test (Scenario.demo_env false "" None true)
       (Scenario.demo_globals None) Scenario.long_test
       (Scenario.demo_world false "")
     = runBuild (Scenario.demo_env false "" None true)
         (Scenario.demo_globals None) "BenchmarkStdCmd" "" ""
         (Scenario.demo_world false "").
Proof.
  split.
  - apply (proj1 (proj2 (benchmark_skipped_iff
                           (Scenario.demo_env false "" None true)
                           (Scenario.demo_globals Scenario.no_match)))
             (fun _ => false) (Scenario.demo_world false "") eq_refl).
    intros t Ht. reflexivity.
  - apply (proj2 (proj2 (benchmark_skipped_iff
                           (Scenario.demo_env false "" None true)
                           (Scenario.demo_globals None)))
             Scenario.long_test (Scenario.demo_world false "")
             eq_refl eq_refl eq_refl).
Defined.

(** *** What the steps of a compilation leave untouched *)

Section Steps.

Variable E : Env.

Lemma WriteFile_frame (path data : string) (w : World) :
  let w' := fst (WriteFile E path data w) in
  flags w' = flags w /\ stdout w' = stdout w /\ stderr w' = stderr w
  /\ forall p, p <> path -> fs w' !! p = fs w !! p.
Proof.
  unfold WriteFile. destruct (writable E path); cbn; repeat split; try reflexivity.
  intros p Hp. apply lookup_insert_ne. congruence.
Qed.

(** The memory profile step keeps flags and standard output, only adds to
    the standard error stream, and ends with the profile removed. *)
Lemma memprofile_step_frame (pkgdir : string) (w : World) :
  let w' := fst (memprofile_step E pkgdir w) in
  flags w' = flags w /\ stdout w' = stdout w
  /\ (forall d, In d (stderr w) -> In d (stderr w'))
  /\ (want_memprof w = true -> fs w' !! memprof pkgdir = None).
Proof.
  unfold memprofile_step.
  destruct (want_memprof w) eqn:Hw; cbn [fst]; [|repeat split; auto; discriminate].
  destruct (ReadFile (memprof pkgdir) w) as [out err].
  set (w1 := match err with
             | Some _ => log_Print "cannot find memory profile after compilation" w
             | None => w
             end).
  assert (H1 : flags w1 = flags w /\ stdout w1 = stdout w
               /\ forall d, In d (stderr w) -> In d (stderr w1)).
  { subst w1. destruct err; cbn; repeat split; auto.
    intros d Hd. apply in_or_app. left. exact Hd. }
  destruct H1 as (Hf1 & Ho1 & He1).
  cbn [fst].
  destruct (nonempty (flagMemprofile (flags w1))).
  - pose proof (WriteFile_frame (flagMemprofile (flags w1)) out w1) as Hwf.
    destruct (WriteFile E (flagMemprofile (flags w1)) out w1) as [w' [e|]];
      cbn [fst] in Hwf; destruct Hwf as (Hf & Ho & He & _); cbn;
      rewrite ?Hf, ?Ho, ?He; repeat split; auto.
    + intros d Hd. apply in_or_app. left. auto.
    + intros _. apply lookup_delete_eq.
    + intros _. apply lookup_delete_eq.
  - cbn. repeat split; auto. intros _. apply lookup_delete_eq.
Qed.

(** When the profile is not there, the step logs the anomaly and the
    counters stay at zero. *)
Lemma memprofile_step_missing (pkgdir : string) (w : World) :
  want_memprof w = true ->
  fs w !! memprof pkgdir = None ->
  snd (memprofile_step E pkgdir w) = mkCounters 0 0
  /\ In (LogLine (log_line "cannot find memory profile after compilation"))
        (stderr (fst (memprofile_step E pkgdir w))).
Proof.
  intros Hw Hfs. unfold memprofile_step, ReadFile. rewrite Hw, Hfs.
  set (w1 := log_Print "cannot find memory profile after compilation" w).
  assert (Hin : In (LogLine (log_line
                       "cannot find memory profile after compilation"))
                   (stderr w1)).
  { subst w1. cbn. apply in_or_app. right. left. reflexivity. }
  cbn [fst snd]. split; [reflexivity|].
  destruct (nonempty (flagMemprofile (flags w1))); [|exact Hin].
  pose proof (WriteFile_frame (flagMemprofile (flags w1)) "" w1) as Hwf.
  destruct (WriteFile E (flagMemprofile (flags w1)) "" w1) as [w' [e|]];
    cbn [fst] in Hwf; destruct Hwf as (_ & _ & He & _); cbn; rewrite He.
  - apply in_or_app. left. exact Hin.
  - exact Hin.
Qed.

(** The CPU profile step keeps flags and standard output, only adds to the
    standard error stream, ends with the CPU profile removed, and creates no
    file but the copy it is asked for. *)
Lemma cpuprofile_step_frame (pkgdir : string) (w : World) :
  let w' := cpuprofile_step E pkgdir w in
  flags w' = flags w /\ stdout w' = stdout w
  /\ (forall d, In d (stderr w) -> In d (stderr w'))
  /\ (nonempty (flagCpuprofile (flags w)) = true ->
      fs w' !! cpuprof pkgdir = None)
  /\ (forall p, p <> flagCpuprofile (flags w) -> fs w !! p = None ->
      fs w' !! p = None).
Proof.
  unfold cpuprofile_step.
  destruct (nonempty (flagCpuprofile (flags w))) eqn:Hc; cbn zeta;
    [|repeat split; auto; discriminate].
  destruct (ReadFile (cpuprof pkgdir) w) as [out err].
  set (w1 := match err with Some e => log_Print e w | None => w end).
  assert (H1 : flags w1 = flags w /\ stdout w1 = stdout w /\ fs w1 = fs w
               /\ forall d, In d (stderr w) -> In d (stderr w1)).
  { subst w1. destruct err; cbn; repeat split; auto.
    intros d Hd. apply in_or_app. left. exact Hd. }
  destruct H1 as (Hf1 & Ho1 & Hfs1 & He1).
  pose proof (WriteFile_frame (flagCpuprofile (flags w1)) out w1) as Hwf.
  destruct (WriteFile E (flagCpuprofile (flags w1)) out w1) as [w' [e|]];
    cbn [fst] in Hwf; destruct Hwf as (Hf & Ho & He & Hfs); cbn;
    rewrite ?Hf, ?Ho, ?He; repeat split; auto.
  - intros d Hd. apply in_or_app. left. auto.
  - intros _. apply lookup_delete_eq.
  - intros p Hp Hnone. apply lookup_delete_None. right.
    rewrite Hfs by (rewrite Hf1; exact Hp). rewrite Hfs1. exact Hnone.
  - intros _. apply lookup_delete_eq.
  - intros p Hp Hnone. apply lookup_delete_None. right.
    rewrite Hfs by (rewrite Hf1; exact Hp). rewrite Hfs1. exact Hnone.
Qed.

Lemma print_result_frame (name : string) (wallns userns : Z) (c : Counters)
    (w : World) :
  let w' := print_result name wallns userns c w in
  flags w' = flags w /\ stderr w' = stderr w /\ fs w' = fs w.
Proof.
  cbn zeta.
  rewrite print_result_printed. cbn. auto.
Qed.

End Steps.

(** *** A compilation whose build succeeded *)

Lemma compile_start_frame (G : Globals) (w : World) :
  fs (compile_start G w) = fs w /\ stdout (compile_start G w) = stdout w
  /\ stderr (compile_start G w) = stderr w
  /\ execs (compile_start G w) = execs w /\ now (compile_start G w) = now w.
Proof. unfold compile_start. destruct (is6g G); cbn; auto. Qed.

(** The function [compile] once its build has returned without error. *)
Lemma compile_success (E : Env) (G : Globals) (name : string)
    (files : list string) (pkgdir : string) (w : World) :
  let w0 := compile_start G w in
  let r := exec E (mkCmd (compiler G) (compile_args files w0) pkgdir)
             (execs w0) (fs w0) in
  exec_err r = None ->
  let w1 := fst (Run E (mkCmd (compiler G) (compile_args files w0) pkgdir) w0) in
  let w2 := fst (memprofile_step E pkgdir w1) in
  let c := snd (memprofile_step E pkgdir w1) in
  let w3 := cpuprofile_step E pkgdir w2 in
  compile E G name files pkgdir w
  = Remove (objfile pkgdir)
      (print_result name (now w1 - now w0) (exec_user r) c w3).
Proof.
  cbn zeta. intros Hok. unfold compile. fold (compile_start G w).
  unfold Run, run. cbn [fst]. rewrite Hok.
  destruct (memprofile_step E pkgdir _) as [w2 c]. reflexivity.
Qed.

(** C6, as amended.  In main.go, after a build that succeeded under -alloc
    (with a compiler that is not 6g), a memory profile that cannot be read
    is not fatal: the log gets the line [cannot find memory profile after
    compilation], and the record is still printed, with 0 B/op and
    0 allocs/op.  (The older generation ends the process instead, as the
    run at the end of this part shows.) *)
Theorem missing_profile_warned_zero_counters (E : Env) (G : Globals)
    (name : string) (files : list string) (pkgdir : string) (w : World) :
  is6g G = false ->
  flagAlloc (flags w) = true ->
  exec_err (exec E (mkCmd (compiler G) (compile_args files w) pkgdir)
              (execs w) (fs w)) = None ->
  exec_fs (exec E (mkCmd (compiler G) (compile_args files w) pkgdir)
             (execs w) (fs w)) !! memprof pkgdir = None ->
  let r := exec E (mkCmd (compiler G) (compile_args files w) pkgdir)
             (execs w) (fs w) in
  let w' := compile E G name files pkgdir w in
  stdout w'
  = (stdout w ++
     [record_line name
        [(itoa (exec_wall r), "ns/op"); (itoa (exec_user r), "user-ns/op");
         ("0", "B/op"); ("0", "allocs/op")] +:+ LF])%list
  /\ In (LogLine (log_prefix
                  +:+ "cannot find memory profile after compilation" +:+ LF))
        (stderr w').
Proof.
  intros H6g Halloc Hok Hmiss. cbn zeta.
  assert (Hstart : compile_start G w = w)
    by (unfold compile_start; rewrite H6g; reflexivity).
  pose proof (compile_success E G name files pkgdir w) as Hc.
  cbn zeta in Hc. rewrite Hstart in Hc. specialize (Hc Hok). rewrite Hc.
  clear Hc.
  set (cmd := mkCmd (compiler G) (compile_args files w) pkgdir) in *.
  set (w1 := fst (Run E cmd w)).
  assert (Hw1 : want_memprof w1 = true)
    by (unfold want_memprof; subst w1; cbn; rewrite Halloc; reflexivity).
  assert (Hfs1 : fs w1 !! memprof pkgdir = None) by exact Hmiss.
  destruct (memprofile_step_missing E pkgdir w1 Hw1 Hfs1) as [Hzero Hlog].
  destruct (memprofile_step_frame E pkgdir w1) as (Hf2 & Ho2 & _ & _).
  destruct (cpuprofile_step_frame E pkgdir (fst (memprofile_step E pkgdir w1)))
    as (Hf3 & Ho3 & He3 & _ & _).
  rewrite Hzero, print_result_printed.
  cbn [Remove set_fs printed stdout stderr flags].
  rewrite Hf3, Hf2, Ho3, Ho2.
  subst w1. cbn [Run run fst flags stdout now].
  rewrite Halloc. cbn [bytes allocs].
  replace (now w + exec_wall (exec E cmd (execs w) (fs w)) - now w)
    with (exec_wall (exec E cmd (execs w) (fs w))) by lia.
  split; [reflexivity|].
  apply He3. exact Hlog.
Qed.

Lemma missing_profile_warned_zero_counters_witness :
  stdout (world_of Scenario.no_profile_run)
  = ["BenchmarkTemplate 1 1000 ns/op 900 user-ns/op 0 B/op 0 allocs/op" +:+ LF]
  /\ In (LogLine ("compilebench: cannot find memory profile after compilation"
                  +:+ LF))
        (stderr (world_of Scenario.no_profile_run)).
Proof.
  exact (missing_profile_warned_zero_counters
           (Scenario.demo_env false "" None true) (Scenario.demo_globals None)
           "BenchmarkTemplate" ["a.go"; "b.go"] "/go/src/html/template"
           (Scenario.demo_world true "") eq_refl eq_refl eq_refl eq_refl).
Defined.

(** *** Removal of the side artifacts *)

Lemma runSize_removes (E : Env) (name path : string) (w : World) :
  exec_err (exec E (mkCmd "go" (["build"; "-o"; compilebenchout]
                                ++ toolexec_args w ++ [path]) "")
              (execs w) (fs w)) = None ->
  fs (runSize E name path w) !! compilebenchout = None.
Proof.
  intros Hok. unfold runSize, Run, run. rewrite Hok.
  cbn [Remove set_fs fs]. apply lookup_delete_eq.
Qed.

(** C8, as amended, for main.go.  Once the build of a benchmark has
    succeeded, the benchmark ends with its side artifacts gone from the
    filesystem that the next benchmark starts in, whether or not the copies
    of the profiles could be written: the object file always; the CPU
    profile when -cpuprofile is set; the memory profile when -alloc or
    -memprofile is set (and the -cpuprofile copy is not written onto the
    very path of that artifact); and [_compilebenchout_] for the size
    benchmarks. *)
Theorem artifacts_removed_after_build (E : Env) (G : Globals) :
  (forall (name : string) (files : list string) (pkgdir : string) (w : World),
     let w0 := compile_start G w in
     exec_err (exec E (mkCmd (compiler G) (compile_args files w0) pkgdir)
                 (execs w0) (fs w0)) = None ->
     let w' := compile E G name files pkgdir w in
     fs w' !! objfile pkgdir = None
     /\ (nonempty (flagCpuprofile (flags w0)) = true ->
         fs w' !! cpuprof pkgdir = None)
     /\ (want_memprof w0 = true ->
         flagCpuprofile (flags w0) <> memprof pkgdir ->
         fs w' !! memprof pkgdir = None))
  /\ (forall (name path : string) (w : World),
        exec_err (exec E (mkCmd "go" (["build"; "-o"; compilebenchout]
                                      ++ toolexec_args w ++ [path]) "")
                    (execs w) (fs w)) = None ->
        fs (runSize E name path w) !! compilebenchout = None).
Proof.
  split; [|apply runSize_removes].
  intros name files pkgdir w. cbn zeta. intros Hok.
  pose proof (compile_success E G name files pkgdir w) as Hc.
  cbn zeta in Hc. specialize (Hc Hok). rewrite Hc. clear Hc.
  set (w0 := compile_start G w) in *.
  set (w1 := fst (Run E (mkCmd (compiler G) (compile_args files w0) pkgdir) w0)).
  assert (Hf1 : flags w1 = flags w0) by reflexivity.
  destruct (memprofile_step_frame E pkgdir w1) as (Hf2 & _ & _ & Hmem).
  set (w2 := fst (memprofile_step E pkgdir w1)) in *.
  destruct (cpuprofile_step_frame E pkgdir w2) as (Hf3 & _ & _ & Hcpu & Hkeep).
  set (w3 := cpuprofile_step E pkgdir w2) in *.
  destruct (print_result_frame name (now w1 - now w0)
              (exec_user (exec E (mkCmd (compiler G) (compile_args files w0)
                                    pkgdir) (execs w0) (fs w0)))
              (snd (memprofile_step E pkgdir w1)) w3) as (_ & _ & Hfs4).
  cbn zeta in Hfs4.
  cbn [Remove set_fs fs]. rewrite Hfs4.
  split; [apply lookup_delete_eq|]. split.
  - intros Hset. apply lookup_delete_None. right. apply Hcpu.
    rewrite Hf2, Hf1. exact Hset.
  - intros Hwant Hne. apply lookup_delete_None. right. apply Hkeep.
    + rewrite Hf2, Hf1. congruence.
    + apply Hmem. unfold want_memprof in *. rewrite Hf1. exact Hwant.
Qed.

Lemma artifacts_removed_after_build_witness :
  fs (world_of Scenario.failed_copy_main)
    !! objfile "/go/src/html/template" = None
  /\ fs (world_of Scenario.failed_copy_main)
       !! memprof "/go/src/html/template" = None.
Proof.
  pose proof (proj1 (artifacts_removed_after_build
                       (Scenario.demo_env false "" (Some Scenario.heap_profile)
                          false)
                       (Scenario.demo_globals None))
                "BenchmarkTemplate" ["a.go"; "b.go"] "/go/src/html/template"
                (Scenario.demo_world false "/ro/mem.prof") eq_refl) as H.
  cbn zeta in H. destruct H as (Hobj & _ & Hmem).
  split; [exact Hobj|]. apply Hmem; [reflexivity|discriminate].
Defined.

(** C8 as stated fails in the older generation: with -memprofile set to a
    path that cannot be written, runBuild has printed its record and then
    leaves through log.Fatal, and the object file and the memory profile are
    still there. *)
Lemma old_failed_copy_leaves_artifacts :
  exists w',
    Scenario.failed_copy_old = Exited 1 w'
    /\ fs w' !! objfile "/go/src/html/template" = Some "obj"
    /\ fs w' !! memprof "/go/src/html/template" = Some Scenario.heap_profile
    /\ stderr w'
       = [LogLine ("compilebench: open /ro/mem.prof: permission denied" +:+ LF)].
Proof.
  eexists. split; [vm_compute; reflexivity|].
  repeat split; vm_compute; reflexivity.
Qed.

(** *** A build that fails *)

Lemma Sprintf_failure_cmd (name err out : string) :
  Sprintf ("%v: %v" +:+ LF +:+ "%s") [AStr name; AStr err; AStr out]
  = Some (name +:+ ": " +:+ err +:+ LF +:+ out).
Proof.
  rewrite <- (append_nil_r out) at 2. reflexivity.
Qed.

Lemma Sprintf_failure_build (name err : string) :
  Sprintf "%v: %v" [AStr name; AStr err] = Some (name +:+ ": " +:+ err).
Proof.
  rewrite <- (append_nil_r err) at 2. reflexivity.
Qed.

Lemma runCmd_failure (E : Env) (name : string) (cmd : Cmd) (w : World)
    (err : string) :
  exec_err (exec E cmd (execs w) (fs w)) = Some err ->
  runCmd E name cmd w
  = log_Print (name +:+ ": " +:+ err +:+ LF
               +:+ exec_out (exec E cmd (execs w) (fs w)))
      (fst (CombinedOutput E cmd w)).
Proof.
  intros Herr. unfold runCmd, CombinedOutput, run. rewrite Herr.
  unfold log_Printf. rewrite Sprintf_failure_cmd. reflexivity.
Qed.

Lemma runSize_failure (E : Env) (name path : string) (w : World) (err : string) :
  exec_err (exec E (mkCmd "go" (["build"; "-o"; compilebenchout]
                                ++ toolexec_args w ++ [path]) "")
              (execs w) (fs w)) = Some err ->
  runSize E name path w
  = log_Print err
      (fst (Run E (mkCmd "go" (["build"; "-o"; compilebenchout]
                               ++ toolexec_args w ++ [path]) "") w)).
Proof.
  intros Herr. unfold runSize, Run, run. rewrite Herr. reflexivity.
Qed.

Lemma compile_failure (E : Env) (G : Globals) (name : string)
    (files : list string) (pkgdir : string) (w : World) (err : string) :
  exec_err (exec E (mkCmd (compiler G)
                      (compile_args files (compile_start G w)) pkgdir)
              (execs (compile_start G w)) (fs (compile_start G w))) = Some err ->
  compile E G name files pkgdir w
  = log_Print (name +:+ ": " +:+ err)
      (fst (Run E (mkCmd (compiler G)
                     (compile_args files (compile_start G w)) pkgdir)
              (compile_start G w))).
Proof.
  intros Herr. unfold compile. fold (compile_start G w).
  unfold Run, run. rewrite Herr.
  unfold log_Printf. rewrite Sprintf_failure_build. reflexivity.
Qed.

(** C5, as amended, for main.go.  When the build command of a benchmark
    fails with error [err], runBuild returns normally: nothing is printed on
    the standard output; the standard error stream gets the output of the
    build as the child wrote it (only runCmd, for BenchmarkStdCmd, captures
    it and puts it into the log line instead) and then one line of the log
    with the error; and the loop goes on with the remaining benchmarks. *)
Theorem failed_build_logged_and_skipped (E : Env) (G : Globals)
    (name dir file : string) (w : World) (c : Cmd) (w0 : World) (err : string) :
  build_invocation E G name dir file w = Some (c, w0) ->
  exec_err (exec E c (execs w0) (fs w0)) = Some err ->
  exists w',
    runBuild E G name dir file w = Done w'
    /\ stdout w' = stdout w
    /\ stderr w'
       = (stderr w
          ++ (if captures_output name then []
              else [ChildOutput (exec_out (exec E c (execs w0) (fs w0)))])
          ++ [LogLine (log_line (failure_message name err
                                   (exec_out (exec E c (execs w0) (fs w0)))))])%list
    /\ execs w' = (execs w ++ [c])%list
    /\ forall (t : Test) (l : list Test),
         run_test E G t w = runBuild E G name dir file w ->
         run_tests E G (t :: l) w = run_tests E G l w'.
Proof.
  intros Hinv Herr.
  unfold build_invocation in Hinv. unfold runBuild.
  unfold captures_output, failure_message.
  assert (Hnext : forall o w',
            o = Done w' ->
            forall (t : Test) (l : list Test),
              run_test E G t w = o ->
              run_tests E G (t :: l) w = run_tests E G l w').
  { intros o w' -> t l Ht. cbn [run_tests]. rewrite Ht. reflexivity. }
  destruct (String.eqb name "BenchmarkStdCmd") eqn:H1.
  { apply String.eqb_eq in H1. subst name.
    inversion Hinv; subst c w0; clear Hinv.
    eexists. split; [reflexivity|].
    split; [|split; [|split; [|apply Hnext; reflexivity]]];
      unfold runStdCmd; rewrite (runCmd_failure _ _ _ _ _ Herr); reflexivity. }
  destruct (String.eqb name "BenchmarkCmdGoSize") eqn:H2.
  { inversion Hinv; subst c w0; clear Hinv.
    eexists. split; [reflexivity|].
    split; [|split; [|split; [|apply Hnext; reflexivity]]];
      rewrite (runSize_failure _ _ _ _ _ Herr); cbn;
      rewrite <- ?app_assoc; reflexivity. }
  destruct (String.eqb name "BenchmarkHelloSize") eqn:H3.
  { inversion Hinv; subst c w0; clear Hinv.
    eexists. split; [reflexivity|].
    split; [|split; [|split; [|apply Hnext; reflexivity]]];
      rewrite (runSize_failure _ _ _ _ _ Herr); cbn;
      rewrite <- ?app_assoc; reflexivity. }
  cbn [orb].
  destruct (compile_start_frame G w) as (Hfs & Hout & Herrs & Hex & _).
  destruct (nonempty file).
  { inversion Hinv; subst c w0; clear Hinv.
    eexists. split; [reflexivity|].
    split; [|split; [|split; [|apply Hnext; reflexivity]]];
      rewrite (compile_failure _ _ _ _ _ _ _ Herr); cbn;
      rewrite <- ?app_assoc, ?Hout, ?Herrs, ?Hex; reflexivity. }
  destruct (nonempty dir); [|discriminate].
  destruct (build_Import E dir) as [[pkgdir gofiles]|e]; [|discriminate].
  inversion Hinv; subst c w0; clear Hinv.
  eexists. split; [reflexivity|].
  split; [|split; [|split; [|apply Hnext; reflexivity]]];
    rewrite (compile_failure _ _ _ _ _ _ _ Herr); cbn;
    rewrite <- ?app_assoc, ?Hout, ?Herrs, ?Hex; reflexivity.
Qed.

Lemma failed_build_logged_and_skipped_witness :
  exists w',
    Scenario.failed_build_run = Done w'
    /\ stdout w' = []
    /\ stderr w'
       = [ChildOutput "boom";
          LogLine ("compilebench: BenchmarkTemplate: exit status 2" +:+ LF)].
Proof.
  destruct (failed_build_logged_and_skipped
              (Scenario.demo_env true "" None true) (Scenario.demo_globals None)
              "BenchmarkTemplate" "html/template" ""
              (Scenario.demo_world false "")
              (mkCmd "/go/pkg/tool/compile" ["-o"; "_compilebench_.o"; "a.go"; "b.go"]
                 "/go/src/html/template")
              (Scenario.demo_world false "") "exit status 2"
              eq_refl eq_refl)
    as (w' & Hrun & Hout & Herr & _).
  exists w'. split; [exact Hrun|]. split; [exact Hout|exact Herr].
Defined.

(** C5 as stated fails on both generations.  In main.go the log line of a
    failed compilation holds the name and the error, not the output of the
    build, which was not captured but written by the child to the standard
    error stream.  In the older generation the output is captured and
    logged, but through log.Fatalf: the first failing build ends the
    process, and no other benchmark is tried. *)
Lemma failed_build_not_captured_or_fatal :
  (exists w',
     Scenario.failed_build_run = Done w'
     /\ List.filter is_log (stderr w')
        = [LogLine ("compilebench: BenchmarkTemplate: exit status 2" +:+ LF)]
     /\ Contains ("compilebench: BenchmarkTemplate: exit status 2" +:+ LF)
          "boom" = false)
  /\ (exists w',
        Scenario.failed_batch_old = Exited 1 w'
        /\ stderr w'
           = [LogLine ("compilebench: BenchmarkTemplate: exit status 2" +:+ LF
                       +:+ "boom" +:+ LF)]
        /\ length (execs w') = 1%nat
        /\ length Old.tests = 3%nat).
Proof.
  split.
  - eexists. split; [vm_compute; reflexivity|].
    split; vm_compute; reflexivity.
  - eexists. split; [vm_compute; reflexivity|].
    repeat split; vm_compute; reflexivity.
Qed.

(** C6 as stated fails in the older generation, which always gathers the
    counters, from a second build made for that purpose alone: when the
    memory profile is missing after that build, the process ends through
    log.Fatal with status 1 and no record is printed. *)
Lemma old_missing_profile_fatal :
  exists w',
    Scenario.no_profile_old = Exited 1 w'
    /\ stdout w' = []
    /\ stderr w'
       = [LogLine ("compilebench: cannot find memory profile after compilation"
                   +:+ LF)].
Proof.
  eexists. split; [vm_compute; reflexivity|].
  split; vm_compute; reflexivity.
Qed.

(** ** Part 8: further properties of the code *)

Import More.

(** *** The profile scan as a whole *)

Lemma fold_scan_bytes_last_value (lines : list string) (acc : Counters) :
  bytes (fold_left scan_line lines acc)
  = default (bytes acc) (last_value "TotalAlloc" lines).
Proof.
  revert acc. induction lines as [|l rest IH]; intros acc; [reflexivity|].
  cbn [fold_left last_value]. rewrite IH.
  destruct (last_value "TotalAlloc" rest) as [v|]; [reflexivity|].
  cbn [default]. rewrite scan_line_bytes.
  destruct (counter_of l) as [[k v]|]; [|reflexivity].
  destruct (String.eqb k "TotalAlloc"); reflexivity.
Qed.

Lemma fold_scan_allocs_last_value (lines : list string) (acc : Counters) :
  allocs (fold_left scan_line lines acc)
  = default (allocs acc) (last_value "Mallocs" lines).
Proof.
  revert acc. induction lines as [|l rest IH]; intros acc; [reflexivity|].
  cbn [fold_left last_value]. rewrite IH.
  destruct (last_value "Mallocs" rest) as [v|]; [reflexivity|].
  cbn [default]. rewrite scan_line_allocs.
  destruct (counter_of l) as [[k v]|]; [|reflexivity].
  destruct (String.eqb k "Mallocs"); reflexivity.
Qed.

(** X1.  The result of the profile scan is decided by the last accepted
    line of each counter and by nothing else: the bytes are the value of the
    last line taken for TotalAlloc, the allocations the value of the last
    line taken for Mallocs, and zero where there is no such line. *)
Theorem scanProfile_characterised (out : string) :
  scanProfile out
  = mkCounters (default 0 (last_value "Mallocs" (Split out newline)))
               (default 0 (last_value "TotalAlloc" (Split out newline))).
Proof.
  rewrite (Counters_eta (scanProfile out)). unfold scanProfile.
  rewrite fold_scan_bytes_last_value, fold_scan_allocs_last_value.
  reflexivity.
Qed.

Lemma int64_range (z : Z) : - 2 ^ 63 <= int64 z < 2 ^ 63.
Proof.
  unfold int64.
  pose proof (Z.mod_pos_bound (z + 2 ^ 63) (2 ^ 64) ltac:(lia)). lia.
Qed.

Lemma ParseInt0_range (s : string) (n : Z) :
  ParseInt0 s = NumOk n -> - 2 ^ 63 <= n < 2 ^ 63.
Proof.
  unfold ParseInt0. destruct s as [|c0 rest]; [discriminate|].
  destruct (ParseUint0 _) as [un| |]; [|discriminate|].
  - destruct (negb _ && _); [discriminate|].
    destruct (_ && _); [discriminate|].
    intros H. inversion H. destruct (byteZ c0 =? 0x2D); apply int64_range.
  - destruct (negb _ && _); [discriminate|].
    destruct (_ && _); [discriminate|].
    intros H. inversion H. destruct (byteZ c0 =? 0x2D); apply int64_range.
Qed.

Lemma scan_line_in_range (acc : Counters) (line : string) :
  - 2 ^ 63 <= bytes acc < 2 ^ 63 ->
  - 2 ^ 63 <= allocs acc < 2 ^ 63 ->
  - 2 ^ 63 <= bytes (scan_line acc line) < 2 ^ 63
  /\ - 2 ^ 63 <= allocs (scan_line acc line) < 2 ^ 63.
Proof.
  intros Hb Ha. unfold scan_line.
  destruct (_ || _); [auto|].
  destruct (ParseInt0 _) as [val| |] eqn:Hp; auto.
  apply ParseInt0_range in Hp.
  destruct (String.eqb _ "TotalAlloc"); [cbn; auto|].
  destruct (String.eqb _ "Mallocs"); cbn; auto.
Qed.

(** Whatever the text of the dump, both counters that the scan returns lie
    in the range of int64. *)
Lemma scanProfile_counters_are_int64 (out : string) :
  - 2 ^ 63 <= bytes (scanProfile out) < 2 ^ 63
  /\ - 2 ^ 63 <= allocs (scanProfile out) < 2 ^ 63.
Proof.
  unfold scanProfile.
  assert (H : forall lines acc,
            - 2 ^ 63 <= bytes acc < 2 ^ 63 ->
            - 2 ^ 63 <= allocs acc < 2 ^ 63 ->
            - 2 ^ 63 <= bytes (fold_left scan_line lines acc) < 2 ^ 63
            /\ - 2 ^ 63 <= allocs (fold_left scan_line lines acc) < 2 ^ 63).
  { induction lines as [|l rest IH]; intros acc Hb Ha; [auto|].
    cbn [fold_left].
    destruct (scan_line_in_range acc l Hb Ha) as [Hb' Ha'].
    apply IH; assumption. }
  apply H; cbn; lia.
Qed.

(** *** Splitting into lines *)

Lemma Split_nonempty (s : string) : Split s newline <> [].
Proof.
  destruct s as [|c s]; cbn [Split]; [discriminate|].
  destruct (Ascii.eqb c newline); [discriminate|].
  destruct (Split s newline); discriminate.
Qed.

Lemma Split_append (a b : string) :
  Split (a +:+ String newline b) newline
  = (Split a newline ++ Split b newline)%list.
Proof.
  induction a as [|c a IH].
  - change ("" +:+ String newline b) with (String newline b).
    cbn [Split]. rewrite Ascii.eqb_refl. reflexivity.
  - rewrite append_cons. cbn [Split]. rewrite IH.
    destruct (Ascii.eqb c newline); [reflexivity|].
    pose proof (Split_nonempty a) as Hne.
    destruct (Split a newline) as [|h t]; [contradiction|]. reflexivity.
Qed.

Lemma Split_no_newline (s : string) :
  no_newline s = true -> Split s newline = [s].
Proof.
  induction s as [|c s IH]; [reflexivity|].
  cbn [no_newline Split]. intros H. apply andb_prop in H as [Hc Hs].
  apply negb_true_iff in Hc. rewrite Hc, (IH Hs). reflexivity.
Qed.

Lemma Split_newline_two (s : string) :
  no_newline s = false -> (len (Split s newline) <? 2) = false.
Proof.
  induction s as [|c s IH]; [discriminate|].
  cbn [no_newline Split]. intros H.
  pose proof (Split_nonempty s) as Hne.
  destruct (Ascii.eqb c newline).
  - destruct (Split s newline) as [|h t]; [contradiction|]. apply len_cons2.
  - cbn [negb andb] in H. specialize (IH H).
    destruct (Split s newline) as [|h [|h' t]]; [contradiction|exact IH|].
    apply len_cons2.
Qed.

(** X3.  The scan works line by line from the front: scanning a dump made
    of [a], a newline and [b] is scanning [b] on from the counters of [a]. *)
Theorem scanProfile_append (a b : string) :
  scanProfile (a +:+ LF +:+ b)
  = fold_left scan_line (Split b newline) (scanProfile a).
Proof.
  unfold scanProfile, LF. rewrite append_cons.
  change ("" +:+ b) with b.
  rewrite Split_append, fold_left_app. reflexivity.
Qed.

(** X4.  A line that the loop takes for neither counter can be put into a
    dump anywhere, or taken out of it, without changing the result. *)
Theorem scanProfile_unrelated_line (a l b : string) :
  no_newline l = true ->
  sets "TotalAlloc" l = false ->
  sets "Mallocs" l = false ->
  scanProfile (a +:+ LF +:+ l +:+ LF +:+ b) = scanProfile (a +:+ LF +:+ b).
Proof.
  intros Hnl Ht Hm.
  rewrite (Counters_eta (scanProfile (a +:+ LF +:+ l +:+ LF +:+ b))).
  rewrite (Counters_eta (scanProfile (a +:+ LF +:+ b))).
  unfold scanProfile.
  rewrite !fold_scan_bytes_last_value, !fold_scan_allocs_last_value.
  unfold LF.
  rewrite !append_cons. change ("" +:+ b) with b.
  change ("" +:+ l +:+ String newline b) with (l +:+ String newline b).
  rewrite !Split_append, (Split_no_newline l Hnl).
  assert (H : forall key pre post,
            sets key l = false ->
            last_value key (pre ++ [l] ++ post)%list
            = last_value key (pre ++ post)%list).
  { intros key pre post Hk. induction pre as [|p pre IH].
    - cbn [app last_value]. destruct (last_value key post); [reflexivity|].
      unfold sets in Hk. destruct (counter_of l) as [[k v]|]; [|reflexivity].
      rewrite Hk. reflexivity.
    - cbn [app last_value] in *. rewrite IH. reflexivity. }
  rewrite (H "Mallocs" _ _ Hm), (H "TotalAlloc" _ _ Ht). reflexivity.
Qed.

Lemma scanProfile_unrelated_line_witness :
  scanProfile ("# Mallocs = 4" +:+ LF +:+ "# Sys = junk" +:+ LF
               +:+ "# TotalAlloc = 9")
  = scanProfile ("# Mallocs = 4" +:+ LF +:+ "# TotalAlloc = 9").
Proof.
  apply (scanProfile_unrelated_line "# Mallocs = 4" "# Sys = junk"
           "# TotalAlloc = 9"); reflexivity.
Defined.

(** *** The size report and runSize *)

(** X5.  A size output without any newline is never read as a report,
    whatever it holds: the log gets [not enough output from size] with the
    output, and no record is printed. *)
Theorem size_report_needs_newline (name out : string) (size : Z) (w : World) :
  no_newline out = true ->
  size_report name out size w
  = log_Print ("not enough output from size: " +:+ out) w.
Proof.
  intros H. apply size_report_short.
  rewrite (Split_no_newline out H). reflexivity.
Qed.

Lemma size_report_needs_newline_witness :
  stdout (size_report "BenchmarkHelloSize" "__TEXT 1 2" 7
            (Scenario.demo_world false "")) = []
  /\ stderr (size_report "BenchmarkHelloSize" "__TEXT 1 2" 7
               (Scenario.demo_world false ""))
     = [LogLine ("compilebench: not enough output from size: __TEXT 1 2"
                 +:+ LF)].
Proof.
  rewrite (size_report_needs_newline "BenchmarkHelloSize" "__TEXT 1 2" 7
             (Scenario.demo_world false "") eq_refl).
  split; reflexivity.
Defined.

(** X6.  The size report writes at most one thing and touches nothing
    else: it leaves the world as it is, or prints one record for [name], or
    logs one line; and it logs exactly when the output has no newline. *)
Theorem size_report_one_write (name out : string) (size : Z) (w : World) :
  size_report name out size w = w
  \/ (exists text, is_record name text
                   /\ size_report name out size w = printed text w)
  \/ (no_newline out = true
      /\ size_report name out size w
         = log_Print ("not enough output from size: " +:+ out) w).
Proof.
  destruct (no_newline out) eqn:Hnl.
  { right. right. split; [reflexivity|].
    apply size_report_needs_newline. exact Hnl. }
  unfold size_report. rewrite (Split_newline_two out Hnl).
  destruct (_ && _).
  { right. left. eexists. split; [eexists; reflexivity|].
    unfold Printf. rewrite Sprintf_size_text. reflexivity. }
  destruct (_ && _).
  { right. left. eexists. split; [eexists; reflexivity|].
    unfold Printf. rewrite Sprintf_size_bss. reflexivity. }
  left. reflexivity.
Qed.

Lemma Sprintf_size_failure (err out : string) :
  Sprintf ("size: %v" +:+ LF +:+ "%s") [AStr err; AStr out]
  = Some ("size: " +:+ err +:+ LF +:+ out).
Proof.
  rewrite <- (append_nil_r out) at 2. reflexivity.
Qed.

(** X7.  When the build of a size benchmark succeeds but leaves no
    [_compilebenchout_], the stat error is logged, the size tool is never
    started, and no record is printed. *)
Theorem runSize_without_executable (E : Env) (name path : string) (w : World) :
  let r := exec E (size_build path w) (execs w) (fs w) in
  exec_err r = None ->
  exec_fs r !! compilebenchout = None ->
  let w' := runSize E name path w in
  stdout w' = stdout w
  /\ execs w' = (execs w ++ [size_build path w])%list
  /\ stderr w'
     = (stderr w ++
        [ChildOutput (exec_out r);
         LogLine ("compilebench: stat _compilebenchout_: no such file or directory"
                  +:+ LF)])%list.
Proof.
  cbn zeta. intros Hok Hnone.
  unfold runSize. fold (size_build path w). unfold Run, run. rewrite Hok.
  unfold Stat. cbn [fs]. rewrite Hnone. cbn.
  rewrite <- app_assoc. repeat split; reflexivity.
Qed.

Lemma runSize_without_executable_witness :
  stdout (runSize no_executable_env
            "BenchmarkCmdGoSize" "cmd/go" (Scenario.demo_world false ""))
  = [].
Proof.
  apply (runSize_without_executable
           no_executable_env
           "BenchmarkCmdGoSize" "cmd/go" (Scenario.demo_world false "")
           eq_refl eq_refl).
Defined.

(** X8.  When the size tool itself fails, its error and its output are
    logged, no record is printed, and the executable is removed all the
    same. *)
Theorem runSize_size_tool_fails (E : Env) (name path : string) (w : World)
    (data err : string) :
  let r := exec E (size_build path w) (execs w) (fs w) in
  let r2 := exec E size_tool (execs w ++ [size_build path w])%list (exec_fs r) in
  exec_err r = None ->
  exec_fs r !! compilebenchout = Some data ->
  exec_err r2 = Some err ->
  let w' := runSize E name path w in
  stdout w' = stdout w
  /\ stderr w'
     = (stderr w ++
        [ChildOutput (exec_out r);
         LogLine (log_line ("size: " +:+ err +:+ LF +:+ exec_out r2))])%list
  /\ fs w' !! compilebenchout = None.
Proof.
  cbn zeta. intros Hok Hfile Herr.
  unfold runSize. fold (size_build path w). unfold Run, run. rewrite Hok.
  unfold Stat. cbn [fs]. rewrite Hfile.
  unfold CombinedOutput, run. cbn [execs fs]. fold size_tool.
  rewrite Herr. unfold log_Printf. rewrite Sprintf_size_failure.
  cbn. rewrite <- app_assoc. repeat split; try reflexivity.
  apply lookup_delete_eq.
Qed.

(** The size benchmark once both commands have succeeded. *)
Lemma runSize_success (E : Env) (name path : string) (w : World) (data : string) :
  exec_err (exec E (size_build path w) (execs w) (fs w)) = None ->
  exec_fs (exec E (size_build path w) (execs w) (fs w)) !! compilebenchout
  = Some data ->
  exec_err (snd (CombinedOutput E size_tool
                   (fst (Run E (size_build path w) w)))) = None ->
  runSize E name path w
  = Remove compilebenchout
      (size_report name
         (exec_out (snd (CombinedOutput E size_tool
                           (fst (Run E (size_build path w) w)))))
         (Z.of_nat (String.length data))
         (fst (CombinedOutput E size_tool (fst (Run E (size_build path w) w))))).
Proof.
  intros Hok Hfile Hok2.
  unfold runSize. fold (size_build path w).
  destruct (Run E (size_build path w) w) as [w1 r] eqn:Hrun.
  assert (Hr : r = exec E (size_build path w) (execs w) (fs w))
    by (unfold Run, run in Hrun; inversion Hrun; reflexivity).
  assert (Hfs : fs w1 = exec_fs r)
    by (unfold Run, run in Hrun; inversion Hrun; reflexivity).
  rewrite <- Hr in Hok, Hfile. rewrite Hok.
  unfold Stat. rewrite Hfs, Hfile. fold size_tool.
  cbn [fst] in *.
  destruct (CombinedOutput E size_tool w1) as [w2 r2]. cbn [fst snd] in *.
  rewrite Hok2. reflexivity.
Qed.

(** X9.  The executable size of a size record is the length of
    [_compilebenchout_] as the build left it, taken before the size tool
    runs: whatever the size tool does to the filesystem, a section-style
    report is printed with that length as exe-bytes, and the executable is
    gone afterwards. *)
Theorem runSize_reports_built_size (E : Env) (name path : string) (w : World)
    (data l0 l1 f0 f1 f2 : string) (rest more : list string) :
  let r := exec E (size_build path w) (execs w) (fs w) in
  let r2 := exec E size_tool (execs w ++ [size_build path w])%list (exec_fs r) in
  exec_err r = None ->
  exec_fs r !! compilebenchout = Some data ->
  exec_err r2 = None ->
  Split (exec_out r2) newline = l0 :: l1 :: rest ->
  HasPrefix l0 "__TEXT" = false ->
  Contains l0 "bss" = true ->
  Fields l1 = f0 :: f1 :: f2 :: more ->
  let w' := runSize E name path w in
  stdout w'
  = (stdout w ++
     [record_line name
        [(f0, "text-bytes"); (f1, "data-bytes"); (f2, "bss-bytes");
         (itoa (Z.of_nat (String.length data)), "exe-bytes")] +:+ LF])%list
  /\ fs w' !! compilebenchout = None
  /\ execs w' = (execs w ++ [size_build path w; size_tool])%list.
Proof.
  cbn zeta. intros Hok Hfile Hok2 Hs Hp Hc Hf.
  rewrite (runSize_success E name path w data Hok Hfile Hok2).
  unfold CombinedOutput, Run, run. cbn [fst snd execs fs].
  rewrite (size_report_bss _ _ _ _ l0 l1 rest f0 f1 f2 more Hs Hp Hc Hf).
  cbn. rewrite <- app_assoc. repeat split; try reflexivity.
  apply lookup_delete_eq.
Qed.

Lemma runSize_reports_built_size_witness :
  stdout (runSize (Scenario.demo_env false Scenario.size_linux None true)
            "BenchmarkCmdGoSize" "cmd/go" (Scenario.demo_world false ""))
  = ["BenchmarkCmdGoSize 1 708604 text-bytes 17416 data-bytes 118752 bss-bytes 6 exe-bytes"
     +:+ LF].
Proof.
  apply (runSize_reports_built_size
           (Scenario.demo_env false Scenario.size_linux None true)
           "BenchmarkCmdGoSize" "cmd/go" (Scenario.demo_world false "")
           "ELF..."
           "   text	   data	    bss	    dec	    hex	filename"
           " 708604	  17416	 118752	 844772	  ce3e4	_compilebenchout_"
           "708604" "17416" "118752" [""]
           ["844772"; "ce3e4"; "_compilebenchout_"]
           eq_refl eq_refl eq_refl eq_refl eq_refl eq_refl eq_refl).
Defined.

(** *** Compilations *)

Lemma reset_6g_args (files : list string) (w : World) :
  compile_args files (set_flags (reset_6g (flags w)) w)
  = (["-o"; "_compilebench_.o"] ++ Fields (flagCompilerFlags (flags w))
     ++ files)%list.
Proof.
  unfold compile_args, want_memprof. reflexivity.
Qed.

(** X10.  With the old 6g compiler the profiling flags are switched off
    for good: whatever -alloc, -memprofile, -cpuprofile and -memprofilerate
    say, the compiler is run with the output file, the -compileflags and the
    source files only, no profile is read or copied, the record has the two
    timings only, and the flags stay reset for the benchmarks that follow. *)
Theorem compile_under_6g (E : Env) (G : Globals) (name : string)
    (files : list string) (pkgdir : string) (w : World) :
  let cmd := mkCmd (compiler G)
               (["-o"; "_compilebench_.o"]
                ++ Fields (flagCompilerFlags (flags w)) ++ files)%list pkgdir in
  let r := exec E cmd (execs w) (fs w) in
  is6g G = true ->
  exec_err r = None ->
  let w' := compile E G name files pkgdir w in
  execs w' = (execs w ++ [cmd])%list
  /\ stdout w'
     = (stdout w ++
        [record_line name
           [(itoa (exec_wall r), "ns/op"); (itoa (exec_user r), "user-ns/op")]
         +:+ LF])%list
  /\ stderr w' = (stderr w ++ [ChildOutput (exec_out r)])%list
  /\ fs w' = delete (objfile pkgdir) (exec_fs r)
  /\ flags w' = reset_6g (flags w).
Proof.
  cbn zeta. intros H6g Hok.
  assert (Hstart : compile_start G w = set_flags (reset_6g (flags w)) w)
    by (unfold compile_start; rewrite H6g; reflexivity).
  pose proof (compile_success E G name files pkgdir w) as Hc.
  cbn zeta in Hc. rewrite Hstart, reset_6g_args in Hc.
  specialize (Hc Hok). rewrite Hc. clear Hc.
  unfold Run, run. cbn [fst].
  unfold memprofile_step, want_memprof. cbn [flags set_flags reset_6g flagAlloc
    flagMemprofile nonempty String.eqb negb orb fst snd].
  unfold cpuprofile_step. cbn [flags flagCpuprofile reset_6g nonempty
    String.eqb negb].
  rewrite print_result_printed.
  cbn [flags flagAlloc reset_6g Remove set_fs printed execs stdout stderr fs
       now set_flags].
  replace (now w + exec_wall _ - now w) with
    (exec_wall (exec E (mkCmd (compiler G)
                          (["-o"; "_compilebench_.o"]
                           ++ Fields (flagCompilerFlags (flags w)) ++ files)
                          pkgdir) (execs w) (fs w))) by lia.
  repeat split; reflexivity.
Qed.

Lemma compile_under_6g_witness :
  flags (compile (Scenario.demo_env false "" (Some Scenario.heap_profile) true)
           (mkGlobals "6g" true None) "BenchmarkUnicode" ["a.go"] "/go/src/unicode"
           (Scenario.demo_world true "/tmp/mem.prof"))
  = mkFlags false "" "" 1 "" "" (-1) false.
Proof.
  apply (compile_under_6g
           (Scenario.demo_env false "" (Some Scenario.heap_profile) true)
           (mkGlobals "6g" true None) "BenchmarkUnicode" ["a.go"]
           "/go/src/unicode" (Scenario.demo_world true "/tmp/mem.prof")
           eq_refl eq_refl).
Defined.

Section StepsFs.

Variable E : Env.

(** What the memory profile step does to the filesystem and which counters
    it reads. *)
Lemma memprofile_step_result (pkgdir : string) (w : World) :
  want_memprof w = true ->
  let data := default "" (fs w !! memprof pkgdir) in
  snd (memprofile_step E pkgdir w) = scanProfile data
  /\ fs (fst (memprofile_step E pkgdir w))
     = delete (memprof pkgdir)
         (if nonempty (flagMemprofile (flags w))
             && writable E (flagMemprofile (flags w))
          then <[flagMemprofile (flags w) := data]> (fs w)
          else fs w).
Proof.
  intros Hw. cbn zeta. unfold memprofile_step, ReadFile. rewrite Hw.
  destruct (fs w !! memprof pkgdir) as [data|] eqn:Hfs; cbn [default fst snd].
  - split; [reflexivity|].
    destruct (nonempty (flagMemprofile (flags w))); [|reflexivity].
    unfold WriteFile. destruct (writable E _); reflexivity.
  - split; [reflexivity|].
    cbn [flags log_Print to_stderr].
    destruct (nonempty (flagMemprofile (flags w))); [|reflexivity].
    unfold WriteFile. cbn [flags fs].
    destruct (writable E _); reflexivity.
Qed.

Lemma cpuprofile_step_fs (pkgdir : string) (w : World) :
  fs (cpuprofile_step E pkgdir w)
  = if nonempty (flagCpuprofile (flags w)) then
      delete (cpuprof pkgdir)
        (if writable E (flagCpuprofile (flags w))
         then <[flagCpuprofile (flags w)
                := default "" (fs w !! cpuprof pkgdir)]> (fs w)
         else fs w)
    else fs w.
Proof.
  unfold cpuprofile_step, ReadFile.
  destruct (nonempty (flagCpuprofile (flags w))); [|reflexivity].
  destruct (fs w !! cpuprof pkgdir) as [data|]; cbn [default];
    unfold WriteFile; cbn [flags fs log_Print to_stderr];
    destruct (writable E _); reflexivity.
Qed.

End StepsFs.

(** X11.  Under -alloc (and not 6g), once the build has succeeded and left
    a memory profile, the record carries the wall time and the user time of
    that build and the two counters that the scan reads from the profile. *)
Theorem compile_alloc_record (E : Env) (G : Globals) (name : string)
    (files : list string) (pkgdir : string) (w : World) (data : string) :
  let r := exec E (mkCmd (compiler G) (compile_args files w) pkgdir)
             (execs w) (fs w) in
  is6g G = false ->
  flagAlloc (flags w) = true ->
  exec_err r = None ->
  exec_fs r !! memprof pkgdir = Some data ->
  stdout (compile E G name files pkgdir w)
  = (stdout w ++
     [record_line name
        [(itoa (exec_wall r), "ns/op"); (itoa (exec_user r), "user-ns/op");
         (itoa (bytes (scanProfile data)), "B/op");
         (itoa (allocs (scanProfile data)), "allocs/op")] +:+ LF])%list.
Proof.
  cbn zeta. intros H6g Halloc Hok Hdata.
  assert (Hstart : compile_start G w = w)
    by (unfold compile_start; rewrite H6g; reflexivity).
  pose proof (compile_success E G name files pkgdir w) as Hc.
  cbn zeta in Hc. rewrite Hstart in Hc. specialize (Hc Hok). rewrite Hc.
  clear Hc.
  set (cmd := mkCmd (compiler G) (compile_args files w) pkgdir) in *.
  set (w1 := fst (Run E cmd w)).
  assert (Hw1 : want_memprof w1 = true)
    by (unfold want_memprof; subst w1; cbn; rewrite Halloc; reflexivity).
  destruct (memprofile_step_result E pkgdir w1 Hw1) as [Hcount _].
  cbn zeta in Hcount.
  replace (fs w1 !! memprof pkgdir) with (Some data) in Hcount
    by (symmetry; exact Hdata).
  cbn [default] in Hcount.
  destruct (memprofile_step_frame E pkgdir w1) as (Hf2 & Ho2 & _ & _).
  destruct (cpuprofile_step_frame E pkgdir (fst (memprofile_step E pkgdir w1)))
    as (Hf3 & Ho3 & _ & _ & _).
  rewrite Hcount, print_result_printed.
  cbn [Remove set_fs printed stdout flags].
  rewrite Hf3, Hf2, Ho3, Ho2.
  subst w1. cbn [Run run fst flags stdout now].
  rewrite Halloc.
  replace (now w + exec_wall (exec E cmd (execs w) (fs w)) - now w)
    with (exec_wall (exec E cmd (execs w) (fs w))) by lia.
  reflexivity.
Qed.

Lemma compile_alloc_record_witness :
  stdout (compile (Scenario.demo_env false "" (Some Scenario.heap_profile) true)
            (Scenario.demo_globals None) "BenchmarkUnicode" ["a.go"]
            "/go/src/unicode" (Scenario.demo_world true ""))
  = ["BenchmarkUnicode 1 1000 ns/op 900 user-ns/op 4096 B/op 77 allocs/op"
     +:+ LF].
Proof.
  apply (compile_alloc_record
           (Scenario.demo_env false "" (Some Scenario.heap_profile) true)
           (Scenario.demo_globals None) "BenchmarkUnicode" ["a.go"]
           "/go/src/unicode" (Scenario.demo_world true "")
           Scenario.heap_profile eq_refl eq_refl eq_refl eq_refl).
Defined.

Lemma memprof_not_cpuprof (pkgdir : string) : memprof pkgdir <> cpuprof pkgdir.
Proof.
  unfold memprof, cpuprof. intros H.
  apply (String.app_inj pkgdir) in H. discriminate.
Qed.

(** The filesystem that a compilation leaves once its build has
    succeeded. *)
Lemma compile_success_fs (E : Env) (G : Globals) (name : string)
    (files : list string) (pkgdir : string) (w : World) :
  is6g G = false ->
  exec_err (exec E (mkCmd (compiler G) (compile_args files w) pkgdir)
              (execs w) (fs w)) = None ->
  let w1 := fst (Run E (mkCmd (compiler G) (compile_args files w) pkgdir) w) in
  let w2 := fst (memprofile_step E pkgdir w1) in
  fs (compile E G name files pkgdir w)
  = delete (objfile pkgdir) (fs (cpuprofile_step E pkgdir w2))
  /\ flags w2 = flags w /\ flags w1 = flags w
  /\ fs w1 = exec_fs (exec E (mkCmd (compiler G) (compile_args files w) pkgdir)
                        (execs w) (fs w)).
Proof.
  intros H6g Hok. cbn zeta.
  assert (Hstart : compile_start G w = w)
    by (unfold compile_start; rewrite H6g; reflexivity).
  pose proof (compile_success E G name files pkgdir w) as Hc.
  cbn zeta in Hc. rewrite Hstart in Hc. specialize (Hc Hok). rewrite Hc.
  destruct (memprofile_step_frame E pkgdir
              (fst (Run E (mkCmd (compiler G) (compile_args files w) pkgdir) w)))
    as (Hf2 & _).
  cbn zeta in Hf2.
  destruct (print_result_frame
              name
              (now (fst (Run E (mkCmd (compiler G) (compile_args files w)
                                  pkgdir) w)) - now w)
              (exec_user (exec E (mkCmd (compiler G) (compile_args files w)
                                    pkgdir) (execs w) (fs w)))
              (snd (memprofile_step E pkgdir
                      (fst (Run E (mkCmd (compiler G) (compile_args files w)
                                     pkgdir) w))))
              (cpuprofile_step E pkgdir
                 (fst (memprofile_step E pkgdir
                         (fst (Run E (mkCmd (compiler G)
                                        (compile_args files w) pkgdir) w))))))
    as (_ & _ & Hfs4).
  cbn zeta in Hfs4. cbn [Remove set_fs fs]. rewrite Hfs4.
  repeat split; [exact Hf2].
Qed.

(** X12.  With -memprofile set to a writable path (other than the
    artifacts and the -cpuprofile path), a compilation whose build succeeded
    leaves at that path exactly what it read as the memory profile: the dump
    byte for byte, or an empty file when the compiler left no dump. *)
Theorem memprofile_copy_is_the_dump (E : Env) (G : Globals) (name : string)
    (files : list string) (pkgdir : string) (w : World) :
  let r := exec E (mkCmd (compiler G) (compile_args files w) pkgdir)
             (execs w) (fs w) in
  let dest := flagMemprofile (flags w) in
  is6g G = false ->
  exec_err r = None ->
  nonempty dest = true ->
  writable E dest = true ->
  dest <> memprof pkgdir ->
  dest <> cpuprof pkgdir ->
  dest <> objfile pkgdir ->
  dest <> flagCpuprofile (flags w) ->
  fs (compile E G name files pkgdir w) !! dest
  = Some (default "" (exec_fs r !! memprof pkgdir)).
Proof.
  cbn zeta. intros H6g Hok Hset Hwr Hmem Hcpu Hobj Hne.
  destruct (compile_success_fs E G name files pkgdir w H6g Hok)
    as (Hfs & Hf2 & Hf1 & Hfs1).
  cbn zeta in *. rewrite Hfs. clear Hfs.
  set (w1 := fst (Run E (mkCmd (compiler G) (compile_args files w) pkgdir) w))
    in *.
  assert (Hw1 : want_memprof w1 = true).
  { unfold want_memprof. rewrite Hf1, Hset. apply orb_true_r. }
  destruct (memprofile_step_result E pkgdir w1 Hw1) as [_ Hfs2].
  cbn zeta in Hfs2. rewrite Hf1, Hset, Hwr, Hfs1 in Hfs2. cbn [andb] in Hfs2.
  rewrite lookup_delete_ne by congruence.
  rewrite cpuprofile_step_fs, Hf2.
  assert (Hdest : fs (fst (memprofile_step E pkgdir w1))
                    !! flagMemprofile (flags w)
                  = Some (default ""
                            (exec_fs (exec E (mkCmd (compiler G)
                                                (compile_args files w) pkgdir)
                                        (execs w) (fs w))
                               !! memprof pkgdir))).
  { rewrite Hfs2, lookup_delete_ne by congruence. apply lookup_insert_eq. }
  destruct (nonempty (flagCpuprofile (flags w))); [|exact Hdest].
  rewrite lookup_delete_ne by congruence.
  destruct (writable E (flagCpuprofile (flags w))); [|exact Hdest].
  rewrite lookup_insert_ne by congruence. exact Hdest.
Qed.

Lemma memprofile_copy_is_the_dump_witness :
  fs (compile (Scenario.demo_env false "" (Some Scenario.heap_profile) true)
        (Scenario.demo_globals None) "BenchmarkUnicode" ["a.go"]
        "/go/src/unicode" (Scenario.demo_world false "/tmp/mem.prof"))
    !! "/tmp/mem.prof"
  = Some Scenario.heap_profile.
Proof.
  exact (memprofile_copy_is_the_dump
           (Scenario.demo_env false "" (Some Scenario.heap_profile) true)
           (Scenario.demo_globals None) "BenchmarkUnicode" ["a.go"]
           "/go/src/unicode" (Scenario.demo_world false "/tmp/mem.prof")
           eq_refl eq_refl eq_refl eq_refl
           ltac:(discriminate) ltac:(discriminate) ltac:(discriminate)
           ltac:(discriminate)).
Defined.

(** X13.  With -cpuprofile set to a writable path (other than the
    artifacts), a compilation whose build succeeded leaves at that path what
    it read as the CPU profile: the profile the compiler wrote, or an empty
    file, the read error having been logged, when there is none. *)
Theorem cpuprofile_copy_is_the_profile (E : Env) (G : Globals) (name : string)
    (files : list string) (pkgdir : string) (w : World) :
  let r := exec E (mkCmd (compiler G) (compile_args files w) pkgdir)
             (execs w) (fs w) in
  let dest := flagCpuprofile (flags w) in
  is6g G = false ->
  exec_err r = None ->
  nonempty dest = true ->
  writable E dest = true ->
  dest <> cpuprof pkgdir ->
  dest <> objfile pkgdir ->
  flagMemprofile (flags w) <> cpuprof pkgdir ->
  fs (compile E G name files pkgdir w) !! dest
  = Some (default "" (exec_fs r !! cpuprof pkgdir)).
Proof.
  cbn zeta. intros H6g Hok Hset Hwr Hcpu Hobj Hmd.
  destruct (compile_success_fs E G name files pkgdir w H6g Hok)
    as (Hfs & Hf2 & Hf1 & Hfs1).
  cbn zeta in *. rewrite Hfs. clear Hfs.
  set (w1 := fst (Run E (mkCmd (compiler G) (compile_args files w) pkgdir) w))
    in *.
  rewrite lookup_delete_ne by congruence.
  rewrite cpuprofile_step_fs, Hf2, Hset, Hwr.
  rewrite lookup_delete_ne by congruence.
  rewrite lookup_insert_eq. f_equal. f_equal.
  rewrite <- Hfs1.
  unfold memprofile_step.
  destruct (want_memprof w1) eqn:Hw1; [|reflexivity].
  destruct (memprofile_step_result E pkgdir w1 Hw1) as [_ Hfs2].
  cbn zeta in Hfs2. unfold memprofile_step in Hfs2. rewrite Hw1 in Hfs2.
  rewrite Hfs2, Hf1.
  rewrite lookup_delete_ne by apply memprof_not_cpuprof.
  destruct (_ && _); [|reflexivity].
  apply lookup_insert_ne. exact Hmd.
Qed.

Lemma cpuprofile_copy_is_the_profile_witness :
  fs (compile (Scenario.demo_env false "" None true)
        (Scenario.demo_globals None) "BenchmarkUnicode" ["a.go"]
        "/go/src/unicode"
        cpuprofile_world)
    !! "/tmp/cpu.prof"
  = Some "".
Proof.
  exact (cpuprofile_copy_is_the_profile
           (Scenario.demo_env false "" None true)
           (Scenario.demo_globals None) "BenchmarkUnicode" ["a.go"]
           "/go/src/unicode"
           cpuprofile_world
           eq_refl eq_refl eq_refl eq_refl
           ltac:(discriminate) ltac:(discriminate) ltac:(discriminate)).
Defined.

Lemma runSize_size_tool_fails_witness :
  stdout (runSize
            size_fails_env
            "BenchmarkCmdGoSize" "cmd/go" (Scenario.demo_world false ""))
  = [].
Proof.
  apply (runSize_size_tool_fails
           size_fails_env
           "BenchmarkCmdGoSize" "cmd/go" (Scenario.demo_world false "")
           "ELF" "exit status 1" eq_refl eq_refl eq_refl).
Defined.

(** *** runBuild as a whole *)

(** X14.  A package that go/build cannot resolve is handled differently by
    the two generations: main.go logs the error and returns without running
    any command or printing a record, the older generation ends the process
    with status 1. *)
Theorem unresolved_package (E : Env) (G : Globals) (name dir err : string)
    (w : World) :
  special_name name = false ->
  nonempty dir = true ->
  build_Import E dir = inr err ->
  runBuild E G name dir "" w = Done (log_Print err w)
  /\ Old.runBuild E G name dir w = Exited 1 (log_Print err w).
Proof.
  unfold special_name. intros Hsp Hdir Himp.
  apply orb_false_elim in Hsp as [Hsp H3].
  apply orb_false_elim in Hsp as [H1 H2].
  split.
  - unfold runBuild. rewrite H1, H2, H3, Hdir, Himp. reflexivity.
  - unfold Old.runBuild. rewrite Himp. reflexivity.
Qed.

Lemma unresolved_package_witness :
  runBuild no_package_env
    (Scenario.demo_globals None) "BenchmarkUnicode" "unicode" ""
    (Scenario.demo_world false "")
  = Done (log_Print "cannot find package" (Scenario.demo_world false "")).
Proof.
  apply (unresolved_package
           no_package_env
           (Scenario.demo_globals None) "BenchmarkUnicode" "unicode"
           "cannot find package" (Scenario.demo_world false "")
           eq_refl eq_refl eq_refl).
Defined.

Lemma runCmd_stdout (E : Env) (name : string) (cmd : Cmd) (w : World) :
  at_most_one_record name w (runCmd E name cmd w).
Proof.
  unfold runCmd, CombinedOutput, run.
  destruct (exec_err _) as [err|].
  - left. unfold log_Printf. rewrite Sprintf_failure_cmd. reflexivity.
  - right. unfold Printf. rewrite Sprintf_result_cmd.
    eexists. split; [eexists; reflexivity|reflexivity].
Qed.

Lemma size_report_stdout (name out : string) (size : Z) (w : World) :
  at_most_one_record name w (size_report name out size w).
Proof.
  unfold size_report.
  destruct (len _ <? 2).
  { left. unfold log_Printf. destruct (Sprintf _ _); reflexivity. }
  destruct (_ && _).
  { right. unfold Printf. rewrite Sprintf_size_text.
    eexists. split; [eexists; reflexivity|reflexivity]. }
  destruct (_ && _).
  { right. unfold Printf. rewrite Sprintf_size_bss.
    eexists. split; [eexists; reflexivity|reflexivity]. }
  left. reflexivity.
Qed.

Lemma runSize_stdout (E : Env) (name path : string) (w : World) :
  at_most_one_record name w (runSize E name path w).
Proof.
  unfold runSize, Run, run.
  destruct (exec_err _) as [err|]; [left; reflexivity|].
  unfold Stat. cbn [fs].
  destruct (_ !! compilebenchout) as [data|]; [|left; reflexivity].
  unfold CombinedOutput, run. cbn [fs execs].
  destruct (exec_err _) as [err|].
  { left. unfold log_Printf. rewrite Sprintf_size_failure. reflexivity. }
  match goal with
  | |- at_most_one_record _ _ (Remove _ (size_report ?n ?o ?s ?w0)) =>
    destruct (size_report_stdout n o s w0) as [H|(text & Hrec & H)];
      [left|right; exists text; split; [exact Hrec|]];
      (transitivity (stdout (size_report n o s w0));
       [reflexivity|rewrite H; reflexivity])
  end.
Qed.

Lemma compile_stdout (E : Env) (G : Globals) (name : string)
    (files : list string) (pkgdir : string) (w : World) :
  at_most_one_record name w (compile E G name files pkgdir w).
Proof.
  destruct (exec_err (exec E (mkCmd (compiler G)
                                (compile_args files (compile_start G w)) pkgdir)
                        (execs (compile_start G w)) (fs (compile_start G w))))
    as [err|] eqn:Herr.
  - left. rewrite (compile_failure _ _ _ _ _ _ _ Herr).
    destruct (compile_start_frame G w) as (_ & Hout & _). exact Hout.
  - right. pose proof (compile_success E G name files pkgdir w) as Hc.
    cbn zeta in Hc. specialize (Hc Herr). rewrite Hc.
    rewrite print_result_printed.
    eexists. split; [eexists; reflexivity|].
    cbn [Remove set_fs printed stdout].
    match goal with
    | |- (stdout (cpuprofile_step E pkgdir ?w2) ++ _)%list = _ =>
      destruct (cpuprofile_step_frame E pkgdir w2) as (_ & Ho3 & _)
    end.
    cbn zeta in Ho3. rewrite Ho3.
    match goal with
    | |- (stdout (fst (memprofile_step E pkgdir ?w1)) ++ _)%list = _ =>
      destruct (memprofile_step_frame E pkgdir w1) as (_ & Ho2 & _)
    end.
    cbn zeta in Ho2. rewrite Ho2.
    destruct (compile_start_frame G w) as (_ & Hout & _).
    cbn [Run run fst stdout]. rewrite Hout. reflexivity.
Qed.

Lemma runBuild_stdout (E : Env) (G : Globals) (name dir file : string)
    (w : World) :
  at_most_one_record name w (world_of (runBuild E G name dir file w)).
Proof.
  unfold runBuild.
  destruct (String.eqb name "BenchmarkStdCmd") eqn:H1.
  { apply String.eqb_eq in H1. subst name. apply runCmd_stdout. }
  destruct (String.eqb name "BenchmarkCmdGoSize") eqn:H2.
  { apply String.eqb_eq in H2. subst name. apply runSize_stdout. }
  destruct (String.eqb name "BenchmarkHelloSize") eqn:H3.
  { apply String.eqb_eq in H3. subst name. apply runSize_stdout. }
  destruct (nonempty file); [apply compile_stdout|].
  destruct (nonempty dir); [|left; reflexivity].
  destruct (build_Import E dir) as [[pkgdir gofiles]|err];
    [apply compile_stdout|left; reflexivity].
Qed.

(** X15.  Whatever the environment does, one call of runBuild prints
    nothing on the standard output or exactly one line, and that line is a
    record in the line format that begins with the name of the benchmark. *)
Theorem runBuild_at_most_one_record (E : Env) (G : Globals)
    (name dir file : string) (w : World) :
  stdout (world_of (runBuild E G name dir file w)) = stdout w
  \/ exists pairs,
       stdout (world_of (runBuild E G name dir file w))
       = (stdout w ++ [record_line name pairs +:+ LF])%list.
Proof.
  destruct (runBuild_stdout E G name dir file w) as [H|(text & [pairs Hp] & H)].
  - left. exact H.
  - right. exists pairs. rewrite H, Hp. reflexivity.
Qed.

Lemma runBuild_returns (E : Env) (G : Globals) (name dir file : string)
    (w : World) :
  special_name name || nonempty file || nonempty dir = true ->
  exists w', runBuild E G name dir file w = Done w'.
Proof.
  unfold runBuild, special_name.
  destruct (String.eqb name "BenchmarkStdCmd"); [eexists; reflexivity|].
  destruct (String.eqb name "BenchmarkCmdGoSize"); [eexists; reflexivity|].
  destruct (String.eqb name "BenchmarkHelloSize"); [eexists; reflexivity|].
  cbn [orb].
  destruct (nonempty file); [eexists; reflexivity|].
  destruct (nonempty dir); [|discriminate]. intros _.
  destruct (build_Import E dir) as [[pkgdir gofiles]|err]; eexists; reflexivity.
Qed.

(** X16.  runBuild ends the process in one case only: the name is none of
    the three special ones and neither a directory nor a file is given; it
    then logs the internal error and exits with status 1.  In every other
    case it returns, whatever the commands it runs do. *)
Theorem runBuild_exits_only_without_target (E : Env) (G : Globals)
    (name dir file : string) (w : World) :
  (special_name name = false /\ file = "" /\ dir = ""
   /\ runBuild E G name dir file w
      = Exited 1 (log_Print "internal error: dir or file must be set" w))
  \/ ((special_name name = true \/ file <> "" \/ dir <> "")
      /\ exists w', runBuild E G name dir file w = Done w').
Proof.
  unfold runBuild, special_name.
  destruct (String.eqb name "BenchmarkStdCmd");
    [right; split; [left; reflexivity|eexists; reflexivity]|].
  destruct (String.eqb name "BenchmarkCmdGoSize");
    [right; split; [left; reflexivity|eexists; reflexivity]|].
  destruct (String.eqb name "BenchmarkHelloSize");
    [right; split; [left; reflexivity|eexists; reflexivity]|].
  cbn [orb]. unfold nonempty.
  destruct (String.eqb file "") eqn:Hf; cbn [negb].
  2:{ right. apply String.eqb_neq in Hf. split; [auto|eexists; reflexivity]. }
  destruct (String.eqb dir "") eqn:Hd; cbn [negb].
  2:{ right. apply String.eqb_neq in Hd. split; [auto|].
      destruct (build_Import E dir) as [[pkgdir gofiles]|err];
        eexists; reflexivity. }
  left. apply String.eqb_eq in Hf, Hd. subst. auto.
Qed.

Lemma run_test_returns (E : Env) (G : Globals) (t : Test) (w : World) :
  special_name (name t) || nonempty (dir t) = true ->
  exists w', run_test E G t w = Done w'
             /\ flagCount (flags w') = flagCount (flags w)
             /\ (length (stdout w') <= length (stdout w) + 1)%nat.
Proof.
  intros Ht. rewrite run_test_skipped.
  destruct (skipped G t w); [exists w; repeat split; lia|].
  destruct (runBuild_returns E G (name t) (dir t) "" w) as (w' & Hw').
  { cbn [nonempty String.eqb negb]. rewrite orb_false_r. exact Ht. }
  exists w'. split; [exact Hw'|].
  pose proof (runBuild_stdout E G (name t) (dir t) "" w) as Hout.
  rewrite Hw' in Hout. cbn [world_of] in Hout.
  split.
  - revert Hw'. unfold runBuild.
    destruct (String.eqb (name t) "BenchmarkStdCmd").
    { intros H; inversion H. unfold runStdCmd, runCmd, CombinedOutput, run.
      destruct (exec_err _); [unfold log_Printf|unfold Printf];
        destruct (Sprintf _ _); reflexivity. }
    assert (Hsize : forall n p, flagCount (flags (runSize E n p w))
                                = flagCount (flags w)).
    { intros n p. unfold runSize, Run, run.
      destruct (exec_err _); [reflexivity|].
      unfold Stat. cbn [fs]. destruct (_ !! compilebenchout); [|reflexivity].
      unfold CombinedOutput, run. cbn [fs execs].
      destruct (exec_err _);
        [unfold log_Printf; destruct (Sprintf _ _); reflexivity|].
      unfold size_report. destruct (len _ <? 2);
        [unfold log_Printf; destruct (Sprintf _ _); reflexivity|].
      destruct (_ && _); [unfold Printf; destruct (Sprintf _ _); reflexivity|].
      destruct (_ && _); [unfold Printf; destruct (Sprintf _ _); reflexivity|].
      reflexivity. }
    assert (Hcomp : forall f p, flagCount (flags (compile E G (name t) f p w))
                                = flagCount (flags w)).
    { intros f p.
      destruct (exec_err (exec E (mkCmd (compiler G)
                                    (compile_args f (compile_start G w)) p)
                            (execs (compile_start G w))
                            (fs (compile_start G w)))) as [err|] eqn:Herr.
      - rewrite (compile_failure _ _ _ _ _ _ _ Herr).
        unfold compile_start. destruct (is6g G); reflexivity.
      - pose proof (compile_success E G (name t) f p w) as Hc.
        cbn zeta in Hc. specialize (Hc Herr). rewrite Hc.
        match goal with
        | |- flagCount (flags (Remove _ (print_result ?a ?b ?c ?d ?w3))) = _ =>
          destruct (print_result_frame a b c d w3) as (Hf4 & _)
        end.
        cbn zeta in Hf4. cbn [Remove set_fs flags]. rewrite Hf4.
        match goal with
        | |- flagCount (flags (cpuprofile_step E p ?w2)) = _ =>
          destruct (cpuprofile_step_frame E p w2) as (Hf3 & _)
        end.
        cbn zeta in Hf3. rewrite Hf3.
        match goal with
        | |- flagCount (flags (fst (memprofile_step E p ?w1))) = _ =>
          destruct (memprofile_step_frame E p w1) as (Hf2 & _)
        end.
        cbn zeta in Hf2. rewrite Hf2.
        cbn [Run run fst flags].
        unfold compile_start. destruct (is6g G); reflexivity. }
    destruct (String.eqb (name t) "BenchmarkCmdGoSize");
      [intros H; inversion H; apply Hsize|].
    destruct (String.eqb (name t) "BenchmarkHelloSize");
      [intros H; inversion H; apply Hsize|].
    cbn [nonempty String.eqb negb].
    destruct (nonempty (dir t)); [|discriminate].
    destruct (build_Import E (dir t)) as [[pkgdir gofiles]|err];
      intros H; inversion H; [apply Hcomp|reflexivity].
  - destruct Hout as [Hout|(text & _ & Hout)]; rewrite Hout;
      [|rewrite length_app; cbn [length]]; lia.
Qed.

Lemma run_tests_returns (E : Env) (G : Globals) (l : list Test) (w : World) :
  Forall (fun t => special_name (name t) || nonempty (dir t) = true) l ->
  exists w', run_tests E G l w = Done w'
             /\ flagCount (flags w') = flagCount (flags w)
             /\ (length (stdout w') <= length (stdout w) + length l)%nat.
Proof.
  intros Hall. revert w.
  induction Hall as [|t l Ht _ IH]; intros w.
  { exists w. cbn. repeat split; lia. }
  destruct (run_test_returns E G t w Ht) as (w1 & H1 & Hc1 & Hl1).
  destruct (IH w1) as (w2 & H2 & Hc2 & Hl2).
  exists w2. cbn [run_tests]. rewrite H1.
  split; [exact H2|]. split; [congruence|]. cbn [length]. lia.
Qed.

Lemma tests_have_targets :
  Forall (fun t => special_name (name t) || nonempty (dir t) = true) tests.
Proof. repeat constructor. Qed.

(** X17.  With the table of benchmarks that is built in, the loop of main
    never ends the process, whatever the environment does and whatever the
    flags are: it returns, having printed at most seven records in each of
    the -count rounds; with a count of zero or less it changes nothing. *)
Theorem main_loop_always_returns (E : Env) (G : Globals) (w : World) :
  (exists w',
     main_loop E G w = Done w'
     /\ (length (stdout w')
         <= length (stdout w) + 7 * Z.to_nat (flagCount (flags w)))%nat)
  /\ (flagCount (flags w) <= 0 -> main_loop E G w = Done w).
Proof.
  unfold main_loop. split.
  - generalize (Z.to_nat (flagCount (flags w))) as n. intros n. revert w.
    induction n as [|n IH]; intros w.
    { exists w. cbn. split; [reflexivity|lia]. }
    destruct (run_tests_returns E G tests w tests_have_targets)
      as (w1 & H1 & _ & Hl1).
    destruct (IH w1) as (w2 & H2 & Hl2).
    exists w2. cbn [rounds]. rewrite H1. split; [exact H2|].
    change (length tests) with 7%nat in Hl1. lia.
  - intros Hc. replace (Z.to_nat (flagCount (flags w))) with 0%nat by lia.
    reflexivity.
Qed.

Lemma main_loop_always_returns_witness :
  main_loop (Scenario.demo_env true "" None true) (Scenario.demo_globals None)
    zero_count_world
  = Done zero_count_world.
Proof.
  apply (proj2 (main_loop_always_returns
                  (Scenario.demo_env true "" None true)
                  (Scenario.demo_globals None) zero_count_world)).
  cbn. lia.
Defined.

(** *** The older generation *)

(** X18.  In the older generation a benchmark compiles its package twice.
    When both builds succeed and the second leaves a memory profile (no
    profile copies being asked for), the record is printed after the text
    [Benchmark] and the name, its time is the duration of the first build
    alone, its counters are read from the profile of the second build, which
    was run with -memprofile and -memprofilerate 65536, and the object file
    and the profile are removed. *)
Theorem old_runBuild_two_builds (E : Env) (G : Globals) (name dir : string)
    (w : World) (pkgdir : string) (gofiles : list string) (data : string) :
  let c1 := mkCmd (compiler G)
              (["-o"; "_compilebench_.o"]
               ++ Fields (flagCompilerFlags (flags w)) ++ gofiles)%list
              pkgdir in
  let r1 := exec E c1 (execs w) (fs w) in
  let c2 := mkCmd (compiler G)
              (["-o"; "_compilebench_.o"]
               ++ Fields (flagCompilerFlags (flags w))
               ++ ["-memprofile"; "_compilebench_.memprof"; "-memprofilerate";
                   "65536"]
               ++ gofiles)%list pkgdir in
  let r2 := exec E c2 (execs w ++ [c1])%list (exec_fs r1) in
  build_Import E dir = inl (pkgdir, gofiles) ->
  flagMemprofile (flags w) = "" ->
  flagCpuprofile (flags w) = "" ->
  exec_err r1 = None ->
  exec_err r2 = None ->
  exec_fs r2 !! memprof pkgdir = Some data ->
  exists w',
    Old.runBuild E G name dir w = Done w'
    /\ stdout w'
       = (stdout w ++
          [record_line ("Benchmark" +:+ name)
             [(itoa (exec_wall r1), "ns/op");
              (itoa (bytes (scanProfile data)), "B/op");
              (itoa (allocs (scanProfile data)), "allocs/op")] +:+ LF])%list
    /\ execs w' = (execs w ++ [c1; c2])%list
    /\ stderr w' = stderr w
    /\ fs w' = delete (memprof pkgdir) (delete (objfile pkgdir) (exec_fs r2)).
Proof.
  cbn zeta. intros Himp Hmem Hcpu Hok1 Hok2 Hdata.
  unfold Old.runBuild. rewrite Himp.
  unfold CombinedOutput, run. rewrite Hok1.
  cbn [flags execs fs now]. rewrite Hcpu.
  cbn [nonempty String.eqb negb app].
  change (itoa (64 * 1024)) with "65536".
  cbn [app] in Hok2, Hdata. rewrite Hok2.
  unfold ReadFile. cbn [fs]. rewrite Hdata.
  unfold Old.print_result, Printf. rewrite Sprintf_result_old.
  unfold Old.finish. cbn [flags]. rewrite Hmem.
  cbn [nonempty String.eqb negb flags]. rewrite Hcpu.
  cbn [nonempty String.eqb negb].
  eexists. split; [reflexivity|].
  cbn [Remove set_fs stdout execs stderr fs].
  replace (now w + exec_wall _ - now w)
    with (exec_wall (exec E (mkCmd (compiler G)
                               ("-o" :: "_compilebench_.o"
                                :: Fields (flagCompilerFlags (flags w))
                                   ++ gofiles) pkgdir) (execs w) (fs w)))
    by lia.
  rewrite <- app_assoc. repeat split; reflexivity.
Qed.

Lemma old_runBuild_two_builds_witness :
  exists w',
    Old.runBuild (Scenario.demo_env false "" (Some Scenario.heap_profile) true)
      (Scenario.demo_globals None) "Template" "html/template"
      (Scenario.demo_world false "")
    = Done w'
    /\ stdout w' = ["BenchmarkTemplate 1 1000 ns/op 4096 B/op 77 allocs/op" +:+ LF].
Proof.
  destruct (old_runBuild_two_builds
              (Scenario.demo_env false "" (Some Scenario.heap_profile) true)
              (Scenario.demo_globals None) "Template" "html/template"
              (Scenario.demo_world false "") "/go/src/html/template"
              ["a.go"; "b.go"] Scenario.heap_profile
              eq_refl eq_refl eq_refl eq_refl eq_refl eq_refl)
    as (w' & Hrun & Hout & _).
  exists w'. split; [exact Hrun|exact Hout].
Defined.

Lemma old_finish_outcome (E : Env) (pkgdir out : string) (w : World) :
  match Old.finish E pkgdir out w with
  | Done w' => stderr w' = stderr w /\ stdout w' = stdout w
  | Exited code w' =>
    code = 1 /\ stdout w' = stdout w
    /\ exists msg, stderr w' = (stderr w ++ [LogLine msg])%list
  end.
Proof.
  unfold Old.finish, WriteFile, ReadFile, log_Fatal.
  destruct (nonempty (flagMemprofile (flags w))).
  - destruct (writable E (flagMemprofile (flags w))).
    + cbn [flags set_fs fs].
      destruct (nonempty (flagCpuprofile (flags w))); [|cbn; auto].
      destruct (_ !! Main.cpuprof pkgdir);
        [|cbn; repeat split; eauto].
      cbn [flags]. destruct (writable E (flagCpuprofile (flags w)));
        cbn; repeat split; eauto.
    + cbn. repeat split; eauto.
  - destruct (nonempty (flagCpuprofile (flags w))); [|cbn; auto].
    destruct (_ !! Main.cpuprof pkgdir); [|cbn; repeat split; eauto].
    destruct (writable E (flagCpuprofile (flags w)));
      cbn; repeat split; eauto.
Qed.

Lemma old_runBuild_cases (E : Env) (G : Globals) (name dir : string)
    (w : World) :
  match Old.runBuild E G name dir w with
  | Done w' =>
    stderr w' = stderr w
    /\ exists pairs,
         stdout w'
         = (stdout w ++ [record_line ("Benchmark" +:+ name) pairs +:+ LF])%list
  | Exited code w' =>
    code = 1
    /\ (exists msg, stderr w' = (stderr w ++ [LogLine msg])%list)
    /\ (stdout w' = stdout w
        \/ exists pairs,
             stdout w'
             = (stdout w
                ++ [record_line ("Benchmark" +:+ name) pairs +:+ LF])%list)
  end.
Proof.
  unfold Old.runBuild.
  destruct (build_Import E dir) as [[pkgdir gofiles]|err];
    [|cbn; repeat split; eauto].
  unfold CombinedOutput, run.
  destruct (exec_err _) as [err|].
  { rewrite Sprintf_failure_cmd. cbn. repeat split; eauto. }
  cbn [flags execs fs now stdout stderr].
  destruct (exec_err _) as [err|].
  { rewrite Sprintf_failure_cmd. cbn. repeat split; eauto. }
  unfold ReadFile. cbn [fs].
  destruct (_ !! Main.memprof pkgdir) as [data|];
    [|cbn; repeat split; eauto].
  unfold Old.print_result, Printf. rewrite Sprintf_result_old.
  match goal with
  | |- match Old.finish E ?p ?o ?w3 with _ => _ end =>
    pose proof (old_finish_outcome E p o w3) as Hfin;
      destruct (Old.finish E p o w3) as [w'|code w']
  end.
  - destruct Hfin as [He Ho]. rewrite He, Ho. cbn. split; eauto.
  - destruct Hfin as (Hc & Ho & msg & He). rewrite He, Ho. cbn.
    repeat split; eauto.
Qed.

(** X19.  In the older generation every failure is fatal and nothing else
    is logged: runBuild either returns, having printed exactly one record
    and written nothing to the standard error stream, or ends the process
    with status 1 after exactly one line of the log (the record is already
    printed by then when it is a profile copy that failed). *)
Theorem old_runBuild_outcome (E : Env) (G : Globals) (name dir : string)
    (w : World) :
  match Old.runBuild E G name dir w with
  | Done w' =>
    stderr w' = stderr w
    /\ exists pairs,
         stdout w'
         = (stdout w ++ [record_line ("Benchmark" +:+ name) pairs +:+ LF])%list
  | Exited code w' =>
    code = 1
    /\ (exists msg, stderr w' = (stderr w ++ [LogLine msg])%list)
    /\ (stdout w' = stdout w
        \/ exists pairs,
             stdout w'
             = (stdout w
                ++ [record_line ("Benchmark" +:+ name) pairs +:+ LF])%list)
  end.
Proof. apply old_runBuild_cases. Qed.

Lemma old_run_tests_outcome (E : Env) (G : Globals) (l : list (string * string))
    (w : World) :
  runRE G = None ->
  match Old.run_tests E G l w with
  | Done w' =>
    length (stdout w') = (length (stdout w) + length l)%nat
    /\ flagCount (flags w') = flagCount (flags w)
  | Exited code _ => code = 1
  end.
Proof.
  intros Hre. revert w. induction l as [|t l IH]; intros w; [cbn; auto|].
  cbn [Old.run_tests]. unfold Old.run_test. rewrite Hre.
  pose proof (old_runBuild_cases E G (fst t) (snd t) w) as Hb.
  assert (Hfl : forall w', Old.runBuild E G (fst t) (snd t) w = Done w' ->
                           flagCount (flags w') = flagCount (flags w)).
  { unfold Old.runBuild.
    destruct (build_Import E (snd t)) as [[pkgdir gofiles]|err];
      [|discriminate].
    unfold CombinedOutput, run.
    destruct (exec_err _); [destruct (Sprintf _ _); discriminate|].
    cbn [flags execs fs now stdout stderr].
    destruct (exec_err _); [destruct (Sprintf _ _); discriminate|].
    unfold ReadFile. cbn [fs].
    destruct (_ !! Main.memprof pkgdir); [|discriminate].
    unfold Old.print_result, Printf. rewrite Sprintf_result_old.
    unfold Old.finish, WriteFile, ReadFile, log_Fatal. cbn [flags fs].
    intros w'.
    repeat match goal with
           | |- context [if ?b then _ else _] => destruct b; cbn [flags fs]
           | |- context [match ?m !! ?k with _ => _ end] =>
             destruct (m !! k); cbn [flags fs]
           end;
      intros H; inversion H; reflexivity. }
  destruct (Old.runBuild E G (fst t) (snd t) w) as [w1|code w1]; [|apply Hb].
  destruct Hb as (_ & pairs & Hout).
  specialize (IH w1).
  destruct (Old.run_tests E G l w1) as [w2|code w2]; [|exact IH].
  destruct IH as [Hlen Hc]. rewrite Hlen, Hout, length_app, Hc.
  rewrite (Hfl w1 eq_refl). cbn [length]. split; [lia|reflexivity].
Qed.

(** X20.  The older generation without a -run filter: a run of the loop
    that ends normally has printed exactly one record for each of its three
    benchmarks in each round; otherwise it has ended with exit status 1. *)
Theorem old_main_loop_all_or_exit (E : Env) (G : Globals) (w : World) :
  runRE G = None ->
  match Old.main_loop E G w with
  | Done w' =>
    length (stdout w')
    = (length (stdout w) + 3 * Z.to_nat (flagCount (flags w)))%nat
  | Exited code _ => code = 1
  end.
Proof.
  intros Hre. unfold Old.main_loop.
  generalize (Z.to_nat (flagCount (flags w))) as n. intros n. revert w.
  induction n as [|n IH]; intros w; [cbn; lia|].
  cbn [Old.rounds].
  pose proof (old_run_tests_outcome E G Old.tests w Hre) as Ht.
  destruct (Old.run_tests E G Old.tests w) as [w1|code w1]; [|exact Ht].
  destruct Ht as [Hlen _]. specialize (IH w1).
  destruct (Old.rounds E G n w1) as [w2|code w2]; [|exact IH].
  rewrite IH, Hlen. change (length Old.tests) with 3%nat. lia.
Qed.

Lemma old_main_loop_all_or_exit_witness :
  match Old.main_loop
          (Scenario.demo_env false "" (Some Scenario.heap_profile) true)
          (Scenario.demo_globals None) (Scenario.demo_world false "") with
  | Done w' => length (stdout w') = 3%nat
  | Exited code _ => code = 1
  end.
Proof.
  exact (old_main_loop_all_or_exit
           (Scenario.demo_env false "" (Some Scenario.heap_profile) true)
           (Scenario.demo_globals None) (Scenario.demo_world false "")
           eq_refl).
Defined.

(** *** The start of main *)

Import Setup.

Lemma Sprintf_no_compiler_go (err out : string) :
  Sprintf ("go tool -n compiler: %v" +:+ LF +:+ "%s") [AStr err; AStr out]
  = Some ("go tool -n compiler: " +:+ err +:+ LF +:+ out).
Proof. rewrite <- (append_nil_r out) at 2. reflexivity. Qed.

Lemma Sprintf_no_compiler_toolexec (exe err out : string) :
  Sprintf ("%s -n compiler: %v" +:+ LF +:+ "%s") [AStr exe; AStr err; AStr out]
  = Some (exe +:+ " -n compiler: " +:+ err +:+ LF +:+ out).
Proof. rewrite <- (append_nil_r out) at 2. reflexivity. Qed.

Lemma Sprintf_invalid_run (err : string) :
  Sprintf "invalid -run argument: %v" [AStr err]
  = Some ("invalid -run argument: " +:+ err).
Proof. rewrite <- (append_nil_r err) at 2. reflexivity. Qed.

Lemma find_compiler_cases (E : Env) (TrimSpace : string -> string) (w : World) :
  let c1 := lookup w ["-n"; "compile"] in
  let r1 := exec E c1 (execs w) (fs w) in
  let c2 := lookup w ["-n"; "6g"] in
  let r2 := exec E c2 (execs w ++ [c1])%list (exec_fs r1) in
  match find_compiler E TrimSpace w with
  | inl (comp, six, w') =>
    stdout w' = stdout w /\ stderr w' = stderr w /\ flags w' = flags w
    /\ (if six
        then exec_err r1 <> None /\ exec_err r2 = None
             /\ comp = TrimSpace (exec_out r2)
             /\ execs w' = (execs w ++ [c1; c2])%list
        else exec_err r1 = None /\ comp = TrimSpace (exec_out r1)
             /\ execs w' = (execs w ++ [c1])%list)
  | inr o =>
    exec_err r1 <> None /\ exec_err r2 <> None
    /\ exists w' msg,
         o = Exited 1 w' /\ stdout w' = stdout w
         /\ stderr w' = (stderr w ++ [LogLine msg])%list
         /\ execs w'
            = (execs w ++ [c1; c2; lookup w ["tool"; "-n"; "compile"]])%list
  end.
Proof.
  cbn zeta. unfold find_compiler, CombinedOutput, run.
  destruct (exec_err (exec E (lookup w ["-n"; "compile"]) (execs w) (fs w)))
    as [e1|] eqn:H1.
  2:{ cbn. repeat split; reflexivity. }
  cbn [flags execs fs stdout stderr now].
  change (lookup {| flags := flags w; fs := _; stdout := _; stderr := _;
                    now := _; execs := _ |} ["-n"; "6g"])
    with (lookup w ["-n"; "6g"]).
  destruct (exec_err (exec E (lookup w ["-n"; "6g"]) _ _)) as [e2|] eqn:H2.
  2:{ cbn. rewrite <- app_assoc. repeat split; try reflexivity. discriminate. }
  cbn [flags execs fs stdout stderr now].
  split; [discriminate|]. split; [discriminate|].
  destruct (nonempty (flagToolexec (flags w)));
    [rewrite Sprintf_no_compiler_toolexec|rewrite Sprintf_no_compiler_go];
    eexists; eexists; (split; [reflexivity|]); cbn;
    rewrite <- !app_assoc; repeat split; reflexivity.
Qed.

(** X21.  Finding the compiler: when the lookup of [compile] succeeds the
    compiler is its trimmed output and is6g is false; when it fails and the
    lookup of [6g] succeeds, the compiler is the trimmed output of that one
    and is6g is true; when both fail, a third lookup is run for the error
    message and the process exits with status 1 after one log line.  Nothing
    is printed on the standard output in any case. *)
Theorem find_compiler_outcome (E : Env) (TrimSpace : string -> string)
    (w : World) :
  let c1 := lookup w ["-n"; "compile"] in
  let r1 := exec E c1 (execs w) (fs w) in
  let c2 := lookup w ["-n"; "6g"] in
  let r2 := exec E c2 (execs w ++ [c1])%list (exec_fs r1) in
  match find_compiler E TrimSpace w with
  | inl (comp, six, w') =>
    stdout w' = stdout w /\ stderr w' = stderr w /\ flags w' = flags w
    /\ (if six
        then exec_err r1 <> None /\ exec_err r2 = None
             /\ comp = TrimSpace (exec_out r2)
             /\ execs w' = (execs w ++ [c1; c2])%list
        else exec_err r1 = None /\ comp = TrimSpace (exec_out r1)
             /\ execs w' = (execs w ++ [c1])%list)
  | inr o =>
    exec_err r1 <> None /\ exec_err r2 <> None
    /\ exists w' msg,
         o = Exited 1 w' /\ stdout w' = stdout w
         /\ stderr w' = (stderr w ++ [LogLine msg])%list
         /\ execs w'
            = (execs w ++ [c1; c2; lookup w ["tool"; "-n"; "compile"]])%list
  end.
Proof. apply find_compiler_cases. Qed.

Lemma main_loop_returns (E : Env) (G : Globals) (w : World) :
  exists w', main_loop E G w = Done w'.
Proof.
  unfold main_loop.
  generalize (Z.to_nat (flagCount (flags w))) as n. intros n. revert w.
  induction n as [|n IH]; intros w; [exists w; reflexivity|].
  destruct (run_tests_returns E G tests w tests_have_targets) as (w1 & H1 & _).
  destruct (IH w1) as (w2 & H2).
  exists w2. cbn [rounds]. rewrite H1. exact H2.
Qed.

(** X22.  From the start of main to the end of the benchmark loop the
    process can only be ended by the setup: main gets through the loop if
    and only if one of the two compiler lookups succeeds and the -run
    expression is empty or compiles; otherwise it exits with status 1
    without having printed a record.  No failure of a benchmark ends it. *)
Theorem main_exits_only_in_setup (E : Env) (TrimSpace : string -> string)
    (regexp_Compile : string -> (string -> bool) + string)
    (flagRun : string) (w : World) :
  let c1 := lookup w ["-n"; "compile"] in
  let r1 := exec E c1 (execs w) (fs w) in
  let r2 := exec E (lookup w ["-n"; "6g"]) (execs w ++ [c1])%list (exec_fs r1) in
  let setup_ok :=
    (exec_err r1 = None \/ exec_err r2 = None)
    /\ (flagRun = "" \/ exists re, regexp_Compile flagRun = inl re) in
  match main_to_loop E TrimSpace regexp_Compile flagRun w with
  | Done _ => setup_ok
  | Exited code w' => code = 1 /\ stdout w' = stdout w /\ ~ setup_ok
  end.
Proof.
  cbn zeta. unfold main_to_loop.
  pose proof (find_compiler_cases E TrimSpace w) as Hf. cbn zeta in Hf.
  destruct (find_compiler E TrimSpace w) as [[[comp six] w1]|o].
  - destruct Hf as (Hout & _ & _ & Hsix).
    assert (Hlook : exec_err (exec E (lookup w ["-n"; "compile"]) (execs w)
                                (fs w)) = None
                    \/ exec_err (exec E (lookup w ["-n"; "6g"])
                                   (execs w ++ [lookup w ["-n"; "compile"]])
                                   (exec_fs (exec E (lookup w ["-n"; "compile"])
                                               (execs w) (fs w)))) = None).
    { destruct six; [right; apply Hsix|left; apply Hsix]. }
    unfold compile_run, nonempty.
    destruct (String.eqb flagRun "") eqn:Hrun; cbn [negb].
    + apply String.eqb_eq in Hrun.
      destruct (main_loop_returns E (mkGlobals comp six None) w1) as (w2 & H2).
      rewrite H2. split; [exact Hlook|left; exact Hrun].
    + apply String.eqb_neq in Hrun.
      destruct (regexp_Compile flagRun) as [re|err] eqn:Hre.
      * destruct (main_loop_returns E (mkGlobals comp six (Some re)) w1)
          as (w2 & H2).
        rewrite H2. split; [exact Hlook|right; eexists; reflexivity].
      * rewrite Sprintf_invalid_run. cbn.
        split; [reflexivity|]. split; [exact Hout|].
        intros [_ [Hempty|[re Hre']]]; [contradiction|discriminate].
  - destruct Hf as (H1 & H2 & w' & msg & -> & Hout & _).
    split; [reflexivity|]. split; [exact Hout|].
    intros [[Hok|Hok] _]; contradiction.
Qed.

(** X23.  Without -alloc, -memprofile and -cpuprofile a compilation whose
    build succeeded reads, copies and removes no profile: it logs nothing,
    prints the record with the two timings, and leaves every file but the
    object file as the compiler left it, a profile lying in the directory
    included. *)
Theorem compile_without_profiles (E : Env) (G : Globals) (name : string)
    (files : list string) (pkgdir : string) (w : World) :
  let r := exec E (mkCmd (compiler G) (compile_args files w) pkgdir)
             (execs w) (fs w) in
  is6g G = false ->
  flagAlloc (flags w) = false ->
  flagMemprofile (flags w) = "" ->
  flagCpuprofile (flags w) = "" ->
  exec_err r = None ->
  let w' := compile E G name files pkgdir w in
  stdout w'
  = (stdout w ++
     [record_line name
        [(itoa (exec_wall r), "ns/op"); (itoa (exec_user r), "user-ns/op")]
      +:+ LF])%list
  /\ stderr w' = (stderr w ++ [ChildOutput (exec_out r)])%list
  /\ fs w' = delete (objfile pkgdir) (exec_fs r)
  /\ fs w' !! memprof pkgdir = exec_fs r !! memprof pkgdir.
Proof.
  cbn zeta. intros H6g Halloc Hmem Hcpu Hok.
  assert (Hstart : compile_start G w = w)
    by (unfold compile_start; rewrite H6g; reflexivity).
  pose proof (compile_success E G name files pkgdir w) as Hc.
  cbn zeta in Hc. rewrite Hstart in Hc. specialize (Hc Hok). rewrite Hc.
  clear Hc.
  unfold Run, run. cbn [fst].
  unfold memprofile_step, want_memprof. cbn [flags].
  rewrite Halloc, Hmem. cbn [nonempty String.eqb negb orb fst snd].
  unfold cpuprofile_step. cbn [flags]. rewrite Hcpu.
  cbn [nonempty String.eqb negb].
  rewrite print_result_printed. cbn [flags]. rewrite Halloc.
  cbn [Remove set_fs printed stdout stderr fs now].
  replace (now w + exec_wall _ - now w)
    with (exec_wall (exec E (mkCmd (compiler G) (compile_args files w) pkgdir)
                       (execs w) (fs w))) by lia.
  repeat split; try reflexivity.
  apply lookup_delete_ne.
  unfold objfile, memprof. intros H.
  apply (String.app_inj pkgdir) in H. discriminate.
Qed.

Lemma compile_without_profiles_witness :
  fs (compile (Scenario.demo_env false "" (Some Scenario.heap_profile) true)
        (Scenario.demo_globals None) "BenchmarkUnicode" ["a.go"]
        "/go/src/unicode" (Scenario.demo_world false ""))
    !! memprof "/go/src/unicode"
  = Some Scenario.heap_profile.
Proof.
  exact (proj2 (proj2 (proj2
           (compile_without_profiles
              (Scenario.demo_env false "" (Some Scenario.heap_profile) true)
              (Scenario.demo_globals None) "BenchmarkUnicode" ["a.go"]
              "/go/src/unicode" (Scenario.demo_world false "")
              eq_refl eq_refl eq_refl eq_refl eq_refl)))).
Defined.

(** *** The flags *)

Lemma runCmd_flags (E : Env) (name : string) (cmd : Cmd) (w : World) :
  flags (runCmd E name cmd w) = flags w.
Proof.
  unfold runCmd, CombinedOutput, run.
  destruct (exec_err _); [unfold log_Printf|unfold Printf];
    destruct (Sprintf _ _); reflexivity.
Qed.

Lemma runSize_flags (E : Env) (name path : string) (w : World) :
  flags (runSize E name path w) = flags w.
Proof.
  unfold runSize, Run, run.
  destruct (exec_err _); [reflexivity|].
  unfold Stat. cbn [fs]. destruct (_ !! compilebenchout); [|reflexivity].
  unfold CombinedOutput, run. cbn [fs execs].
  destruct (exec_err _);
    [unfold log_Printf; destruct (Sprintf _ _); reflexivity|].
  unfold size_report. destruct (len _ <? 2);
    [unfold log_Printf; destruct (Sprintf _ _); reflexivity|].
  destruct (_ && _); [unfold Printf; destruct (Sprintf _ _); reflexivity|].
  destruct (_ && _); [unfold Printf; destruct (Sprintf _ _); reflexivity|].
  reflexivity.
Qed.

Lemma compile_flags (E : Env) (G : Globals) (name : string)
    (files : list string) (pkgdir : string) (w : World) :
  flags (compile E G name files pkgdir w) = flags (compile_start G w).
Proof.
  destruct (exec_err (exec E (mkCmd (compiler G)
                                (compile_args files (compile_start G w)) pkgdir)
                        (execs (compile_start G w)) (fs (compile_start G w))))
    as [err|] eqn:Herr.
  - rewrite (compile_failure _ _ _ _ _ _ _ Herr). reflexivity.
  - pose proof (compile_success E G name files pkgdir w) as Hc.
    cbn zeta in Hc. specialize (Hc Herr). rewrite Hc.
    match goal with
    | |- flags (Remove _ (print_result ?a ?b ?c ?d ?w3)) = _ =>
      destruct (print_result_frame a b c d w3) as (Hf4 & _)
    end.
    cbn zeta in Hf4. cbn [Remove set_fs flags]. rewrite Hf4.
    match goal with
    | |- flags (cpuprofile_step E pkgdir ?w2) = _ =>
      destruct (cpuprofile_step_frame E pkgdir w2) as (Hf3 & _)
    end.
    cbn zeta in Hf3. rewrite Hf3.
    match goal with
    | |- flags (fst (memprofile_step E pkgdir ?w1)) = _ =>
      destruct (memprofile_step_frame E pkgdir w1) as (Hf2 & _)
    end.
    cbn zeta in Hf2. rewrite Hf2. reflexivity.
Qed.

(** X24.  The only change runBuild ever makes to the flags is the reset
    for 6g: with another compiler the flags come back as they went in; with
    6g they come back either untouched (the special benchmarks, an
    unresolved package) or with -alloc, -memprofile, -cpuprofile and
    -memprofilerate switched off and every other flag kept. *)
Theorem runBuild_flags (E : Env) (G : Globals) (name dir file : string)
    (w : World) :
  (is6g G = false ->
   flags (world_of (runBuild E G name dir file w)) = flags w)
  /\ (flags (world_of (runBuild E G name dir file w)) = flags w
      \/ flags (world_of (runBuild E G name dir file w))
         = mkFlags false (flagToolexec (flags w)) (flagCompilerFlags (flags w))
             (flagCount (flags w)) "" "" (-1) (flagShort (flags w))).
Proof.
  assert (Hstart : flags (compile_start G w)
                   = if is6g G then reset_6g (flags w) else flags w)
    by (unfold compile_start; destruct (is6g G); reflexivity).
  unfold runBuild.
  destruct (String.eqb name "BenchmarkStdCmd");
    [cbn [world_of]; unfold runStdCmd; rewrite runCmd_flags; auto|].
  destruct (String.eqb name "BenchmarkCmdGoSize");
    [cbn [world_of]; rewrite runSize_flags; auto|].
  destruct (String.eqb name "BenchmarkHelloSize");
    [cbn [world_of]; rewrite runSize_flags; auto|].
  destruct (nonempty file).
  { cbn [world_of]. rewrite compile_flags, Hstart.
    destruct (is6g G); [split; [discriminate|right; reflexivity]|auto]. }
  destruct (nonempty dir); [|cbn; auto].
  destruct (build_Import E dir) as [[pkgdir gofiles]|err]; [|cbn; auto].
  cbn [world_of]. rewrite compile_flags, Hstart.
  destruct (is6g G); [split; [discriminate|right; reflexivity]|auto].
Qed.

Lemma runBuild_flags_witness :
  flags (world_of Scenario.failed_copy_main)
  = flags (Scenario.demo_world false "/ro/mem.prof").
Proof.
  exact (proj1 (runBuild_flags
                  (Scenario.demo_env false "" (Some Scenario.heap_profile) false)
                  (Scenario.demo_globals None) "BenchmarkTemplate"
                  "html/template" "" (Scenario.demo_world false "/ro/mem.prof"))
           eq_refl).
Defined.

(** *** Counter lines as text *)

Lemma FieldsFunc_from_plain (s cur : string) :
  plain_token s = true ->
  FieldsFunc_from IsSpace s 0 (Some cur) = [cur +:+ s].
Proof.
  revert cur. induction s as [|c s IH]; intros cur H.
  - cbn. rewrite append_nil_r. reflexivity.
  - cbn [plain_token] in H.
    apply andb_prop in H as [H Hs]. apply andb_prop in H as [Hc Hsp].
    apply Z.ltb_lt in Hc. apply negb_true_iff in Hsp.
    cbn [FieldsFunc_from]. unfold DecodeRuneInString, first.
    replace (byteZ c <? 0x80) with true by (symmetry; apply Z.ltb_lt; exact Hc).
    rewrite Hsp. cbn [Nat.pred push].
    rewrite (IH _ Hs), append_assoc. reflexivity.
Qed.

Lemma Fields_plain_token (c : ascii) (s : string) :
  plain_token (String c s) = true ->
  FieldsFunc_from IsSpace (String c s) 0 None = [String c s].
Proof.
  intros H. cbn [plain_token] in H.
  apply andb_prop in H as [H Hs]. apply andb_prop in H as [Hc Hsp].
  apply negb_true_iff in Hsp.
  cbn [FieldsFunc_from]. unfold DecodeRuneInString, first.
  rewrite Hc, Hsp. cbn [Nat.pred push].
  rewrite (FieldsFunc_from_plain _ _ Hs). reflexivity.
Qed.

Lemma digit_is_plain (c : ascii) (d : Z) :
  digit_val (byteZ c) = Some d ->
  (byteZ c <? 0x80) && negb (IsSpace (byteZ c)) = true.
Proof.
  destruct c as [[] [] [] [] [] [] [] []]; vm_compute;
    intros H; try discriminate H; reflexivity.
Qed.

Lemma digits_are_plain (base : Z) (s : string) :
  digits_in base s = true -> plain_token s = true.
Proof.
  induction s as [|c s IH]; [reflexivity|].
  cbn [digits_in plain_token].
  destruct (digit_val (byteZ c)) as [d|] eqn:Hd; [|discriminate].
  intros H. apply andb_prop in H as [_ H].
  rewrite (digit_is_plain c d Hd), (IH H). reflexivity.
Qed.

Lemma counter_line_fields (key : string) (c : ascii) (s : string) :
  plain_token (String c s) = true ->
  (key = "TotalAlloc" \/ key = "Mallocs") ->
  Fields ("# " +:+ key +:+ " = " +:+ String c s)
  = ["#"; key; "="; String c s].
Proof.
  intros Hp [-> | ->]; unfold Fields, FieldsFunc.
  - change (FieldsFunc_from IsSpace ("# " +:+ "TotalAlloc" +:+ " = "
                                     +:+ String c s) 0 None)
      with (["#"; "TotalAlloc"; "="]
            ++ FieldsFunc_from IsSpace (String c s) 0 None)%list.
    rewrite (Fields_plain_token c s Hp). reflexivity.
  - change (FieldsFunc_from IsSpace ("# " +:+ "Mallocs" +:+ " = "
                                     +:+ String c s) 0 None)
      with (["#"; "Mallocs"; "="]
            ++ FieldsFunc_from IsSpace (String c s) 0 None)%list.
    rewrite (Fields_plain_token c s Hp). reflexivity.
Qed.

(** X25.  A counter line as the Go runtime prints it is read back as its
    number: for a decimal numeral without leading zero below 2^63, the line
    [# TotalAlloc = <numeral>] sets the bytes to its value and leaves the
    allocations, and [# Mallocs = <numeral>] sets the allocations and leaves
    the bytes; likewise for a numeral [0x...] of hexadecimal digits. *)
Theorem scan_line_reads_numerals (acc : Counters) :
  (forall (c0 : ascii) (rest : string),
     0x31 <= byteZ c0 <= 0x39 ->
     digits_in 10 rest = true ->
     value_from 10 (String c0 rest) 0 < 2 ^ 63 ->
     scan_line acc ("# TotalAlloc = " +:+ String c0 rest)
     = mkCounters (allocs acc) (value_from 10 (String c0 rest) 0)
     /\ scan_line acc ("# Mallocs = " +:+ String c0 rest)
        = mkCounters (value_from 10 (String c0 rest) 0) (bytes acc))
  /\ (forall (c2 : ascii) (r2 : string),
        digits_in 16 (String c2 r2) = true ->
        value_from 16 (String c2 r2) 0 < 2 ^ 63 ->
        scan_line acc ("# TotalAlloc = "
                       +:+ String "0" (String "x" (String c2 r2)))
        = mkCounters (allocs acc) (value_from 16 (String c2 r2) 0)
        /\ scan_line acc ("# Mallocs = "
                          +:+ String "0" (String "x" (String c2 r2)))
           = mkCounters (value_from 16 (String c2 r2) 0) (bytes acc)).
Proof.
  split.
  - intros c0 rest Hc Hd Hv.
    assert (Hp : plain_token (String c0 rest) = true).
    { apply (digits_are_plain 10). cbn [digits_in].
      unfold digit_val.
      replace ((0x30 <=? byteZ c0) && (byteZ c0 <=? 0x39)) with true
        by (symmetry; apply andb_true_intro; split; apply Z.leb_le; lia).
      rewrite Hd.
      replace (byteZ c0 - 0x30 <? 10) with true
        by (symmetry; apply Z.ltb_lt; lia).
      reflexivity. }
    pose proof (ParseInt0_decimal c0 rest Hc Hd Hv) as Hparse.
    split; rewrite scan_line_counter_of.
    + rewrite (counter_of_fields ("# TotalAlloc = " +:+ String c0 rest)
                 "TotalAlloc" _ [] _
                 (counter_line_fields "TotalAlloc" c0 rest Hp (or_introl eq_refl))
                 Hparse).
      reflexivity.
    + rewrite (counter_of_fields ("# Mallocs = " +:+ String c0 rest)
                 "Mallocs" _ [] _
                 (counter_line_fields "Mallocs" c0 rest Hp (or_intror eq_refl))
                 Hparse).
      reflexivity.
  - intros c2 r2 Hd Hv.
    assert (Hp : plain_token (String "0" (String "x" (String c2 r2))) = true).
    { change (plain_token (String "0" (String "x" (String c2 r2))))
        with (plain_token (String c2 r2)).
      apply (digits_are_plain 16). exact Hd. }
    pose proof (ParseInt0_hex "x" c2 r2 eq_refl Hd Hv) as Hparse.
    split; rewrite scan_line_counter_of.
    + rewrite (counter_of_fields
                 ("# TotalAlloc = " +:+ String "0" (String "x" (String c2 r2)))
                 "TotalAlloc" _ [] _
                 (counter_line_fields "TotalAlloc" "0" _ Hp (or_introl eq_refl))
                 Hparse).
      reflexivity.
    + rewrite (counter_of_fields
                 ("# Mallocs = " +:+ String "0" (String "x" (String c2 r2)))
                 "Mallocs" _ [] _
                 (counter_line_fields "Mallocs" "0" _ Hp (or_intror eq_refl))
                 Hparse).
      reflexivity.
Qed.

Lemma scan_line_reads_numerals_witness :
  scan_line (mkCounters 5 6) "# TotalAlloc = 1234" = mkCounters 5 1234
  /\ scan_line (mkCounters 5 6) "# Mallocs = 0xff" = mkCounters 255 6.
Proof.
  split.
  - apply (proj1 (proj1 (scan_line_reads_numerals (mkCounters 5 6))
                    "1"%char "234" ltac:(vm_compute; split; discriminate)
                    eq_refl eq_refl)).
  - apply (proj2 (proj2 (scan_line_reads_numerals (mkCounters 5 6))
                    "f"%char "f" eq_refl eq_refl)).
Defined.

(** *** Numerals out of range *)

Lemma ParseUint_loop_digits_total (base : Z) (s : string) (n : Z) (u : bool) :
  2 <= base <= 36 ->
  digits_in base s = true ->
  0 <= n <= maxUint64 ->
  ParseUint_loop base true s n u
  = (if value_from base s n <=? maxUint64
     then NumOk (value_from base s n) else ErrRange, u).
Proof.
  intros Hb. revert n.
  assert (Hmax : maxUint64 = 2 ^ 64 - 1) by reflexivity.
  induction s as [|c s IH]; intros n Hd Hn;
    cbn [ParseUint_loop value_from] in *.
  - replace (n <=? maxUint64) with true by (symmetry; apply Z.leb_le; lia).
    reflexivity.
  - cbn [digits_in] in Hd.
    destruct (digit_val (byteZ c)) as [d|] eqn:Hc; [|discriminate].
    apply andb_prop in Hd as [Hlt Hd]. apply Z.ltb_lt in Hlt.
    rewrite (digit_val_not_underscore _ _ Hc). cbn [andb].
    change (default 0 (Some d)) with d.
    pose proof (digit_val_nonneg _ _ Hc) as Hd0.
    replace (base <=? d) with false by (symmetry; apply Z.leb_gt; lia).
    assert (Hge : n * base + d <= value_from base s (n * base + d))
      by (apply value_from_ge; [lia|nia|exact Hd]).
    pose proof (Z.mul_div_le maxUint64 base ltac:(lia)) as Hdiv1.
    pose proof (Z.mul_succ_div_gt maxUint64 base ltac:(lia)) as Hdiv2.
    destruct (maxUint64 / base + 1 <=? n) eqn:Hcut.
    + apply Z.leb_le in Hcut.
      replace (value_from base s (n * base + d) <=? maxUint64) with false
        by (symmetry; apply Z.leb_gt; nia).
      reflexivity.
    + apply Z.leb_gt in Hcut.
      assert (Hn0 : 0 <= n * base <= maxUint64) by nia.
      unfold uint64. rewrite (Z.mod_small (n * base)) by lia.
      destruct (Z_le_gt_dec (n * base + d) maxUint64) as [Hfit|Hover].
      * rewrite (Z.mod_small (n * base + d)) by lia.
        replace (n * base + d <? n * base) with false
          by (symmetry; apply Z.ltb_ge; lia).
        replace (maxUint64 <? n * base + d) with false
          by (symmetry; apply Z.ltb_ge; lia).
        cbn [orb]. apply IH; [exact Hd|lia].
      * assert (Hwrap : (n * base + d) mod 2 ^ 64 = n * base + d - 2 ^ 64)
          by (symmetry; apply (Z.mod_unique _ _ 1); lia).
        rewrite Hwrap.
        replace (n * base + d - 2 ^ 64 <? n * base) with true
          by (symmetry; apply Z.ltb_lt; lia).
        cbn [orb].
        replace (value_from base s (n * base + d) <=? maxUint64) with false
          by (symmetry; apply Z.leb_gt; lia).
        reflexivity.
Qed.

Lemma decimal_digits (c0 : ascii) (rest : string) :
  0x31 <= byteZ c0 <= 0x39 ->
  digits_in 10 rest = true ->
  digits_in 10 (String c0 rest) = true.
Proof.
  intros Hc Hd. cbn [digits_in]. unfold digit_val.
  replace ((0x30 <=? byteZ c0) && (byteZ c0 <=? 0x39)) with true
    by (symmetry; apply andb_true_intro; split; apply Z.leb_le; lia).
  rewrite Hd.
  replace (byteZ c0 - 0x30 <? 10) with true by (symmetry; apply Z.ltb_lt; lia).
  reflexivity.
Qed.

Lemma ParseUint0_decimal_total (c0 : ascii) (rest : string) :
  0x31 <= byteZ c0 <= 0x39 ->
  digits_in 10 rest = true ->
  ParseUint0 (String c0 rest)
  = if value_from 10 (String c0 rest) 0 <=? maxUint64
    then NumOk (value_from 10 (String c0 rest) 0) else ErrRange.
Proof.
  intros Hc Hd. unfold ParseUint0.
  replace (byteZ c0 =? 0x30) with false by (symmetry; apply Z.eqb_neq; lia).
  assert (Hmax : maxUint64 = 2 ^ 64 - 1) by reflexivity.
  rewrite ParseUint_loop_digits_total;
    [|lia|apply decimal_digits; assumption|lia].
  destruct (_ <=? maxUint64); reflexivity.
Qed.

(** A decimal numeral that does not fit int64 is refused by ParseInt, with
    or without a minus sign before it; the lowest int64 is still read. *)
Lemma ParseInt0_decimal_overflow (c0 : ascii) (rest : string) :
  0x31 <= byteZ c0 <= 0x39 ->
  digits_in 10 rest = true ->
  (2 ^ 63 <= value_from 10 (String c0 rest) 0 ->
   ParseInt0 (String c0 rest) = ErrRange)
  /\ (2 ^ 63 < value_from 10 (String c0 rest) 0 ->
      ParseInt0 (String "-" (String c0 rest)) = ErrRange)
  /\ (value_from 10 (String c0 rest) 0 = 2 ^ 63 ->
      ParseInt0 (String "-" (String c0 rest)) = NumOk (- 2 ^ 63)).
Proof.
  intros Hc Hd.
  pose proof (ParseUint0_decimal_total c0 rest Hc Hd) as Hu.
  assert (Hmax : maxUint64 = 2 ^ 64 - 1) by reflexivity.
  split; [|split]; intros Hv.
  - unfold ParseInt0, is_sign.
    replace (byteZ c0 =? 0x2D) with false by (symmetry; apply Z.eqb_neq; lia).
    replace (byteZ c0 =? 0x2B) with false by (symmetry; apply Z.eqb_neq; lia).
    cbn [orb negb andb]. rewrite Hu.
    destruct (value_from 10 (String c0 rest) 0 <=? maxUint64).
    + replace (2 ^ 63 <=? value_from 10 (String c0 rest) 0) with true
        by (symmetry; apply Z.leb_le; exact Hv).
      reflexivity.
    + reflexivity.
  - unfold ParseInt0, is_sign.
    change (byteZ "-") with 0x2D. cbn [Z.eqb Pos.eqb orb negb andb].
    rewrite Hu.
    destruct (value_from 10 (String c0 rest) 0 <=? maxUint64).
    + replace (2 ^ 63 <? value_from 10 (String c0 rest) 0) with true
        by (symmetry; apply Z.ltb_lt; exact Hv).
      reflexivity.
    + reflexivity.
  - unfold ParseInt0, is_sign.
    change (byteZ "-") with 0x2D. cbn [Z.eqb Pos.eqb orb negb andb].
    rewrite Hu, Hv. reflexivity.
Qed.

(** X2.  A counter line whose number does not fit int64 is passed over, the
    counters staying as they were, never stored wrapped or clamped: so for
    a decimal numeral (without leading zero) of value 2^63 or more, and for
    such a numeral above 2^63 behind a minus sign, in a TotalAlloc or a
    Mallocs line. *)
Theorem scan_line_skips_overflow (acc : Counters) (c0 : ascii) (rest : string) :
  0x31 <= byteZ c0 <= 0x39 ->
  digits_in 10 rest = true ->
  (2 ^ 63 <= value_from 10 (String c0 rest) 0 ->
   scan_line acc ("# TotalAlloc = " +:+ String c0 rest) = acc
   /\ scan_line acc ("# Mallocs = " +:+ String c0 rest) = acc)
  /\ (2 ^ 63 < value_from 10 (String c0 rest) 0 ->
      scan_line acc ("# TotalAlloc = " +:+ String "-" (String c0 rest)) = acc
      /\ scan_line acc ("# Mallocs = " +:+ String "-" (String c0 rest)) = acc).
Proof.
  intros Hc Hd.
  destruct (ParseInt0_decimal_overflow c0 rest Hc Hd) as (Hpos & Hneg & _).
  assert (Hp : plain_token (String c0 rest) = true)
    by (apply (digits_are_plain 10), decimal_digits; assumption).
  assert (Hp' : plain_token (String "-" (String c0 rest)) = true)
    by (change (plain_token (String "-" (String c0 rest)))
          with (plain_token (String c0 rest)); exact Hp).
  assert (Hskip : forall key tok,
            Fields ("# " +:+ key +:+ " = " +:+ tok) = ["#"; key; "="; tok] ->
            ParseInt0 tok = ErrRange ->
            scan_line acc ("# " +:+ key +:+ " = " +:+ tok) = acc).
  { intros key tok Hf Hr. apply scan_line_skip_parse.
    rewrite Hf. unfold index. cbn [nth]. rewrite Hr. discriminate. }
  split; intros Hv; split.
  - apply (Hskip "TotalAlloc" (String c0 rest));
      [apply counter_line_fields; auto|apply Hpos; exact Hv].
  - apply (Hskip "Mallocs" (String c0 rest));
      [apply counter_line_fields; auto|apply Hpos; exact Hv].
  - apply (Hskip "TotalAlloc" (String "-" (String c0 rest)));
      [apply counter_line_fields; auto|apply Hneg; exact Hv].
  - apply (Hskip "Mallocs" (String "-" (String c0 rest)));
      [apply counter_line_fields; auto|apply Hneg; exact Hv].
Qed.

Lemma scan_line_skips_overflow_witness :
  scan_line (mkCounters 5 6) "# TotalAlloc = 9223372036854775808"
  = mkCounters 5 6
  /\ scan_line (mkCounters 5 6) "# Mallocs = -9223372036854775809"
     = mkCounters 5 6.
Proof.
  split.
  - apply (proj1 (scan_line_skips_overflow (mkCounters 5 6)
                    "9"%char "223372036854775808"
                    ltac:(vm_compute; split; discriminate) eq_refl)).
    vm_compute. discriminate.
  - apply (proj2 (scan_line_skips_overflow (mkCounters 5 6)
                    "9"%char "223372036854775809"
                    ltac:(vm_compute; split; discriminate) eq_refl)).
    vm_compute. reflexivity.
Defined.
